(** * notu-api: notes, likes, trash and friends over a document store

    A shallow embedding of the request handlers of [src/routes/notes.ts]
    and of the auth/friends router, together with the two Mongoose schemas
    ([src/models/Note.ts], [src/models/User.ts]) they operate on.

    Conventions of the embedding.
    - A collection is a finite map from [_id.toString()], the 24 lower-case
      hexadecimal digits of the document's ObjectId, to the document.
    - What a client sends as an id (a path parameter) is any string;
      Mongoose casts it to an ObjectId when it is used as [_id] in a query
      ([castObjectId]): 24 hexadecimal digits in either case are accepted,
      anything else throws a [CastError], which the handler's [catch] turns
      into its 500 answer (so with bson 5 and later, that is Mongoose 7 and
      later; earlier releases also took any string of 12 bytes).
      Comparisons written [x.toString() === id] in the source compare with
      the string as sent.
    - [req.userId], the [userId] of a decoded token and the [userId] path
      of a note come from [user._id.toString()] (the tokens are minted
      from it, and notes are only ever written with [req.userId]); they
      are id strings in the form above, so casting them is the identity
      and is left out.
    - A string is the UTF-8 text the database holds.  [length] counts
      UTF-16 code units ([jsLength]), [trim] strips the white space and
      line terminators of ECMAScript, and [toLowerCase], which needs the
      Unicode case tables, is a parameter.
    - A handler is a function from the database to the new database and
      the HTTP response.  The clock reading of the request and the
      ObjectId minted by [new Note]/[new User] are inputs of the handler.
    - [doc.save()] of a loaded document validates the document against
      its schema and, when that passes, sends the paths the handler
      changed; [findByIdAndUpdate] runs no validation.  Two [save]s under
      [Promise.all] are independent: one may be written although the
      other is rejected, and the handler then answers 500.  When both
      saved documents are copies of the same stored document, the second
      is subject to Mongoose's version check (see [User_save]).
    - Mongoose's bookkeeping ([createdAt], [updatedAt], [__v], the [_id] of
      an embedded image) is not represented.
    - A rejected promise or thrown error inside a handler's [try] block
      leads to its [catch] branch (status 500). *)

From stdpp Require Import gmap strings list fin_maps sorting pretty.
From Stdlib Require Import ZArith Ascii.

Open Scope Z_scope.
Open Scope string_scope.

(** ** JavaScript string helpers *)

(** The number of UTF-16 code units a UTF-8 byte stands for: a byte below
    0x80 or the lead byte of a two- or three-byte sequence starts a code
    point of the basic plane (one unit), the lead byte of a four-byte
    sequence one beyond it (a surrogate pair), a continuation byte
    nothing. *)
Definition unitsOf (c : ascii) : nat :=
  let n := nat_of_ascii c in
  if (n <? 128)%nat then 1%nat
  else if (n <? 192)%nat then 0%nat
  else if (n <? 240)%nat then 1%nat
  else 2%nat.

(** [s.length] *)
Fixpoint jsLength (s : string) : nat :=
  match s with
  | EmptyString => 0%nat
  | String c s' => (unitsOf c + jsLength s')%nat
  end.

(** U+FFFD, which the driver writes for half a surrogate pair. *)
Definition replacementCharacter : string :=
  String (ascii_of_nat 239) (String (ascii_of_nat 191) (String (ascii_of_nat 189) "")).

(** [s.substring(0, n)]: the first [n] code units.  When the cut falls
    inside a surrogate pair the text that reaches the database ends in
    U+FFFD. *)
Fixpoint substring0 (n : nat) (s : string) : string :=
  match s with
  | EmptyString => EmptyString
  | String c s' =>
      if (unitsOf c <=? n)%nat then String c (substring0 (n - unitsOf c) s')
      else if (n =? 0)%nat then EmptyString
      else replacementCharacter
  end.

(** The white space and line terminators of ECMAScript, by their UTF-8
    bytes: U+0009 to U+000D and U+0020; *)
Definition isSpace1 (c : ascii) : bool :=
  let n := nat_of_ascii c in
  ((9 <=? n)%nat && (n <=? 13)%nat || (n =? 32)%nat)%bool.

(** U+00A0; *)
Definition isSpace2 (c1 c2 : ascii) : bool :=
  ((nat_of_ascii c1 =? 194)%nat && (nat_of_ascii c2 =? 160)%nat)%bool.

(** U+1680, U+2000 to U+200A, U+2028, U+2029, U+202F, U+205F, U+3000 and
    U+FEFF. *)
Definition isSpace3 (c1 c2 c3 : ascii) : bool :=
  let n1 := nat_of_ascii c1 in
  let n2 := nat_of_ascii c2 in
  let n3 := nat_of_ascii c3 in
  ((n1 =? 225)%nat && (n2 =? 154)%nat && (n3 =? 128)%nat
   || (n1 =? 226)%nat && (n2 =? 128)%nat
      && ((128 <=? n3)%nat && (n3 <=? 138)%nat
          || (n3 =? 168)%nat || (n3 =? 169)%nat || (n3 =? 175)%nat)
   || (n1 =? 226)%nat && (n2 =? 129)%nat && (n3 =? 159)%nat
   || (n1 =? 227)%nat && (n2 =? 128)%nat && (n3 =? 128)%nat
   || (n1 =? 239)%nat && (n2 =? 187)%nat && (n3 =? 191)%nat)%bool.

Section DropSpaces.

(** Which one-, two- and three-byte sequences count as white space. *)
Variable p1 : ascii → bool.
Variable p2 : ascii → ascii → bool.
Variable p3 : ascii → ascii → ascii → bool.

(** Whether [l] begins with a white-space character. *)
Definition leadsWithSpace (l : list ascii) : bool :=
  match l with
  | c1 :: r1 =>
      p1 c1
      || match r1 with
         | c2 :: r2 =>
             p2 c1 c2
             || match r2 with
                | c3 :: _ => p3 c1 c2 c3
                | [] => false
                end
         | [] => false
         end
  | [] => false
  end.

(** [l] without the white-space characters it begins with. *)
Fixpoint dropSpaces (l : list ascii) : list ascii :=
  match l with
  | c1 :: r1 =>
      if p1 c1 then dropSpaces r1
      else
        match r1 with
        | c2 :: r2 =>
            if p2 c1 c2 then dropSpaces r2
            else
              match r2 with
              | c3 :: r3 => if p3 c1 c2 c3 then dropSpaces r3 else l
              | [] => l
              end
        | [] => l
        end
  | [] => []
  end.

End DropSpaces.

(** [s.trimStart()] and [s.trimEnd()] on the bytes of [s]; at the end of
    the text the bytes of a character are met last byte first. *)
Definition trimStartBytes : list ascii → list ascii :=
  dropSpaces isSpace1 isSpace2 isSpace3.

Definition trimEndBytes (l : list ascii) : list ascii :=
  reverse (dropSpaces isSpace1 (λ c2 c1, isSpace2 c1 c2)
                      (λ c3 c2 c1, isSpace3 c1 c2 c3) (reverse l)).

(** [s.trim()] *)
Definition trim (s : string) : string :=
  String.string_of_list_ascii (trimEndBytes (trimStartBytes (String.list_ascii_of_string s))).

(** [s.startsWith(p)] *)
Definition startsWith (s p : string) : bool := String.prefix p s.

(** JavaScript truthiness of a possibly missing string: [undefined] and
    the empty string are falsy. *)
Definition truthy (s : option string) : bool :=
  match s with
  | Some v => bool_decide (v ≠ "")
  | None => false
  end.

(** [a || b] on a possibly missing string. *)
Definition orElse (s : option string) (d : string) : string :=
  match s with
  | Some v => if bool_decide (v = "") then d else v
  | None => d
  end.

(** ** ObjectIds *)

Definition isHexDigit (c : ascii) : bool :=
  let n := nat_of_ascii c in
  ((48 <=? n)%nat && (n <=? 57)%nat
   || (65 <=? n)%nat && (n <=? 70)%nat
   || (97 <=? n)%nat && (n <=? 102)%nat)%bool.

(** The lower-case form of an ASCII letter. *)
Definition lowerAscii (c : ascii) : ascii :=
  let n := nat_of_ascii c in
  if ((65 <=? n)%nat && (n <=? 90)%nat)%bool then ascii_of_nat (n + 32) else c.

Fixpoint asciiLower (s : string) : string :=
  match s with
  | EmptyString => EmptyString
  | String c s' => String (lowerAscii c) (asciiLower s')
  end.

(** Mongoose's cast of a string to an ObjectId, the ObjectId given by its
    [toString()]: a string of 24 hexadecimal digits denotes the ObjectId
    with these digits, whatever their case; any other string is a
    [CastError] ([None]). *)
Definition castObjectId (s : string) : option string :=
  if ((String.length s =? 24)%nat && forallb isHexDigit (String.list_ascii_of_string s))%bool
  then Some (asciiLower s)
  else None.

(** The outcome of a query by [_id]. *)
Inductive Lookup (A : Type) :=
| CastError
| NotFound
| Found (id : string) (doc : A).
Arguments CastError {A}.
Arguments NotFound {A}.
Arguments Found {A} id doc.

(** [Model.findById(path)] *)
Definition findById {A : Type} (collection : gmap string A) (path : string) : Lookup A :=
  match castObjectId path with
  | None => CastError
  | Some id =>
      match collection !! id with
      | Some doc => Found id doc
      | None => NotFound
      end
  end.

(** ** Data model *)

(** [IImage] / [ImageSchema], also the shape of an image in a request
    body: each of the three paths may be missing. *)
Module Image.
Record t := mk { id : option string; url : option string; publicId : option string }.

(** [required: true] on the three string paths: present and not empty. *)
Definition valid (i : t) : bool :=
  truthy (id i) && truthy (url i) && truthy (publicId i).
End Image.

(** [INote] / [NoteSchema].  [isPublic] is the one path a handler can
    unset in a stored note ([None]). *)
Module Note.
Record t := mk {
  title : string;
  content : string;
  color : string;
  images : list Image.t;
  date : Z;
  userId : string;
  isPinned : bool;
  isArchived : bool;
  isDeleted : bool;
  deletedAt : option Z;
  isPublic : option bool;
  likes : list string
}.

(** Schema defaults of the paths the handlers may leave out. *)
Definition default_content : string := "".
Definition default_color : string := "#E9D5FF".
Definition default_deletedAt : option Z := None.
Definition default_isPublic : bool := true.
Definition default_likes : list string := [].

(** [note.isPublic] of a loaded document: Mongoose fills in the schema
    default where the stored document has no such path. *)
Definition readIsPublic (n : t) : bool := default default_isPublic (isPublic n).

(** Schema validation: [title] is required, and so are the three paths of
    every image. *)
Definition valid (n : t) : bool :=
  bool_decide (title n ≠ "") && forallb Image.valid (images n).

(** The [updateData] object of [PUT /:id] applied to a stored note: a path
    whose value is missing keeps what is stored. *)
Definition applyUpdateData (title' : string) (content' color' : option string)
    (images' : list Image.t) (date' : Z) (isPinned' isArchived' : option bool) (n : t) : t :=
  {| title := title';
     content := default (content n) content';
     color := default (color n) color';
     images := images';
     date := date';
     userId := userId n;
     isPinned := default (isPinned n) isPinned';
     isArchived := default (isArchived n) isArchived';
     isDeleted := isDeleted n;
     deletedAt := deletedAt n;
     isPublic := isPublic n;
     likes := likes n |}.

Definition set_trash (isDeleted' : bool) (deletedAt' : option Z) (n : t) : t :=
  {| title := title n; content := content n; color := color n; images := images n;
     date := date n; userId := userId n; isPinned := isPinned n;
     isArchived := isArchived n;
     isDeleted := isDeleted';
     deletedAt := deletedAt';
     isPublic := isPublic n; likes := likes n |}.

Definition set_likes (likes' : list string) (n : t) : t :=
  {| title := title n; content := content n; color := color n; images := images n;
     date := date n; userId := userId n; isPinned := isPinned n;
     isArchived := isArchived n; isDeleted := isDeleted n; deletedAt := deletedAt n;
     isPublic := isPublic n;
     likes := likes' |}.

Definition set_isPublic (isPublic' : option bool) (n : t) : t :=
  {| title := title n; content := content n; color := color n; images := images n;
     date := date n; userId := userId n; isPinned := isPinned n;
     isArchived := isArchived n; isDeleted := isDeleted n; deletedAt := deletedAt n;
     isPublic := isPublic';
     likes := likes n |}.

(** A loaded document as [save] writes it back when the handler has not
    touched [isPublic]: a default filled in on loading is stored with the
    rest. *)
Definition withDefaults (n : t) : t := set_isPublic (Some (readIsPublic n)) n.
End Note.

(** [IUser] / [UserSchema]. *)
Module User.
Inductive provider := Email | Google.

Record t := mk {
  email : string;
  password : option string;
  name : string;
  avatar : string;
  bio : string;
  isPrivate : bool;
  googleId : option string;
  authProvider : provider;
  refreshToken : option string;
  friends : list string;
  friendRequests : list string;
  sentFriendRequests : list string
}.

(** Schema validation: [email] and [name] are required, [password] has
    [minlength: 6], [bio] has [maxlength: 200]. *)
Definition valid (u : t) : bool :=
  bool_decide (email u ≠ "") && bool_decide (name u ≠ "")
  && match password u with
     | Some p => bool_decide (6 ≤ jsLength p)%nat
     | None => true
     end
  && bool_decide (jsLength (bio u) ≤ 200)%nat.

Definition set_friends (friends' : list string) (u : t) : t :=
  {| email := email u; password := password u; name := name u; avatar := avatar u;
     bio := bio u; isPrivate := isPrivate u; googleId := googleId u;
     authProvider := authProvider u; refreshToken := refreshToken u;
     friends := friends';
     friendRequests := friendRequests u;
     sentFriendRequests := sentFriendRequests u |}.

Definition set_friendRequests (friendRequests' : list string) (u : t) : t :=
  {| email := email u; password := password u; name := name u; avatar := avatar u;
     bio := bio u; isPrivate := isPrivate u; googleId := googleId u;
     authProvider := authProvider u; refreshToken := refreshToken u;
     friends := friends u;
     friendRequests := friendRequests';
     sentFriendRequests := sentFriendRequests u |}.

Definition set_sentFriendRequests (sentFriendRequests' : list string) (u : t) : t :=
  {| email := email u; password := password u; name := name u; avatar := avatar u;
     bio := bio u; isPrivate := isPrivate u; googleId := googleId u;
     authProvider := authProvider u; refreshToken := refreshToken u;
     friends := friends u;
     friendRequests := friendRequests u;
     sentFriendRequests := sentFriendRequests' |}.
End User.

(** The two collections. *)
Record Db := mkDb {
  users : gmap string User.t;
  notes : gmap string Note.t
}.

Definition withUsers (us : gmap string User.t) (db : Db) : Db :=
  {| users := us; notes := notes db |}.

Definition withNotes (ns : gmap string Note.t) (db : Db) : Db :=
  {| users := users db; notes := ns |}.

(** [array.some((x) => x.toString() === id)] *)
Definition some_eq (id : string) (l : list string) : bool :=
  existsb (λ x, bool_decide (x = id)) l.

(** [array.filter((x) => x.toString() !== id)] *)
Definition filter_ne (id : string) (l : list string) : list string :=
  filter (λ x, x ≠ id) l.

(** ** Queries on the notes collection *)

(** A condition on a boolean path: the literal [b] or [{ $ne: b }]. *)
Inductive Cond := Is (b : bool) | Ne (b : bool).

(** Whether a path with stored value [v] ([None] when the document has no
    such path) meets the condition. *)
Definition holds (c : option Cond) (v : option bool) : bool :=
  match c with
  | None => true
  | Some (Is b) => bool_decide (v = Some b)
  | Some (Ne b) => bool_decide (v ≠ Some b)
  end.

(** The [filter] objects the handlers build. *)
Module Filter.
Record t := mk {
  userId : option string;
  isDeleted : option Cond;
  isArchived : option Cond;
  isPublic : option Cond
}.
End Filter.

Definition matches (f : Filter.t) (n : Note.t) : bool :=
  match Filter.userId f with
  | Some u => bool_decide (Note.userId n = u)
  | None => true
  end
  && holds (Filter.isDeleted f) (Some (Note.isDeleted n))
  && holds (Filter.isArchived f) (Some (Note.isArchived n))
  && holds (Filter.isPublic f) (Note.isPublic n).

(** [Note.find(filter)] *)
Definition Note_find (f : Filter.t) (db : Db) : list (string * Note.t) :=
  filter (λ d, matches f d.2) (map_to_list (notes db)).

(** The sort specification [{ isPinned: -1, date: -1 }] as an order on
    keys: [true] sorts before [false], later dates before earlier ones. *)
Definition sortKeyLe (k1 k2 : bool * Z) : bool :=
  if bool_decide (k1.1 = k2.1) then bool_decide (k2.2 ≤ k1.2)%Z else k1.1.

Definition sortKey (d : string * Note.t) : bool * Z :=
  (Note.isPinned d.2, Note.date d.2).

Definition byPinnedDateDesc : relation (string * Note.t) :=
  λ d1 d2, sortKeyLe (sortKey d1) (sortKey d2).

#[global] Instance byPinnedDateDesc_dec d1 d2 : Decision (byPinnedDateDesc d1 d2).
Proof. unfold byPinnedDateDesc. apply _. Defined.

(** [.sort({ isPinned: -1, date: -1 })] *)
Definition sortNotes (l : list (string * Note.t)) : list (string * Note.t) :=
  merge_sort byPinnedDateDesc l.

(** [Note.findById(path)] *)
Definition Note_findById (path : string) (db : Db) : Lookup Note.t :=
  findById (notes db) path.

(** [Note.findOne({ _id: path, userId })] *)
Definition Note_findOwn (path userId : string) (db : Db) : Lookup Note.t :=
  match Note_findById path db with
  | Found id n => if bool_decide (Note.userId n = userId) then Found id n else NotFound
  | NotFound => NotFound
  | CastError => CastError
  end.

(** [User.findById(path)] *)
Definition User_findById (path : string) (db : Db) : Lookup User.t :=
  findById (users db) path.

(** ** Requests and responses *)

Module Req.
Inductive method := GET | POST | PUT | DELETE.

Record body := mkBody {
  title : option string;
  content : option string;
  color : option string;
  images : option (list Image.t);
  isPinned : option bool;
  isArchived : option bool;
  isPublic : option bool;
  image : option string
}.

Record t := mk {
  verb : method;
  path : list string;
  query : gmap string string;
  headers : gmap string string;
  payload : body;
  file : option string
}.
End Req.

(** One element of the array returned by [GET /user/:userId]. *)
Module NoteView.
Record t := mk {
  _id : string;
  title : string;
  content : string;
  color : string;
  images : list Image.t;
  date : Z;
  userId : string;
  isPinned : bool;
  isPublic : bool;
  likesCount : nat;
  isLiked : bool;
  isOwn : bool
}.
End NoteView.

(** The JSON bodies of the answers.  [JNote] and [JNotes] stand for
    documents as Mongoose serialises them, which shows the schema default
    for a path the stored document does not have. *)
Inductive Json :=
| JError (error : string)
| JMessage (message : string)
| JNote (doc : string * Note.t)
| JNotes (docs : list (string * Note.t))
| JImage (img : Image.t)
| JLike (liked : bool) (likesCount : nat)
| JVisibility (message : string) (isPublic : option bool)
| JUserNotes (views : list NoteView.t)
| JRegistered (message id email name accessToken refreshToken : string).

Record Response := mkResponse { status : nat; json : Json }.

(** [res.status(code).json({ error })] *)
Definition fail (code : nat) (error : string) : Response :=
  mkResponse code (JError error).

(** [res.json(value)] *)
Definition ok (value : Json) : Response := mkResponse 200 value.

(** [res.status(201).json(value)] *)
Definition created (value : Json) : Response := mkResponse 201 value.

(** [note.save()] of a freshly constructed note: validation, then insertion
    under the new [_id]. *)
Definition Note_saveNew (id : string) (n : Note.t) (db : Db) : option Db :=
  if (Note.valid n && bool_decide (notes db !! id = None))%bool
  then Some (withNotes (<[id := n]> (notes db)) db)
  else None.

(** [Note.findByIdAndUpdate(id, ...)]: the write alone. *)
Definition Note_put (id : string) (n : Note.t) (db : Db) : Db :=
  withNotes (<[id := n]> (notes db)) db.

(** [note.save()] of a loaded note, [n] being the document as the handler
    left it: validation, then the write. *)
Definition Note_save (id : string) (n : Note.t) (db : Db) : option Db :=
  if Note.valid n then Some (Note_put id n db) else None.

Definition User_put (id : string) (u : User.t) (db : Db) : Db :=
  withUsers (<[id := u]> (users db)) db.

(** [user.save()] of a loaded user, [u] being the document as the handler
    left it: validation, then the write. *)
Definition User_saveLoaded (id : string) (u : User.t) (db : Db) : option Db :=
  if User.valid u then Some (User_put id u db) else None.

(** What [uploadBase64] and [uploadFile] resolve to. *)
Module Uploaded.
Record t := mk { url : string; publicId : string }.
End Uploaded.

(** Modelled from the spec: the auth middleware of [../middleware/auth],
    which is not among the sources.  The spec's control flow is
    "HTTP request → auth check → single document read/write → JSON
    response": the check comes before any document access, looks at the
    request alone and either lets it through with [req.userId] set, or
    answers it itself. *)
Inductive AuthOutcome :=
| Authenticated (userId : string)
| Rejected (res : Response).

(** ** The notes router *)

(** A route handler, given [req.userId], the request, the clock reading
    and the next fresh ObjectId. *)
Definition Handler : Type := string → Req.t → Z → string → Db → Db * Response.

(** A registered route: whether it matches a verb and a path (the list of
    the path's segments below the mount point), and the handler with the
    path parameters bound when it does. *)
Definition Route : Type := Req.method → list string → option Handler.

Section NotesRouter.

(** The upload collaborator of [../config/upload]: image storage outside the
    database.  [None] and [false] stand for a rejected promise. *)
Variable uploadBase64 : string → option Uploaded.t.
Variable uploadFile : string → option Uploaded.t.
Variable deleteFile : string → bool.

(** [GET /]: the filter built from the query string. *)
Definition listFilter (userId : string) (archived deleted : option string) : Filter.t :=
  if bool_decide (deleted = Some "true") then
    Filter.mk (Some userId) (Some (Is true)) None None
  else if bool_decide (archived = Some "true") then
    Filter.mk (Some userId) (Some (Ne true)) (Some (Is true)) None
  else
    Filter.mk (Some userId) (Some (Ne true)) (Some (Ne true)) None.

Definition listNotes (userId : string) (archived deleted : option string)
    (db : Db) : Db * Response :=
  let notes := sortNotes (Note_find (listFilter userId archived deleted) db) in
  (db, ok (JNotes notes)).

(** [GET /:id] *)
Definition getNote (userId id : string) (db : Db) : Db * Response :=
  match Note_findOwn id userId db with
  | CastError => (db, fail 500 "Failed to fetch note")
  | NotFound => (db, fail 404 "Note not found")
  | Found _id note => (db, ok (JNote (_id, note)))
  end.

(** The loop that fills [uploadedImages], shared verbatim by [POST /] and
    [PUT /:id].  [img.url.startsWith] throws when the image has no
    [url]. *)
Fixpoint uploadImages (now : Z) (images : list Image.t) : option (list Image.t) :=
  match images with
  | [] => Some []
  | img :: rest =>
      match Image.url img with
      | None => None
      | Some url =>
          if startsWith url "data:" then
            match uploadBase64 url with
            | Some uploaded =>
                cons (Image.mk (Some (orElse (Image.id img) (pretty now)))
                               (Some (Uploaded.url uploaded))
                               (Some (Uploaded.publicId uploaded)))
                  <$> uploadImages now rest
            | None => None
            end
          else cons img <$> uploadImages now rest
      end
  end.

(** [if (images && images.length > 0) { for ... }] *)
Definition processImages (now : Z) (images : option (list Image.t)) : option (list Image.t) :=
  match images with
  | Some imgs => uploadImages now imgs
  | None => Some []
  end.

(** [POST /] *)
Definition createNote (userId : string) (body : Req.body) (now : Z) (newId : string)
    (db : Db) : Db * Response :=
  match processImages now (Req.images body) with
  | None => (db, fail 500 "Failed to create note")
  | Some uploadedImages =>
      let note :=
        {| Note.title := orElse (Req.title body) "Untitled";
           Note.content := default Note.default_content (Req.content body);
           Note.color := default Note.default_color (Req.color body);
           Note.images := uploadedImages;
           Note.userId := userId;
           Note.date := now;
           Note.isPinned := default false (Req.isPinned body);
           Note.isArchived := false;
           Note.isDeleted := false;
           Note.deletedAt := Note.default_deletedAt;
           Note.isPublic := Some Note.default_isPublic;
           Note.likes := Note.default_likes |} in
      match Note_saveNew newId note db with
      | Some db' => (db', created (JNote (newId, note)))
      | None => (db, fail 500 "Failed to create note")
      end
  end.

(** [for (const img of imgs) { if (img.publicId) await deleteFile(img.publicId) }] *)
Definition deleteImages (imgs : list Image.t) : bool :=
  forallb (λ img, if truthy (Image.publicId img)
                  then deleteFile (default "" (Image.publicId img)) else true) imgs.

(** [PUT /:id]. Paths whose value in [updateData] is [undefined] are left
    as they are. *)
Definition updateNote (userId id : string) (body : Req.body) (now : Z)
    (db : Db) : Db * Response :=
  match Note_findOwn id userId db with
  | CastError => (db, fail 500 "Failed to update note")
  | NotFound => (db, fail 404 "Note not found")
  | Found _id existingNote =>
      match processImages now (Req.images body) with
      | None => (db, fail 500 "Failed to update note")
      | Some uploadedImages =>
          let newImageIds := from_option (map Image.id) [] (Req.images body) in
          let removedImages :=
            filter (λ img, Image.id img ∉ newImageIds) (Note.images existingNote) in
          if deleteImages removedImages then
            let updatedNote :=
              Note.applyUpdateData (orElse (Req.title body) "Untitled")
                (Req.content body) (Req.color body) uploadedImages now
                (Req.isPinned body) (Req.isArchived body) existingNote in
            (Note_put _id updatedNote db, ok (JNote (_id, updatedNote)))
          else (db, fail 500 "Failed to update note")
      end
  end.

(** [DELETE /:id] *)
Definition deleteNote (userId id : string) (permanent : option string) (now : Z)
    (db : Db) : Db * Response :=
  match Note_findOwn id userId db with
  | CastError => (db, fail 500 "Failed to delete note")
  | NotFound => (db, fail 404 "Note not found")
  | Found _id note =>
      if bool_decide (permanent = Some "true") then
        if deleteImages (Note.images note) then
          (withNotes (delete _id (notes db)) db, ok (JMessage "Note permanently deleted"))
        else (db, fail 500 "Failed to delete note")
      else
        (Note_put _id (Note.set_trash true (Some now) note) db,
         ok (JMessage "Note moved to trash"))
  end.

(** [POST /:id/restore] *)
Definition restoreNote (userId id : string) (db : Db) : Db * Response :=
  match Note_findOwn id userId db with
  | CastError => (db, fail 500 "Failed to restore note")
  | NotFound => (db, fail 404 "Note not found in trash")
  | Found _id note =>
      if Note.isDeleted note then
        (Note_put _id (Note.set_trash false None note) db,
         ok (JMessage "Note restored successfully"))
      else (db, fail 404 "Note not found in trash")
  end.

(** [DELETE /trash/empty] *)
Definition emptyTrash (userId : string) (db : Db) : Db * Response :=
  let trashed := Filter.mk (Some userId) (Some (Is true)) None None in
  let trashedNotes := Note_find trashed db in
  if forallb (λ d, deleteImages (Note.images d.2)) trashedNotes then
    (withNotes (filter (λ d, ¬ matches trashed d.2) (notes db)) db,
     ok (JMessage "Trash emptied successfully"))
  else (db, fail 500 "Failed to empty trash").

(** [POST /upload] *)
Definition upload (body : Req.body) (now : Z) (db : Db) : Db * Response :=
  if truthy (Req.image body) then
    match uploadBase64 (default "" (Req.image body)) with
    | Some uploaded =>
        (db, ok (JImage (Image.mk (Some (pretty now)) (Some (Uploaded.url uploaded))
                                   (Some (Uploaded.publicId uploaded)))))
    | None => (db, fail 500 "Failed to upload image")
    end
  else (db, fail 400 "No image provided").

(** [POST /upload-file] *)
Definition uploadFileRoute (file : option string) (now : Z) (db : Db) : Db * Response :=
  match file with
  | None => (db, fail 400 "No file provided")
  | Some f =>
      match uploadFile f with
      | Some uploaded =>
          (db, ok (JImage (Image.mk (Some (pretty now)) (Some (Uploaded.url uploaded))
                                     (Some (Uploaded.publicId uploaded)))))
      | None => (db, fail 500 "Failed to upload file")
      end
  end.

(** [POST /:id/like].  The loaded note is saved with its new [likes]; a
    schema default filled in on loading is written along. *)
Definition likeNote (userId noteId : string) (db : Db) : Db * Response :=
  match Note_findById noteId db with
  | CastError => (db, fail 500 "Failed to toggle like")
  | NotFound => (db, fail 404 "Note not found")
  | Found _id note =>
      if (negb (Note.readIsPublic note) && bool_decide (Note.userId note ≠ userId))%bool then
        (db, fail 403 "Cannot like private note")
      else
        let alreadyLiked := some_eq userId (Note.likes note) in
        let likes :=
          if alreadyLiked then filter_ne userId (Note.likes note)
          else (Note.likes note ++ [userId])%list in
        match Note_save _id (Note.set_likes likes (Note.withDefaults note)) db with
        | Some db' => (db', ok (JLike (negb alreadyLiked) (length likes)))
        | None => (db, fail 500 "Failed to toggle like")
        end
  end.

(** [POST /:id/duplicate] *)
Definition duplicateNote (userId noteId : string) (now : Z) (newId : string)
    (db : Db) : Db * Response :=
  match Note_findById noteId db with
  | CastError => (db, fail 500 "Failed to duplicate note")
  | NotFound => (db, fail 404 "Note not found")
  | Found _id originalNote =>
      let duplicate :=
        let duplicatedNote :=
          {| Note.title := Note.title originalNote ++ " (Copy)";
             Note.content := Note.content originalNote;
             Note.color := Note.color originalNote;
             Note.images := Note.images originalNote;
             Note.userId := userId;
             Note.date := now;
             Note.isPinned := false;
             Note.isArchived := false;
             Note.isDeleted := false;
             Note.deletedAt := Note.default_deletedAt;
             Note.isPublic := Some true;
             Note.likes := [] |} in
        match Note_saveNew newId duplicatedNote db with
        | Some db' => (db', created (JNote (newId, duplicatedNote)))
        | None => (db, fail 500 "Failed to duplicate note")
        end in
      if (negb (Note.readIsPublic originalNote)
          && bool_decide (Note.userId originalNote ≠ userId))%bool then
        match users db !! Note.userId originalNote, users db !! userId with
        | Some noteOwner, Some currentUser =>
            let isFriend := some_eq (Note.userId originalNote) (User.friends currentUser) in
            if isFriend then duplicate
            else (db, fail 403 "Cannot duplicate private note")
        | _, _ => (db, fail 404 "User not found")
        end
      else duplicate
  end.

(** [PUT /:id/visibility].  [note.isPublic = isPublic] with a missing
    [isPublic] unsets the path in the stored note. *)
Definition setVisibility (userId noteId : string) (body : Req.body)
    (db : Db) : Db * Response :=
  match Note_findOwn noteId userId db with
  | CastError => (db, fail 500 "Failed to update visibility")
  | NotFound => (db, fail 404 "Note not found")
  | Found _id note =>
      let isPublic := Req.isPublic body in
      match Note_save _id (Note.set_isPublic isPublic note) db with
      | Some db' => (db', ok (JVisibility "Note visibility updated" isPublic))
      | None => (db, fail 500 "Failed to update visibility")
      end
  end.

(** The projection applied by [notes.map] in [GET /user/:userId]. *)
Definition withLikeInfo (currentUserId : string) (isOwn : bool)
    (d : string * Note.t) : NoteView.t :=
  {| NoteView._id := d.1;
     NoteView.title := Note.title d.2;
     NoteView.content := Note.content d.2;
     NoteView.color := Note.color d.2;
     NoteView.images := Note.images d.2;
     NoteView.date := Note.date d.2;
     NoteView.userId := Note.userId d.2;
     NoteView.isPinned := Note.isPinned d.2;
     NoteView.isPublic := Note.readIsPublic d.2;
     NoteView.likesCount := length (Note.likes d.2);
     NoteView.isLiked := some_eq currentUserId (Note.likes d.2);
     NoteView.isOwn := isOwn |}.

(** [GET /user/:userId].  The two [findById] run under [Promise.all]; the
    friendship test, the test for the requester's own listing and the
    [userId] of the filter use the path parameter as sent. *)
Definition userNotes (currentUserId targetUserId : string) (db : Db) : Db * Response :=
  match users db !! currentUserId, User_findById targetUserId db with
  | _, CastError => (db, fail 500 "Failed to get user notes")
  | Some currentUser, Found _ targetUser =>
      let isFriend := some_eq targetUserId (User.friends currentUser) in
      let isOwn := bool_decide (currentUserId = targetUserId) in
      if (negb isOwn && negb isFriend)%bool then
        (db, fail 403 "Not authorized to view notes")
      else if (negb isOwn && User.isPrivate targetUser)%bool then
        (db, fail 403 "User profile is private")
      else
        let filter :=
          Filter.mk (Some targetUserId) (Some (Ne true)) (Some (Ne true))
                    (if isOwn then None else Some (Is true)) in
        let notes := sortNotes (Note_find filter db) in
        (db, ok (JUserNotes (map (withLikeInfo currentUserId isOwn) notes)))
  | _, _ => (db, fail 404 "User not found")
  end.

(** The thirteen routes, as registered. *)

Definition get_root : Route := λ verb path,
  match verb, path with
  | Req.GET, [] =>
      Some (λ userId req now newId,
              listNotes userId (Req.query req !! "archived") (Req.query req !! "deleted"))
  | _, _ => None
  end.

Definition get_id : Route := λ verb path,
  match verb, path with
  | Req.GET, [id] => Some (λ userId req now newId, getNote userId id)
  | _, _ => None
  end.

Definition post_root : Route := λ verb path,
  match verb, path with
  | Req.POST, [] => Some (λ userId req now newId, createNote userId (Req.payload req) now newId)
  | _, _ => None
  end.

Definition put_id : Route := λ verb path,
  match verb, path with
  | Req.PUT, [id] => Some (λ userId req now newId, updateNote userId id (Req.payload req) now)
  | _, _ => None
  end.

Definition delete_id : Route := λ verb path,
  match verb, path with
  | Req.DELETE, [id] =>
      Some (λ userId req now newId, deleteNote userId id (Req.query req !! "permanent") now)
  | _, _ => None
  end.

Definition post_id_restore : Route := λ verb path,
  match verb, path with
  | Req.POST, [id; "restore"] => Some (λ userId req now newId, restoreNote userId id)
  | _, _ => None
  end.

Definition delete_trash_empty : Route := λ verb path,
  match verb, path with
  | Req.DELETE, ["trash"; "empty"] => Some (λ userId req now newId, emptyTrash userId)
  | _, _ => None
  end.

Definition post_upload : Route := λ verb path,
  match verb, path with
  | Req.POST, ["upload"] => Some (λ userId req now newId, upload (Req.payload req) now)
  | _, _ => None
  end.

Definition post_upload_file : Route := λ verb path,
  match verb, path with
  | Req.POST, ["upload-file"] =>
      Some (λ userId req now newId, uploadFileRoute (Req.file req) now)
  | _, _ => None
  end.

Definition post_id_like : Route := λ verb path,
  match verb, path with
  | Req.POST, [id; "like"] => Some (λ userId req now newId, likeNote userId id)
  | _, _ => None
  end.

Definition post_id_duplicate : Route := λ verb path,
  match verb, path with
  | Req.POST, [id; "duplicate"] =>
      Some (λ userId req now newId, duplicateNote userId id now newId)
  | _, _ => None
  end.

Definition put_id_visibility : Route := λ verb path,
  match verb, path with
  | Req.PUT, [id; "visibility"] =>
      Some (λ userId req now newId, setVisibility userId id (Req.payload req))
  | _, _ => None
  end.

Definition get_user_userId : Route := λ verb path,
  match verb, path with
  | Req.GET, ["user"; target] => Some (λ userId req now newId, userNotes userId target)
  | _, _ => None
  end.

(** The route table of the router, in registration order. *)
Definition routes : list Route :=
  [get_root; get_id; post_root; put_id; delete_id; post_id_restore;
   delete_trash_empty; post_upload; post_upload_file; post_id_like;
   post_id_duplicate; put_id_visibility; get_user_userId].

End NotesRouter.

(** The first route of a table that matches the request. *)
Fixpoint firstMatch (table : list Route) (verb : Req.method) (path : list string)
    : option Handler :=
  match table with
  | [] => None
  | r :: rest =>
      match r verb path with
      | Some h => Some h
      | None => firstMatch rest verb path
      end
  end.

(** What the routes answer to a request of an authenticated user; a request
    no route matches falls through the router. *)
Definition route (uploadBase64 uploadFile : string → option Uploaded.t)
    (deleteFile : string → bool) (userId : string) (req : Req.t) (now : Z)
    (newId : string) (db : Db) : option (Db * Response) :=
  (λ h : Handler, h userId req now newId db)
    <$> firstMatch (routes uploadBase64 uploadFile deleteFile) (Req.verb req) (Req.path req).

(** ** Middleware and routes as Express runs them *)

(** What [router.use] and [router.get]/[post]/[put]/[delete] register. *)
Inductive Layer :=
| Use (middleware : Req.t → AuthOutcome)
| Handle (r : Route).

(** What happens while a request is served: the auth check is made, a
    route handler (the only code that touches the database) is entered. *)
Inductive Event := AuthCheck | HandlerEntered.

Inductive Outcome :=
| Answered (db : Db) (res : Response)
| FellThrough
| NoUserId.

(** Express passes a request through the layers in registration order.  A
    middleware that answers ends the request; one that calls [next()] has
    set [req.userId].  The first route that matches runs its handler and
    ends the request.  A handler entered before any middleware has set
    [req.userId] is outside this model ([NoUserId]). *)
Fixpoint runLayers (layers : list Layer) (userId : option string) (req : Req.t)
    (now : Z) (newId : string) (db : Db) : Outcome * list Event :=
  match layers with
  | [] => (FellThrough, [])
  | Use middleware :: rest =>
      match middleware req with
      | Rejected res => (Answered db res, [AuthCheck])
      | Authenticated u =>
          let r := runLayers rest (Some u) req now newId db in
          (r.1, AuthCheck :: r.2)
      end
  | Handle r :: rest =>
      match r (Req.verb req) (Req.path req) with
      | Some h =>
          match userId with
          | Some u =>
              let a := h u req now newId db in
              (Answered a.1 a.2, [HandlerEntered])
          | None => (NoUserId, [HandlerEntered])
          end
      | None => runLayers rest userId req now newId db
      end
  end.

(** The router of [notes.ts]: [router.use(authMiddleware)] (line 12),
    then the routes. *)
Definition notesRouter (uploadBase64 uploadFile : string → option Uploaded.t)
    (deleteFile : string → bool) (authMiddleware : Req.t → AuthOutcome) : list Layer :=
  Use authMiddleware :: (Handle <$> routes uploadBase64 uploadFile deleteFile).

(** A request to the router. *)
Definition serve (uploadBase64 uploadFile : string → option Uploaded.t)
    (deleteFile : string → bool) (authMiddleware : Req.t → AuthOutcome)
    (req : Req.t) (now : Z) (newId : string) (db : Db) : Outcome * list Event :=
  runLayers (notesRouter uploadBase64 uploadFile deleteFile authMiddleware)
            None req now newId db.

(** ** The auth and friends router *)

Section EmailPath.

(** [String.prototype.toLowerCase], a function of the Unicode case
    tables. *)
Variable toLowerCase : string → string.

(** The setters of the [email] path ([lowercase: true], [trim: true]):
    Mongoose runs the setters of a path last-declared first, on a value
    assigned to the path and on a value the path is compared with in a
    query filter alike. *)
Definition emailSetters (value : string) : string := toLowerCase (trim value).

(** [User.findOne({ email })] *)
Definition User_findOneByEmail (email : string) (db : Db) : option (string * User.t) :=
  head (filter (λ d, User.email d.2 = emailSetters email) (map_to_list (users db))).

(** Token minting of [../middleware/auth] and [bcrypt.hash] with a fresh
    salt: functions of the environment. *)
Variable generateAccessToken : string → string.
Variable generateRefreshToken : string → string.
Variable bcryptHash : string → string.

(** [new User({ email, password, name })]: the schema's setters
    ([lowercase], [trim]) and defaults applied. *)
Definition User_new (email password name : string) : User.t :=
  {| User.email := emailSetters email;
     User.password := Some password;
     User.name := trim name;
     User.avatar := "";
     User.bio := "";
     User.isPrivate := false;
     User.googleId := None;
     User.authProvider := User.Email;
     User.refreshToken := None;
     User.friends := [];
     User.friendRequests := [];
     User.sentFriendRequests := [] |}.

Definition set_refreshToken (refreshToken : option string) (u : User.t) : User.t :=
  {| User.email := User.email u; User.password := User.password u;
     User.name := User.name u; User.avatar := User.avatar u; User.bio := User.bio u;
     User.isPrivate := User.isPrivate u; User.googleId := User.googleId u;
     User.authProvider := User.authProvider u;
     User.refreshToken := refreshToken;
     User.friends := User.friends u; User.friendRequests := User.friendRequests u;
     User.sentFriendRequests := User.sentFriendRequests u |}.

(** The [pre('save')] hook: a modified, non-empty password is replaced by
    its hash. *)
Definition hashPassword (u : User.t) : User.t :=
  {| User.email := User.email u;
     User.password :=
       match User.password u with
       | Some p => if bool_decide (p = "") then Some p else Some (bcryptHash p)
       | None => None
       end;
     User.name := User.name u; User.avatar := User.avatar u; User.bio := User.bio u;
     User.isPrivate := User.isPrivate u; User.googleId := User.googleId u;
     User.authProvider := User.authProvider u;
     User.refreshToken := User.refreshToken u;
     User.friends := User.friends u; User.friendRequests := User.friendRequests u;
     User.sentFriendRequests := User.sentFriendRequests u |}.

(** [user.save()] of a freshly constructed user: validation, the
    [pre('save')] hook, then insertion subject to the unique index on
    [email]. *)
Definition User_saveNew (id : string) (u : User.t) (db : Db) : option Db :=
  if (User.valid u
      && bool_decide (users db !! id = None)
      && forallb (λ d : string * User.t, bool_decide (User.email d.2 ≠ User.email u))
                 (map_to_list (users db)))%bool
  then Some (User_put id (hashPassword u) db)
  else None.

(** [POST /register] *)
Definition register (email password name : option string) (newId : string)
    (db : Db) : Db * Response :=
  if (negb (truthy email) || negb (truthy password) || negb (truthy name))%bool then
    (db, fail 400 "All fields are required")
  else
    let email := default "" email in
    let password := default "" password in
    let name := default "" name in
    if bool_decide (jsLength password < 6)%nat then
      (db, fail 400 "Password must be at least 6 characters")
    else
      match User_findOneByEmail (toLowerCase email) db with
      | Some existingUser => (db, fail 400 "Email already registered")
      | None =>
          let user := User_new (toLowerCase email) password name in
          let accessToken := generateAccessToken newId in
          let refreshToken := generateRefreshToken newId in
          let user := set_refreshToken (Some refreshToken) user in
          match User_saveNew newId user db with
          | Some db' =>
              (db', created (JRegistered "Registration successful" newId
                               (User.email user) (User.name user)
                               accessToken refreshToken))
          | None => (db, fail 500 "Failed to register")
          end
      end.

End EmailPath.

(** ** Saving two loaded users *)

(** The three relationship lists of a user. *)
Inductive ListPath := Friends | FriendRequests | SentFriendRequests.

Definition getList (p : ListPath) (u : User.t) : list string :=
  match p with
  | Friends => User.friends u
  | FriendRequests => User.friendRequests u
  | SentFriendRequests => User.sentFriendRequests u
  end.

Definition setList (p : ListPath) (l : list string) (u : User.t) : User.t :=
  match p with
  | Friends => User.set_friends l u
  | FriendRequests => User.set_friendRequests l u
  | SentFriendRequests => User.set_sentFriendRequests l u
  end.

(** What a handler does to a list of a loaded user: [list.push(id)] or
    [list = value]. *)
Inductive Change :=
| Push (path : ListPath) (id : string)
| Assign (path : ListPath) (value : list string).

(** The list a change is made to. *)
Definition pathOf (c : Change) : ListPath :=
  match c with
  | Push p _ => p
  | Assign p _ => p
  end.

Definition applyChange (u : User.t) (c : Change) : User.t :=
  match c with
  | Push p id => setList p (getList p u ++ [id])%list u
  | Assign p value => setList p value u
  end.

Definition applyChanges (changes : list Change) (u : User.t) : User.t :=
  foldl applyChange u changes.

(** Whether [save] sends the change.  A push is sent as [$push].  An
    assignment marks the path modified only when the value differs from
    the loaded one, and is then sent as [$set]. *)
Definition isSent (loaded : User.t) (c : Change) : bool :=
  match c with
  | Push _ _ => true
  | Assign p value => bool_decide (value ≠ getList p loaded)
  end.

Definition isAssign (c : Change) : bool :=
  match c with
  | Push _ _ => false
  | Assign _ _ => true
  end.

Definition sentChanges (loaded : User.t) (changes : list Change) : list Change :=
  List.filter (isSent loaded) changes.

(** [user.save()] of the loaded copy [loaded] of the user [id] after the
    handler made [changes].  The document in memory is validated; then the
    changes that are sent are applied to the stored document.  Every array
    operation increments the version [__v] of the stored document, and a
    [$set] of an array is sent under the condition that [__v] is still
    what it was when the copy was loaded: [stale] says that it no longer
    is, and the save is then rejected with a [VersionError]. *)
Definition User_save (stale : bool) (id : string) (loaded : User.t)
    (changes : list Change) (db : Db) : option Db :=
  if negb (User.valid (applyChanges changes loaded)) then None
  else
    let sent := sentChanges loaded changes in
    if (stale && existsb isAssign sent)%bool then None
    else Some (withUsers (alter (applyChanges sent) id (users db)) db).

Definition isSome {A : Type} (x : option A) : bool :=
  match x with
  | Some _ => true
  | None => false
  end.

(** [Promise.all([a.save(), b.save()])], both documents loaded before
    either is saved: each save goes its own way, the first being written
    first; the result says whether both succeeded.  The second copy has
    gone stale when it is a copy of the document the first save has just
    written to. *)
Definition saveBoth (a b : string * User.t * list Change) (db : Db) : Db * bool :=
  let first := User_save false a.1.1 a.1.2 a.2 db in
  let db1 := default db first in
  let stale :=
    (bool_decide (a.1.1 = b.1.1) && isSome first
     && negb (bool_decide (sentChanges a.1.2 a.2 = [])))%bool in
  let second := User_save stale b.1.1 b.1.2 b.2 db1 in
  (default db1 second, (isSome first && isSome second)%bool).

(** [POST /friends/request/:userId] *)
Definition sendFriendRequest (userId targetUserId : string) (db : Db) : Db * Response :=
  if bool_decide (targetUserId = userId) then
    (db, fail 400 "Cannot send friend request to yourself")
  else
    match users db !! userId, User_findById targetUserId db with
    | _, CastError => (db, fail 500 "Failed to send friend request")
    | Some currentUser, Found targetId targetUser =>
        if some_eq targetUserId (User.friends currentUser) then
          (db, fail 400 "Already friends")
        else if some_eq targetUserId (User.sentFriendRequests currentUser) then
          (db, fail 400 "Friend request already sent")
        else
          let saved :=
            saveBoth (userId, currentUser, [Push SentFriendRequests targetId])
                     (targetId, targetUser, [Push FriendRequests userId]) db in
          if saved.2 then (saved.1, ok (JMessage "Friend request sent"))
          else (saved.1, fail 500 "Failed to send friend request")
    | _, _ => (db, fail 404 "User not found")
    end.

(** [POST /friends/accept/:userId] *)
Definition acceptFriendRequest (userId requesterUserId : string) (db : Db) : Db * Response :=
  match users db !! userId, User_findById requesterUserId db with
  | _, CastError => (db, fail 500 "Failed to accept friend request")
  | Some currentUser, Found requesterId requesterUser =>
      if negb (some_eq requesterUserId (User.friendRequests currentUser)) then
        (db, fail 400 "No friend request from this user")
      else
        let saved :=
          saveBoth
            (userId, currentUser,
             [Assign FriendRequests
                (filter_ne requesterUserId (User.friendRequests currentUser));
              Push Friends requesterId])
            (requesterId, requesterUser,
             [Assign SentFriendRequests
                (filter_ne userId (User.sentFriendRequests requesterUser));
              Push Friends userId]) db in
        if saved.2 then (saved.1, ok (JMessage "Friend request accepted"))
        else (saved.1, fail 500 "Failed to accept friend request")
  | _, _ => (db, fail 404 "User not found")
  end.

(** [POST /friends/decline/:userId] *)
Definition declineFriendRequest (userId requesterUserId : string) (db : Db) : Db * Response :=
  match users db !! userId, User_findById requesterUserId db with
  | _, CastError => (db, fail 500 "Failed to decline friend request")
  | Some currentUser, Found requesterId requesterUser =>
      let saved :=
        saveBoth
          (userId, currentUser,
           [Assign FriendRequests
              (filter_ne requesterUserId (User.friendRequests currentUser))])
          (requesterId, requesterUser,
           [Assign SentFriendRequests
              (filter_ne userId (User.sentFriendRequests requesterUser))]) db in
      if saved.2 then (saved.1, ok (JMessage "Friend request declined"))
      else (saved.1, fail 500 "Failed to decline friend request")
  | _, _ => (db, fail 404 "User not found")
  end.

(** [DELETE /friends/:userId] *)
Definition removeFriend (userId friendUserId : string) (db : Db) : Db * Response :=
  match users db !! userId, User_findById friendUserId db with
  | _, CastError => (db, fail 500 "Failed to remove friend")
  | Some currentUser, Found friendId friendUser =>
      let saved :=
        saveBoth
          (userId, currentUser,
           [Assign Friends (filter_ne friendUserId (User.friends currentUser))])
          (friendId, friendUser,
           [Assign Friends (filter_ne userId (User.friends friendUser))]) db in
      if saved.2 then (saved.1, ok (JMessage "Friend removed"))
      else (saved.1, fail 500 "Failed to remove friend")
  | _, _ => (db, fail 404 "User not found")
  end.

(** ** Sessions, profiles and the remaining auth routes *)

(** What [verifyRefreshToken] decodes a token to. *)
Module Decoded.
Record t := mk { type : string; userId : string }.
End Decoded.

(** The user summary of [PUT /profile], its strings shown as they are
    stored. *)
Module Account.
Record t := mk {
  id : string;
  email : string;
  name : string;
  avatar : string;
  bio : string;
  isPrivate : bool;
  authProvider : User.provider
}.
End Account.

(** The answer of [GET /users/:userId]. *)
Module Profile.
Record t := mk {
  id : string;
  name : string;
  email : string;
  avatar : string;
  bio : string;
  isPrivate : bool;
  friendsCount : nat;
  isFriend : bool;
  isOwn : bool;
  canViewNotes : bool
}.
End Profile.

Inductive AuthJson :=
| AError (error : string) (code : option string)
| AMessage (message : string)
| ASession (message id email name accessToken refreshToken : string)
| ATokens (accessToken refreshToken : string)
| AAccount (message : string) (user : Account.t)
| AProfile (profile : Profile.t).

Record AuthReply := mkAuthReply { code : nat; answer : AuthJson }.

(** [res.status(code).json({ error })] *)
Definition refuse (code : nat) (error : string) : AuthReply :=
  mkAuthReply code (AError error None).

(** [res.json(value)] *)
Definition reply (value : AuthJson) : AuthReply := mkAuthReply 200 value.

Definition set_profile (name avatar bio : string) (isPrivate : bool) (u : User.t) : User.t :=
  {| User.email := User.email u; User.password := User.password u;
     User.name := name; User.avatar := avatar; User.bio := bio;
     User.isPrivate := isPrivate;
     User.googleId := User.googleId u; User.authProvider := User.authProvider u;
     User.refreshToken := User.refreshToken u;
     User.friends := User.friends u; User.friendRequests := User.friendRequests u;
     User.sentFriendRequests := User.sentFriendRequests u |}.

Definition set_token (refreshToken : option string) (u : User.t) : User.t :=
  {| User.email := User.email u; User.password := User.password u;
     User.name := User.name u; User.avatar := User.avatar u; User.bio := User.bio u;
     User.isPrivate := User.isPrivate u; User.googleId := User.googleId u;
     User.authProvider := User.authProvider u;
     User.refreshToken := refreshToken;
     User.friends := User.friends u; User.friendRequests := User.friendRequests u;
     User.sentFriendRequests := User.sentFriendRequests u |}.

Section SessionRoutes.

(** [String.prototype.toLowerCase], as in [register]. *)
Variable toLowerCase : string → string.

(** Token minting and checking of [../middleware/auth], and
    [bcrypt.compare]: functions of the environment.  A token is minted
    from the user id and the time of the call, so each call site takes its
    own minting function; [None] stands for a thrown error or a rejected
    promise.  A token that verifies was minted here, so the user id it
    decodes to is an id string. *)
Variable generateAccessToken : string → string.
Variable generateRefreshToken : string → string.
Variable verifyRefreshToken : string → option Decoded.t.
Variable bcryptCompare : string → option string → option bool.

(** [UserSchema.methods.comparePassword] *)
Definition comparePassword (u : User.t) (candidatePassword : string) : option bool :=
  bcryptCompare candidatePassword (User.password u).

(** [POST /login] *)
Definition login (email password : option string) (db : Db) : Db * AuthReply :=
  if (negb (truthy email) || negb (truthy password))%bool then
    (db, refuse 400 "Email and password are required")
  else
    let email := default "" email in
    let password := default "" password in
    match User_findOneByEmail toLowerCase (toLowerCase email) db with
    | None => (db, refuse 401 "Invalid email or password")
    | Some (id, user) =>
        match comparePassword user password with
        | None => (db, refuse 500 "Failed to login")
        | Some false => (db, refuse 401 "Invalid email or password")
        | Some true =>
            let accessToken := generateAccessToken id in
            let refreshToken := generateRefreshToken id in
            match User_saveLoaded id (set_token (Some refreshToken) user) db with
            | Some db' =>
                (db', reply (ASession "Login successful" id (User.email user)
                               (User.name user) accessToken refreshToken))
            | None => (db, refuse 500 "Failed to login")
            end
        end
    end.

(** [POST /refresh] *)
Definition refresh (refreshToken : option string) (db : Db) : Db * AuthReply :=
  if negb (truthy refreshToken) then (db, refuse 400 "Refresh token required")
  else
    let refreshToken := default "" refreshToken in
    match verifyRefreshToken refreshToken with
    | None =>
        (db, mkAuthReply 401 (AError "Invalid or expired refresh token"
                                     (Some "REFRESH_EXPIRED")))
    | Some decoded =>
        if bool_decide (Decoded.type decoded ≠ "refresh") then
          (db, refuse 401 "Invalid token type")
        else
          match users db !! Decoded.userId decoded with
          | None => (db, refuse 401 "Invalid refresh token")
          | Some user =>
              if bool_decide (User.refreshToken user ≠ Some refreshToken) then
                (db, refuse 401 "Invalid refresh token")
              else
                let id := Decoded.userId decoded in
                let newAccessToken := generateAccessToken id in
                let newRefreshToken := generateRefreshToken id in
                match User_saveLoaded id (set_token (Some newRefreshToken) user) db with
                | Some db' => (db', reply (ATokens newAccessToken newRefreshToken))
                | None => (db, refuse 500 "Failed to refresh token")
                end
          end
    end.

End SessionRoutes.

(** [POST /logout] *)
Definition logout (userId : string) (db : Db) : Db * AuthReply :=
  match users db !! userId with
  | Some user =>
      match User_saveLoaded userId (set_token None user) db with
      | Some db' => (db', reply (AMessage "Logged out successfully"))
      | None => (db, refuse 500 "Failed to logout")
      end
  | None => (db, reply (AMessage "Logged out successfully"))
  end.

(** [PUT /profile].  The [trim] setter of the [name] path runs on the
    value the handler has trimmed already. *)
Definition updateProfile (userId : string) (name bio avatar : option string)
    (isPrivate : option bool) (db : Db) : Db * AuthReply :=
  match users db !! userId with
  | None => (db, refuse 404 "User not found")
  | Some user =>
      let name' := from_option (λ n, trim (trim n)) (User.name user) name in
      let bio' := from_option (substring0 200) (User.bio user) bio in
      let avatar' := default (User.avatar user) avatar in
      let isPrivate' := default (User.isPrivate user) isPrivate in
      let user := set_profile name' avatar' bio' isPrivate' user in
      match User_saveLoaded userId user db with
      | Some db' =>
          (db', reply (AAccount "Profile updated successfully"
                         (Account.mk userId (User.email user) (User.name user)
                            (User.avatar user) (User.bio user) (User.isPrivate user)
                            (User.authProvider user))))
      | None => (db, refuse 500 "Failed to update profile")
      end
  end.

(** [GET /users/:userId] *)
Definition getUserProfile (userId targetUserId : string) (db : Db) : Db * AuthReply :=
  match users db !! userId, User_findById targetUserId db with
  | _, CastError => (db, refuse 500 "Failed to get user profile")
  | Some currentUser, Found targetId targetUser =>
      let isFriend := some_eq targetUserId (User.friends currentUser) in
      let isOwn := bool_decide (userId = targetUserId) in
      (db, reply (AProfile
         {| Profile.id := targetId;
            Profile.name := User.name targetUser;
            Profile.email := User.email targetUser;
            Profile.avatar := User.avatar targetUser;
            Profile.bio := User.bio targetUser;
            Profile.isPrivate := User.isPrivate targetUser;
            Profile.friendsCount := length (User.friends targetUser);
            Profile.isFriend := isFriend;
            Profile.isOwn := isOwn;
            Profile.canViewNotes :=
              (isOwn || (isFriend && negb (User.isPrivate targetUser)))%bool |}))
  | _, _ => (db, refuse 404 "User not found")
  end.

(** ** Predicates used by the statements *)

(** A path parameter that denotes the ObjectId [id]. *)
Definition denotes (path id : string) : Prop := castObjectId path = Some id.

(** Friendship is symmetric: among the stored users, [u] lists [v] as a
    friend exactly when [v] lists [u]. *)
Definition Symmetric (db : Db) : Prop :=
  ∀ u v du dv,
    users db !! u = Some du → users db !! v = Some dv →
    (v ∈ User.friends du ↔ u ∈ User.friends dv).

(** An executable check of [Symmetric]: every friend a user lists, if
    stored, lists the user back. *)
Definition symmetricb (db : Db) : bool :=
  forallb (λ d : string * User.t,
    forallb (λ v,
      match users db !! v with
      | Some dv => bool_decide (d.1 ∈ User.friends dv)
      | None => true
      end) (User.friends d.2))
    (map_to_list (users db)).

(** A listing is ordered when pinned entries come before unpinned ones
    and, among entries with the same pin flag, later dates come first. *)
Definition ordered (keys : list (bool * Z)) : Prop :=
  ∀ (i j : nat) k1 k2,
    (i < j)%nat → keys !! i = Some k1 → keys !! j = Some k2 →
    (k2.1 = true → k1.1 = true) ∧ (k1.1 = k2.1 → (k2.2 ≤ k1.2)%Z).

Definition viewKey (v : NoteView.t) : bool * Z :=
  (NoteView.isPinned v, NoteView.date v).

(** The documents carried by a response of [GET /]. *)
Definition docsOf (res : Response) : list (string * Note.t) :=
  match json res with
  | JNotes docs => docs
  | _ => []
  end.

(** Exactly one of three conditions holds. *)
Definition exactlyOne (a b c : Prop) : Prop :=
  (a ∧ ¬ b ∧ ¬ c) ∨ (¬ a ∧ b ∧ ¬ c) ∨ (¬ a ∧ ¬ b ∧ c).

(** What [uploadImages] stores for one request image. *)
Definition storedAs (uploadBase64 : string → option Uploaded.t) (now : Z)
    (img out : Image.t) : Prop :=
  match Image.url img with
  | Some url =>
      if startsWith url "data:" then
        ∃ uploaded,
          uploadBase64 url = Some uploaded ∧
          Image.url out = Some (Uploaded.url uploaded) ∧
          Image.publicId out = Some (Uploaded.publicId uploaded) ∧
          Image.id out = Some (match Image.id img with
                               | Some id => if bool_decide (id = "") then pretty now else id
                               | None => pretty now
                               end)
      else out = img
  | None => False
  end.

(** No two stored users share an email address. *)
Definition UniqueEmails (db : Db) : Prop :=
  ∀ i j ui uj,
    users db !! i = Some ui → users db !! j = Some uj →
    User.email ui = User.email uj → i = j.

(** An executable check of [UniqueEmails]. *)
Definition uniqueEmailsb (db : Db) : bool :=
  bool_decide (NoDup ((λ d : string * User.t, User.email d.2) <$> map_to_list (users db))).

(** Every stored user passes schema validation. *)
Definition ValidUsers (db : Db) : Prop :=
  ∀ id u, users db !! id = Some u → User.valid u = true.

(** [n'] is [n] up to its [likes] list and a schema default for
    [isPublic] written out where [n] has none. *)
Definition sameButLikes (n n' : Note.t) : Prop :=
  Note.set_likes (Note.likes n) n' = n
  ∨ Note.set_likes (Note.likes n) n' = Note.withDefaults n.

(** What a request of [userId] may do to the database: the users
    collection is left alone, and a note of somebody else stays where it is,
    changed at most in its [likes]. *)
Definition Confined (userId : string) (db db' : Db) : Prop :=
  users db' = users db
  ∧ ∀ id n, notes db !! id = Some n → Note.userId n ≠ userId →
            ∃ n', notes db' !! id = Some n' ∧ sameButLikes n n'.

(** ** Sample documents and collaborators

    Concrete data on which the statements below are exercised. *)

Definition aliceId : string := "65f1a0000000000000000001".
Definition bobId : string := "65f1a0000000000000000002".
Definition carolId : string := "65f1a0000000000000000003".
Definition freshId : string := "65f1a00000000000000000ff".

Definition sampleUser (email name : string) (friends friendRequests sent : list string)
    : User.t :=
  {| User.email := email; User.password := Some "$2b$10$hash"; User.name := name;
     User.avatar := ""; User.bio := ""; User.isPrivate := false;
     User.googleId := None; User.authProvider := User.Email;
     User.refreshToken := None;
     User.friends := friends;
     User.friendRequests := friendRequests;
     User.sentFriendRequests := sent |}.

(** Alice and Bob are friends; Carol has asked Bob. *)
Definition alice : User.t := sampleUser "alice@example.com" "Alice" [bobId] [] [].
Definition bob : User.t := sampleUser "bob@example.com" "Bob" [aliceId] [carolId] [].
Definition carol : User.t := sampleUser "carol@example.com" "Carol" [] [] [bobId].

Definition sampleNote (title : string) (date : Z) (isPinned isArchived isDeleted : bool)
    (deletedAt : option Z) (isPublic : bool) (likes : list string) : Note.t :=
  {| Note.title := title; Note.content := "text"; Note.color := "#E9D5FF";
     Note.images := [Image.mk (Some "1") (Some "https://cdn.example/1.png")
                              (Some "notu/1")];
     Note.date := date; Note.userId := aliceId;
     Note.isPinned := isPinned; Note.isArchived := isArchived;
     Note.isDeleted := isDeleted; Note.deletedAt := deletedAt;
     Note.isPublic := Some isPublic; Note.likes := likes |}.

Definition pinnedId : string := "65f1b0000000000000000001".
Definition recentId : string := "65f1b0000000000000000002".
Definition privateId : string := "65f1b0000000000000000003".
Definition trashedId : string := "65f1b0000000000000000004".
Definition archivedId : string := "65f1b0000000000000000005".

Definition pinnedNote : Note.t := sampleNote "Pinned" 100 true false false None true [].
Definition recentNote : Note.t := sampleNote "Recent" 300 false false false None true [bobId].
Definition privateNote : Note.t := sampleNote "Diary" 200 false false false None false [].
Definition trashedNote : Note.t := sampleNote "Old" 50 false false true (Some 250) true [].
Definition archivedNote : Note.t := sampleNote "Kept" 60 false true false None true [].

Definition sampleDb : Db :=
  {| users := <[aliceId := alice]> (<[bobId := bob]> (<[carolId := carol]> ∅));
     notes := <[pinnedId := pinnedNote]> (<[recentId := recentNote]>
              (<[privateId := privateNote]> (<[trashedId := trashedNote]>
              (<[archivedId := archivedNote]> ∅)))) |}.

(** A state in which friendship is one-sided: Bob lists Alice, Alice does
    not list Bob. *)
Definition loneAlice : User.t := sampleUser "alice@example.com" "Alice" [] [] [].

Definition lopsidedDb : Db :=
  {| users := <[aliceId := loneAlice]> (<[bobId := bob]> ∅);
     notes := <[privateId := privateNote]> ∅ |}.

Definition sampleUploadBase64 (data : string) : option Uploaded.t :=
  if startsWith data "data:image/" then
    Some (Uploaded.mk ("https://cdn.example/" ++ pretty (String.length data) ++ ".png")
                      ("notu/" ++ pretty (String.length data)))
  else None.

Definition sampleUploadFile (file : string) : option Uploaded.t :=
  Some (Uploaded.mk "https://cdn.example/file.png" "notu/file").

Definition sampleDeleteFile (publicId : string) : bool := true.

(** A bearer token is the user id it was issued for. *)
Definition sampleAuth (req : Req.t) : AuthOutcome :=
  match Req.headers req !! "authorization" with
  | Some token =>
      if startsWith token "Bearer "
      then Authenticated (String.substring 7 (String.length token - 7) token)
      else Rejected (fail 401 "Invalid token")
  | None => Rejected (fail 401 "No token provided")
  end.

Definition sampleAccessToken (userId : string) : string := "access." ++ userId.
Definition sampleRefreshToken (userId : string) : string := "refresh." ++ userId.
Definition sampleHash (password : string) : string := "$2b$10$" ++ password.

Definition emptyBody : Req.body :=
  Req.mkBody None None None None None None None None.

(** [GET /] without an [Authorization] header. *)
Definition anonymousRequest : Req.t :=
  Req.mk Req.GET [] ∅ ∅ emptyBody None.

(** The images of a request: an inline image without an id and an image
    already in storage. *)
Definition sampleImages : list Image.t :=
  [Image.mk None (Some "data:image/png;base64,AAAA") None;
   Image.mk (Some "7") (Some "https://cdn.example/7.png") (Some "notu/7")].

Definition sampleBody : Req.body :=
  Req.mkBody (Some "Shopping") (Some "milk") None (Some sampleImages) None None None None.

(** Lower-casing of the ASCII letters, with which [toLowerCase] agrees on
    ASCII text. *)
Definition sampleToLowerCase : string → string := asciiLower.

(** Bob's id as a client may also spell it. *)
Definition bobIdUpper : string := "65F1A0000000000000000002".

(** A note as [PUT /:id] can leave it: it holds an image without
    [publicId]. *)
Definition looseNote : Note.t :=
  Note.applyUpdateData "Loose" None None
    [Image.mk (Some "9") (Some "https://elsewhere.example/9.png") None] 400 None None
    recentNote.

Definition looseDb : Db := Note_put recentId looseNote sampleDb.

(** Further sample requests, sessions and collaborators. *)

(** [POST /:id/like] on Alice's public note. *)
Definition likeRequest : Req.t :=
  Req.mk Req.POST [recentId; "like"] ∅ ∅ emptyBody None.

(** Alice with an open session. *)
Definition aliceLoggedIn : User.t := set_token (Some (sampleRefreshToken aliceId)) alice.

Definition sessionDb : Db := User_put aliceId aliceLoggedIn sampleDb.

(** A refresh token names its user after the prefix. *)
Definition sampleVerify (token : string) : option Decoded.t :=
  if startsWith token "refresh."
  then Some (Decoded.mk "refresh" (String.substring 8 24 token))
  else None.

(** A later minting of refresh tokens. *)
Definition laterRefreshToken (userId : string) : string := "refresh." ++ userId ++ ".2".

Definition sampleCompare (candidate : string) (hash : option string) : option bool :=
  match hash with
  | Some h => Some (bool_decide (h = "$2b$10$" ++ candidate))
  | None => None
  end.

(** The body of the [PUT /:id] that leaves [looseNote]. *)
Definition looseBody : Req.body :=
  Req.mkBody (Some "Loose") None None
    (Some [Image.mk (Some "9") (Some "https://elsewhere.example/9.png") None])
    None None None None.
(** * Properties *)

(** ** Strings and ObjectIds *)

Section DropSpacesFacts.

Variable p1 : ascii → bool.
Variable p2 : ascii → ascii → bool.
Variable p3 : ascii → ascii → ascii → bool.

Lemma dropSpaces_cases (l : list ascii) :
  (leadsWithSpace p1 p2 p3 l = false ∧ dropSpaces p1 p2 p3 l = l)
  ∨ (leadsWithSpace p1 p2 p3 l = true
     ∧ ∃ r, dropSpaces p1 p2 p3 l = dropSpaces p1 p2 p3 r
            ∧ (length r < length l)%nat ∧ r `suffix_of` l).
Proof.
  destruct l as [|c1 r1]; [by left|]. simpl.
  destruct (p1 c1) eqn:H1.
  { right. split; [done|]. exists r1. split_and!; [done|simpl; lia|].
    by apply suffix_cons_r. }
  destruct r1 as [|c2 r2]; [by left|].
  destruct (p2 c1 c2) eqn:H2.
  { right. split; [done|]. exists r2. split_and!; [done|simpl; lia|].
    by do 2 apply suffix_cons_r. }
  destruct r2 as [|c3 r3]; [by left|].
  destruct (p3 c1 c2 c3) eqn:H3.
  { right. split; [done|]. exists r3. split_and!; [done|simpl; lia|].
    by do 3 apply suffix_cons_r. }
  by left.
Qed.

Lemma dropSpaces_result (l : list ascii) :
  leadsWithSpace p1 p2 p3 (dropSpaces p1 p2 p3 l) = false
  ∧ dropSpaces p1 p2 p3 l `suffix_of` l.
Proof.
  remember (length l) as n eqn:Hn. revert l Hn.
  induction (lt_wf n) as [n _ IH]. intros l ->.
  destruct (dropSpaces_cases l) as [[Hl ->]|[_ (r & -> & Hlt & Hsuf)]]; [done|].
  destruct (IH (length r) Hlt r eq_refl) as [Hlead Hsuf'].
  split; [done|]. by etrans.
Qed.

Lemma dropSpaces_fixed (l : list ascii) :
  leadsWithSpace p1 p2 p3 l = false → dropSpaces p1 p2 p3 l = l.
Proof.
  intros Hl. destruct (dropSpaces_cases l) as [[_ ?]|[? _]]; [done|congruence].
Qed.

(** Whether a text begins with white space is decided by its first three
    bytes at most: a prefix that does, does so within the text. *)
Lemma leadsWithSpace_prefix (l1 l2 : list ascii) :
  l1 `prefix_of` l2 → leadsWithSpace p1 p2 p3 l1 = true → leadsWithSpace p1 p2 p3 l2 = true.
Proof.
  intros [k ->]. destruct l1 as [|c1 [|c2 [|c3 r]]]; simpl; try done.
  - destruct (p1 c1); [done|]. discriminate.
  - destruct (p1 c1); [done|]. destruct (p2 c1 c2); [done|]. discriminate.
Qed.

End DropSpacesFacts.

Lemma trimBytes_fixed (l : list ascii) :
  trimEndBytes (trimStartBytes (trimEndBytes (trimStartBytes l)))
  = trimEndBytes (trimStartBytes l).
Proof.
  unfold trimEndBytes, trimStartBytes.
  set (q2 := λ c2 c1, isSpace2 c1 c2). set (q3 := λ c3 c2 c1, isSpace3 c1 c2 c3).
  set (a := dropSpaces isSpace1 isSpace2 isSpace3 l).
  destruct (dropSpaces_result isSpace1 isSpace2 isSpace3 l) as [Ha _]. fold a in Ha.
  destruct (dropSpaces_result isSpace1 q2 q3 (reverse a)) as [Hb Hsuf].
  set (b := reverse (dropSpaces isSpace1 q2 q3 (reverse a))).
  assert (b `prefix_of` a) as Hpre.
  { apply suffix_prefix_reverse in Hsuf. by rewrite reverse_involutive in Hsuf. }
  assert (leadsWithSpace isSpace1 isSpace2 isSpace3 b = false) as Hlead.
  { destruct (leadsWithSpace isSpace1 isSpace2 isSpace3 b) eqn:E; [|done].
    apply (leadsWithSpace_prefix _ _ _ _ _ Hpre) in E. congruence. }
  rewrite (dropSpaces_fixed _ _ _ b Hlead).
  unfold b at 1. rewrite reverse_involutive.
  by rewrite (dropSpaces_fixed _ _ _ _ Hb).
Qed.

(** Trimming a trimmed string changes nothing. *)
Lemma trim_idempotent (s : string) : trim (trim s) = trim s.
Proof.
  unfold trim. rewrite String.list_ascii_of_string_of_list_ascii.
  by rewrite trimBytes_fixed.
Qed.

Lemma trim_empty : trim "" = "".
Proof. reflexivity. Qed.

Lemma jsLength_substring0 (n : nat) (s : string) : (jsLength (substring0 n s) ≤ n)%nat.
Proof.
  revert n. induction s as [|c s IH]; intros n; simpl; [lia|].
  destruct (unitsOf c <=? n)%nat eqn:E.
  - apply Nat.leb_le in E. simpl. specialize (IH (n - unitsOf c)%nat). lia.
  - destruct (n =? 0)%nat eqn:E0; simpl; [lia|].
    apply Nat.eqb_neq in E0. change (1 ≤ n)%nat. lia.
Qed.

Lemma lowerAscii_idempotent (c : ascii) : lowerAscii (lowerAscii c) = lowerAscii c.
Proof. destruct c as [[] [] [] [] [] [] [] []]; reflexivity. Qed.

Lemma lowerAscii_hex (c : ascii) : isHexDigit (lowerAscii c) = isHexDigit c.
Proof. destruct c as [[] [] [] [] [] [] [] []]; reflexivity. Qed.

Lemma asciiLower_idempotent (s : string) : asciiLower (asciiLower s) = asciiLower s.
Proof. induction s as [|c s IH]; simpl; [done|]. by rewrite lowerAscii_idempotent, IH. Qed.

Lemma asciiLower_length (s : string) : String.length (asciiLower s) = String.length s.
Proof. induction s as [|c s IH]; simpl; [done|]. by rewrite IH. Qed.

Lemma asciiLower_hex (s : string) :
  forallb isHexDigit (String.list_ascii_of_string (asciiLower s))
  = forallb isHexDigit (String.list_ascii_of_string s).
Proof. induction s as [|c s IH]; simpl; [done|]. by rewrite lowerAscii_hex, IH. Qed.

(** What a cast yields is an id string: casting it again is the
    identity. *)
Lemma denotes_canonical (path id : string) : denotes path id → denotes id id.
Proof.
  unfold denotes, castObjectId.
  destruct (_ && _)%bool eqn:E; [|discriminate]. intros [= <-].
  by rewrite asciiLower_length, asciiLower_hex, E, asciiLower_idempotent.
Qed.

Lemma denotes_unique (path id id' : string) : denotes path id → denotes path id' → id = id'.
Proof. unfold denotes. congruence. Qed.

(** ** Lookups *)

Lemma findById_Found {A} (collection : gmap string A) (path id : string) (doc : A) :
  findById collection path = Found id doc ↔ denotes path id ∧ collection !! id = Some doc.
Proof.
  unfold findById, denotes. destruct (castObjectId path) as [i|].
  - destruct (collection !! i) eqn:E; split.
    + by intros [= <- <-].
    + intros [[= <-] ?]. congruence.
    + done.
    + intros [[= <-] ?]. congruence.
  - split; [done|]. by intros [? _].
Qed.

Lemma findById_CastError {A} (collection : gmap string A) (path : string) :
  findById collection path = CastError ↔ castObjectId path = None.
Proof.
  unfold findById. destruct (castObjectId path) as [i|]; [|done].
  by destruct (collection !! i).
Qed.

Lemma findById_NotFound {A} (collection : gmap string A) (path : string) :
  findById collection path = NotFound
  ↔ ∃ id, denotes path id ∧ collection !! id = None.
Proof.
  unfold findById, denotes. destruct (castObjectId path) as [i|].
  - destruct (collection !! i) eqn:E; split.
    + done.
    + intros (id & [= <-] & ?). congruence.
    + intros _. by exists i.
    + done.
  - split; [done|]. by intros (? & ? & _).
Qed.

Lemma findById_denotes {A} (collection : gmap string A) (path id : string) :
  denotes path id →
  findById collection path
  = match collection !! id with Some doc => Found id doc | None => NotFound end.
Proof. unfold findById, denotes. by intros ->. Qed.

Lemma Note_findOwn_Found (path userId id : string) (db : Db) (n : Note.t) :
  Note_findOwn path userId db = Found id n
  ↔ denotes path id ∧ notes db !! id = Some n ∧ Note.userId n = userId.
Proof.
  unfold Note_findOwn, Note_findById.
  destruct (findById (notes db) path) as [| |i m] eqn:E.
  { apply findById_CastError in E. split; [done|]. unfold denotes. intros [? _]. congruence. }
  { apply findById_NotFound in E as (i & Hd & Hn). split; [done|].
    intros (Hd' & Hn' & _). rewrite (denotes_unique _ _ _ Hd' Hd) in Hn'. congruence. }
  apply findById_Found in E as [Hd Hm].
  case_bool_decide; split.
  - intros [= -> ->]. done.
  - intros (Hd' & Hn & _). rewrite (denotes_unique _ _ _ Hd' Hd) in Hn. congruence.
  - done.
  - intros (Hd' & Hn & Hu). rewrite (denotes_unique _ _ _ Hd' Hd) in Hn. congruence.
Qed.

Lemma Note_findOwn_CastError (path userId : string) (db : Db) :
  Note_findOwn path userId db = CastError ↔ castObjectId path = None.
Proof.
  unfold Note_findOwn, Note_findById. rewrite <- (findById_CastError (notes db)).
  destruct (findById (notes db) path); [done|done|]. by case_bool_decide.
Qed.

Lemma Note_findOwn_NotFound (path userId : string) (db : Db) :
  Note_findOwn path userId db = NotFound
  ↔ ∃ id, denotes path id
          ∧ ∀ n, notes db !! id = Some n → Note.userId n ≠ userId.
Proof.
  unfold Note_findOwn, Note_findById.
  destruct (findById (notes db) path) as [| |i m] eqn:E.
  - apply findById_CastError in E. unfold denotes. split; [done|].
    intros (id & Hd & _). congruence.
  - apply findById_NotFound in E as (i & Hd & Hn). split; [|done].
    intros _. exists i. split; [done|]. intros n. by rewrite Hn.
  - apply findById_Found in E as [Hd Hm]. case_bool_decide as Hu; split.
    + done.
    + intros (i' & Hd' & Hne). rewrite (denotes_unique _ _ _ Hd' Hd) in Hne.
      by destruct (Hne m Hm).
    + intros _. exists i. split; [done|]. intros n. rewrite Hm. by intros [= <-].
    + done.
Qed.

Lemma Note_findOwn_denotes (path userId id : string) (db : Db) :
  denotes path id →
  Note_findOwn path userId db
  = match notes db !! id with
    | Some n => if bool_decide (Note.userId n = userId) then Found id n else NotFound
    | None => NotFound
    end.
Proof.
  intros Hd. unfold Note_findOwn, Note_findById. rewrite (findById_denotes _ _ _ Hd).
  by destruct (notes db !! id).
Qed.


(** ** The string helpers on concrete inputs *)

Example asciiLower_mixed : asciiLower "Alice@Example.COM" = "alice@example.com".
Proof. reflexivity. Qed.

Example trim_both_ends : trim "  a b  " = "a b".
Proof. reflexivity. Qed.

(** A no-break space (U+00A0) and a line separator (U+2028) are white
    space too; an "é" at either end stays. *)
Example trim_unicode_spaces : trim " é b é " = "é b é".
Proof. reflexivity. Qed.

(** Five characters, six bytes. *)
Example jsLength_umlauts : jsLength "pässw" = 5%nat ∧ String.length "pässw" = 6%nat.
Proof. split; reflexivity. Qed.

(** A musical symbol beyond the basic plane counts two units; cutting
    after the first leaves U+FFFD. *)
Example substring0_astral :
  jsLength "a𝄞" = 3%nat ∧ substring0 1 "a𝄞" = "a" ∧ substring0 2 "a𝄞" = "a�".
Proof. repeat split; reflexivity. Qed.

Example castObjectId_cases :
  castObjectId "65F1A0000000000000000002" = Some "65f1a0000000000000000002"
  ∧ castObjectId "65f1a0000000000000000002" = Some "65f1a0000000000000000002"
  ∧ castObjectId "trash" = None
  ∧ castObjectId "65f1a000000000000000000g" = None.
Proof. repeat split; reflexivity. Qed.

Example startsWith_data : startsWith "data:image/png;base64,AAAA" "data:" = true.
Proof. reflexivity. Qed.

Example startsWith_https : startsWith "https://cdn.example/7.png" "data:" = false.
Proof. reflexivity. Qed.

Example orElse_empty : orElse (Some "") "Untitled" = "Untitled".
Proof. reflexivity. Qed.

Example sampleDb_pinned_first :
  (sortNotes (Note_find (listFilter aliceId None None) sampleDb)).*1
  = [pinnedId; recentId; privateId].
Proof. reflexivity. Qed.

(** ** The listing order *)

Section ListingOrder.

Lemma sortKeyLe_total k1 k2 : sortKeyLe k1 k2 ∨ sortKeyLe k2 k1.
Proof.
  destruct k1 as [[] d1], k2 as [[] d2]; unfold sortKeyLe; simpl;
    repeat case_bool_decide; simpl; try tauto; try congruence; lia.
Qed.

Lemma sortKeyLe_trans k1 k2 k3 :
  sortKeyLe k1 k2 → sortKeyLe k2 k3 → sortKeyLe k1 k3.
Proof.
  destruct k1 as [[] d1], k2 as [[] d2], k3 as [[] d3]; unfold sortKeyLe; simpl;
    repeat case_bool_decide; simpl; try tauto; try congruence; lia.
Qed.

Lemma sortKeyLe_ordered k1 k2 :
  sortKeyLe k1 k2 →
  (k2.1 = true → k1.1 = true) ∧ (k1.1 = k2.1 → (k2.2 ≤ k1.2)%Z).
Proof.
  destruct k1 as [[] d1], k2 as [[] d2]; unfold sortKeyLe; simpl;
    repeat case_bool_decide; simpl; intuition (try congruence; try lia).
Qed.

#[local] Instance byPinnedDateDesc_total : Total byPinnedDateDesc.
Proof. intros d1 d2. apply sortKeyLe_total. Qed.

#[local] Instance byPinnedDateDesc_trans : Transitive byPinnedDateDesc.
Proof. intros d1 d2 d3. apply sortKeyLe_trans. Qed.

(** In a strongly sorted list, an earlier position is related to every
    later one. *)
Lemma StronglySorted_lookup_lt {A} (R : relation A) (l : list A) (i j : nat) x y :
  StronglySorted R l → (i < j)%nat → l !! i = Some x → l !! j = Some y → R x y.
Proof.
  intros Hs. revert i j x y.
  induction Hs as [|a l Hs IH Hall]; intros i j x y Hij Hi Hj.
  - by rewrite lookup_nil in Hi.
  - destruct j as [|j]; [lia|]. simpl in Hj. destruct i as [|i]; simpl in Hi.
    + injection Hi as ->. rewrite Forall_forall in Hall.
      apply Hall. eapply list_elem_of_lookup_2, Hj.
    + eapply (IH i j); [lia|done..].
Qed.

Lemma ordered_of_sorted {A} (key : A → bool * Z) (l : list A) :
  StronglySorted (λ x y, sortKeyLe (key x) (key y)) l → ordered (key <$> l).
Proof.
  intros Hs i j k1 k2 Hij Hi Hj.
  rewrite list_lookup_fmap in Hi, Hj.
  destruct (l !! i) as [x|] eqn:Hx; [|done].
  destruct (l !! j) as [y|] eqn:Hy; [|done].
  simpl in Hi, Hj. injection Hi as <-. injection Hj as <-.
  apply sortKeyLe_ordered.
  exact (StronglySorted_lookup_lt (λ x y, sortKeyLe (key x) (key y)) l i j x y Hs Hij Hx Hy).
Qed.

Lemma sortNotes_sorted l : StronglySorted byPinnedDateDesc (sortNotes l).
Proof. apply StronglySorted_merge_sort; apply _. Qed.

Lemma sortNotes_elem d l : d ∈ sortNotes l ↔ d ∈ l.
Proof. unfold sortNotes. by rewrite merge_sort_Permutation. Qed.

Lemma Note_find_elem f db d :
  d ∈ Note_find f db ↔ notes db !! d.1 = Some d.2 ∧ matches f d.2.
Proof.
  unfold Note_find. rewrite list_elem_of_filter, elem_of_map_to_list'. tauto.
Qed.

Lemma withLikeInfo_key currentUserId isOwn d :
  viewKey (withLikeInfo currentUserId isOwn d) = sortKey d.
Proof. done. Qed.

(** C10. Both listing endpoints, [GET /] and [GET /user/:userId], answer
    with the notes ordered by [{ isPinned: -1, date: -1 }]: every pinned
    note comes before every unpinned one, and notes with the same pin flag
    appear by date descending.  [GET /] always answers with such a list;
    [GET /user/:userId] does whenever it answers with a list at all, which
    it does for the requester's own notes and for those of a friend whose
    profile is not private. *)
Theorem listings_pinned_first_date_desc :
  (∀ userId archived deleted db,
     ∃ docs, listNotes userId archived deleted db = (db, ok (JNotes docs))
             ∧ ordered (sortKey <$> docs))
  ∧ (∀ currentUserId targetUserId db views,
       (userNotes currentUserId targetUserId db).2 = ok (JUserNotes views) →
       ordered (viewKey <$> views))
  ∧ (∀ currentUserId targetUserId targetId db currentUser targetUser,
       users db !! currentUserId = Some currentUser →
       denotes targetUserId targetId →
       users db !! targetId = Some targetUser →
       currentUserId = targetUserId
       ∨ (targetUserId ∈ User.friends currentUser ∧ User.isPrivate targetUser = false) →
       ∃ views, userNotes currentUserId targetUserId db = (db, ok (JUserNotes views))
                ∧ ordered (viewKey <$> views)).
Proof.
  assert (Hviews : ∀ cur tgt db views,
            (userNotes cur tgt db).2 = ok (JUserNotes views) →
            ordered (viewKey <$> views)).
  { intros cur tgt db views. unfold userNotes.
    destruct (users db !! cur) as [cu|], (User_findById tgt db) as [| |tid tu];
      try discriminate.
    destruct (_ && _)%bool; [discriminate|].
    destruct (_ && _)%bool; [discriminate|].
    simpl. intros [= <-].
    rewrite <- list_fmap_compose.
    apply (ordered_of_sorted (viewKey ∘ withLikeInfo cur (bool_decide (cur = tgt)))).
    apply sortNotes_sorted. }
  split; [|split; [exact Hviews|]].
  - intros userId archived deleted db. eexists. split; [reflexivity|].
    apply ordered_of_sorted, sortNotes_sorted.
  - intros cur tgt tid db cu tu Hc Hid Ht Hmay.
    assert (∃ views, userNotes cur tgt db = (db, ok (JUserNotes views))) as [views Hrun].
    { unfold userNotes, User_findById, findById. rewrite Hc, Hid, Ht.
      destruct Hmay as [<- | [Hfriend Hpub]].
      - rewrite bool_decide_eq_true_2 by done. simpl. by eexists.
      - assert (some_eq tgt (User.friends cu) = true) as ->.
        { unfold some_eq. apply existsb_exists. exists tgt.
          split; [by apply list_elem_of_In|by apply bool_decide_eq_true]. }
        rewrite Hpub, !andb_false_r. by eexists. }
    exists views. split; [done|]. apply (Hviews cur tgt db). by rewrite Hrun.
Qed.

End ListingOrder.

(** ** The three views of [GET /] *)

Section ListViews.

Lemma listNotes_elem userId archived deleted db d :
  d ∈ docsOf (listNotes userId archived deleted db).2
  ↔ notes db !! d.1 = Some d.2 ∧ matches (listFilter userId archived deleted) d.2.
Proof.
  change (docsOf (listNotes userId archived deleted db).2)
    with (sortNotes (Note_find (listFilter userId archived deleted) db)).
  by rewrite sortNotes_elem, Note_find_elem.
Qed.

Lemma listFilter_cases userId archived deleted :
  listFilter userId archived deleted = listFilter userId None (Some "true")
  ∨ listFilter userId archived deleted = listFilter userId (Some "true") None
  ∨ listFilter userId archived deleted = listFilter userId None None.
Proof.
  unfold listFilter. repeat case_bool_decide; simplify_eq; auto.
Qed.

Lemma matches_views (n : Note.t) :
  matches (listFilter (Note.userId n) None (Some "true")) n = Note.isDeleted n
  ∧ matches (listFilter (Note.userId n) (Some "true") None) n
    = (negb (Note.isDeleted n) && Note.isArchived n)%bool
  ∧ matches (listFilter (Note.userId n) None None) n
    = (negb (Note.isDeleted n) && negb (Note.isArchived n))%bool.
Proof.
  unfold matches, listFilter, holds. simpl.
  rewrite bool_decide_eq_true_2 by done.
  destruct (Note.isDeleted n), (Note.isArchived n); done.
Qed.

(** C9. The deleted, archived and default views of [GET /] partition the
    requester's notes: a stored note of the requester is returned by the
    deleted view exactly when [isDeleted] is true, by the archived view
    exactly when [isDeleted] is not true and [isArchived] is true, by the
    default view exactly when neither flag is true, hence by exactly one of
    the three; and every query string selects one of these three filters. *)
Theorem list_views_partition (userId : string) (db : Db) (id : string) (n : Note.t) :
  notes db !! id = Some n →
  Note.userId n = userId →
  let inView archived deleted :=
    (id, n) ∈ docsOf (listNotes userId archived deleted db).2 in
  (inView None (Some "true") ↔ Note.isDeleted n = true)
  ∧ (inView (Some "true") None ↔ Note.isDeleted n = false ∧ Note.isArchived n = true)
  ∧ (inView None None ↔ Note.isDeleted n = false ∧ Note.isArchived n = false)
  ∧ exactlyOne (inView None (Some "true")) (inView (Some "true") None) (inView None None)
  ∧ (∀ archived deleted,
       listFilter userId archived deleted = listFilter userId None (Some "true")
       ∨ listFilter userId archived deleted = listFilter userId (Some "true") None
       ∨ listFilter userId archived deleted = listFilter userId None None).
Proof.
  intros Hn <- inView.
  destruct (matches_views n) as (Md & Ma & Mn).
  assert (Hview : ∀ a d, inView a d ↔ matches (listFilter (Note.userId n) a d) n).
  { intros a d. unfold inView. rewrite listNotes_elem. simpl. tauto. }
  pose proof (Hview None (Some "true")) as H1. rewrite Md in H1.
  pose proof (Hview (Some "true") None) as H2. rewrite Ma in H2.
  pose proof (Hview None None) as H3. rewrite Mn in H3.
  clear Hview Md Ma Mn Hn. clearbody inView.
  generalize dependent (inView None (Some "true")).
  generalize dependent (inView (Some "true") None).
  generalize dependent (inView None None).
  intros P3 H3 P2 H2 P1 H1. unfold exactlyOne.
  destruct (Note.isDeleted n), (Note.isArchived n); simpl in *;
    (repeat split; try apply listFilter_cases; try tauto; try congruence;
     intuition congruence).
Qed.

End ListViews.
(** ** Trash *)

Section Trash.

Variable deleteFile : string → bool.

Lemma Note_put_lookup id n db : notes (Note_put id n db) !! id = Some n.
Proof. apply lookup_insert_eq. Qed.

Lemma Note_put_lookup_ne id id' n db :
  id ≠ id' → notes (Note_put id n db) !! id' = notes db !! id'.
Proof. intros. by apply lookup_insert_ne. Qed.

(** C4 (as amended). Trash is driven by [isDeleted] and [deletedAt].
    [DELETE /:id] without [permanent=true] on a note of the requester
    keeps the document and sets [isDeleted] to true and [deletedAt] to the
    current time, leaving every other path and every other document alone.
    [POST /:id/restore] on a note of the requester whose [isDeleted] is
    true sets [isDeleted] to false and [deletedAt] to null, and it answers
    200 for such a note only.  In every other case the database is
    unchanged and the answer is 404 "Note not found in trash" — or, when
    the id in the path is not the string of an ObjectId, 500
    "Failed to restore note". *)
Theorem trash_soft_delete_and_restore (userId path : string) (now : Z) (db : Db) :
  (∀ id note permanent,
     denotes path id →
     notes db !! id = Some note → Note.userId note = userId →
     permanent ≠ Some "true" →
     ∃ db' note',
       deleteNote deleteFile userId path permanent now db
         = (db', ok (JMessage "Note moved to trash"))
       ∧ notes db' = <[id := note']> (notes db) ∧ users db' = users db
       ∧ note' = Note.set_trash true (Some now) note
       ∧ Note.isDeleted note' = true ∧ Note.deletedAt note' = Some now)
  ∧ (∀ id note,
       denotes path id →
       notes db !! id = Some note → Note.userId note = userId →
       Note.isDeleted note = true →
       ∃ db' note',
         restoreNote userId path db = (db', ok (JMessage "Note restored successfully"))
         ∧ notes db' = <[id := note']> (notes db) ∧ users db' = users db
         ∧ note' = Note.set_trash false None note
         ∧ Note.isDeleted note' = false ∧ Note.deletedAt note' = None)
  ∧ (status (restoreNote userId path db).2 = 200%nat →
     ∃ id note, denotes path id ∧ notes db !! id = Some note
                ∧ Note.userId note = userId ∧ Note.isDeleted note = true)
  ∧ (∀ id,
       denotes path id →
       (∀ note, notes db !! id = Some note → Note.userId note = userId →
                Note.isDeleted note ≠ true) →
       restoreNote userId path db = (db, fail 404 "Note not found in trash"))
  ∧ (castObjectId path = None →
     restoreNote userId path db = (db, fail 500 "Failed to restore note")).
Proof.
  split_and!.
  - intros id note permanent Hd Hn Hu Hp.
    exists (Note_put id (Note.set_trash true (Some now) note) db),
           (Note.set_trash true (Some now) note).
    unfold deleteNote.
    rewrite (proj2 (Note_findOwn_Found path userId id db note)) by done.
    rewrite bool_decide_eq_false_2 by done. done.
  - intros id note Hd Hn Hu Hdel.
    exists (Note_put id (Note.set_trash false None note) db),
           (Note.set_trash false None note).
    unfold restoreNote.
    rewrite (proj2 (Note_findOwn_Found path userId id db note)) by done.
    rewrite Hdel. done.
  - unfold restoreNote.
    destruct (Note_findOwn path userId db) as [| |id note] eqn:Hf; [done..|].
    apply Note_findOwn_Found in Hf as (Hd & Hn & Hu).
    destruct (Note.isDeleted note) eqn:Hdel; [|done].
    intros _. by exists id, note.
  - intros id Hd Hnone. unfold restoreNote.
    rewrite (Note_findOwn_denotes _ _ _ _ Hd).
    destruct (notes db !! id) as [note|] eqn:Hn; [|done].
    case_bool_decide as Hu; [|done].
    specialize (Hnone note eq_refl Hu).
    by destruct (Note.isDeleted note).
  - intros Hc. unfold restoreNote.
    by rewrite (proj2 (Note_findOwn_CastError path userId db) Hc).
Qed.

End Trash.

(** ** Likes *)

Section Likes.

Lemma some_eq_elem (x : string) (l : list string) : some_eq x l = true ↔ x ∈ l.
Proof.
  unfold some_eq. rewrite existsb_exists. split.
  - intros (y & Hy & He). apply bool_decide_eq_true in He as ->.
    by apply list_elem_of_In.
  - intros Hx. exists x. split; [by apply list_elem_of_In|].
    by apply bool_decide_eq_true.
Qed.

Lemma some_eq_not_elem (x : string) (l : list string) : some_eq x l = false ↔ x ∉ l.
Proof.
  rewrite <- some_eq_elem. destruct (some_eq x l); split; intros; congruence.
Qed.

Lemma filter_ne_elem (x y : string) (l : list string) :
  y ∈ filter_ne x l ↔ y ∈ l ∧ y ≠ x.
Proof. unfold filter_ne. rewrite list_elem_of_filter. tauto. Qed.

Lemma filter_ne_absent (x : string) (l : list string) : x ∉ l → filter_ne x l = l.
Proof.
  intros Hx. unfold filter_ne. induction l as [|y l IH]; [done|].
  rewrite not_elem_of_cons in Hx. destruct Hx as [Hne Hx].
  rewrite filter_cons_True by congruence. by rewrite IH.
Qed.

(** Removing the only occurrence of [x] and appending it again permutes
    the list. *)
Lemma filter_ne_snoc_perm (x : string) (l : list string) :
  x ∈ l → (length (filter (λ y, y = x) l) ≤ 1)%nat →
  (filter_ne x l ++ [x])%list ≡ₚ l.
Proof.
  unfold filter_ne. induction l as [|y l IH]; intros Hin Hcount.
  - by apply elem_of_nil in Hin.
  - destruct (decide (y = x)) as [->|Hne].
    + rewrite filter_cons_True in Hcount by done. simpl in Hcount.
      rewrite filter_cons_False by (intros ?; done).
      assert (x ∉ l) as Hx.
      { intros Hx. assert (x ∈ filter (λ y, y = x) l) as Hf
          by (by apply list_elem_of_filter).
        destruct (filter (λ y, y = x) l); [by apply elem_of_nil in Hf|simpl in *; lia]. }
      fold (filter_ne x l). rewrite filter_ne_absent by done.
      by rewrite Permutation_app_comm.
    + rewrite filter_cons_False in Hcount by done.
      rewrite filter_cons_True by done. simpl. f_equiv.
      apply IH; [|done]. apply elem_of_cons in Hin as [?|?]; [congruence|done].
Qed.

Lemma Note_put_put id n1 n2 db : Note_put id n2 (Note_put id n1 db) = Note_put id n2 db.
Proof. unfold Note_put, withNotes. simpl. by rewrite insert_insert_eq. Qed.

Lemma set_likes_set_likes l1 l2 n :
  Note.set_likes l2 (Note.set_likes l1 n) = Note.set_likes l2 n.
Proof. done. Qed.

Lemma valid_set_likes likes n : Note.valid (Note.set_likes likes n) = Note.valid n.
Proof. done. Qed.

Lemma valid_withDefaults n : Note.valid (Note.withDefaults n) = Note.valid n.
Proof. done. Qed.

Lemma withDefaults_idempotent n : Note.withDefaults (Note.withDefaults n) = Note.withDefaults n.
Proof. done. Qed.

Lemma withDefaults_set_likes likes n :
  Note.withDefaults (Note.set_likes likes n) = Note.set_likes likes (Note.withDefaults n).
Proof. done. Qed.

Lemma readIsPublic_withDefaults n :
  Note.readIsPublic (Note.withDefaults n) = Note.readIsPublic n.
Proof. done. Qed.

(** The handler on a note the requester may like, as one equation. *)
Lemma likeNote_allowed userId path noteId db note :
  denotes path noteId →
  notes db !! noteId = Some note →
  (Note.readIsPublic note = true ∨ Note.userId note = userId) →
  likeNote userId path db =
    let likes' := if some_eq userId (Note.likes note)
                  then filter_ne userId (Note.likes note)
                  else (Note.likes note ++ [userId])%list in
    if Note.valid note then
      (Note_put noteId (Note.set_likes likes' (Note.withDefaults note)) db,
       ok (JLike (negb (some_eq userId (Note.likes note))) (length likes')))
    else (db, fail 500 "Failed to toggle like").
Proof.
  intros Hd Hn Hmay. unfold likeNote, Note_findById.
  rewrite (findById_denotes _ _ _ Hd), Hn.
  assert ((negb (Note.readIsPublic note) && bool_decide (Note.userId note ≠ userId))%bool
          = false) as ->.
  { destruct Hmay as [-> | Hu]; [done|].
    rewrite (bool_decide_eq_false_2 (Note.userId note ≠ userId)) by tauto.
    by rewrite andb_false_r. }
  unfold Note_save. rewrite valid_set_likes, valid_withDefaults.
  by destruct (Note.valid note).
Qed.

(** C3 (as amended). Toggling a like.  On an existing note that the
    requester may like (the note is public or the requester owns it) and
    that passes schema validation, [POST /:id/like] removes the
    requester's id from [likes] when it is present and appends it
    otherwise; [liked] is true exactly when the id was absent before;
    [likesCount] is the length of the stored list; and a second toggle
    leaves a list with the membership of the original one — a permutation
    of it when the id occurred at most once.  On a note that does not pass
    validation the answer is 500 and nothing changes. *)
Theorem like_toggles_membership (userId path noteId : string) (db : Db) (note : Note.t) :
  denotes path noteId →
  notes db !! noteId = Some note →
  (Note.readIsPublic note = true ∨ Note.userId note = userId) →
  (Note.valid note = true →
   ∃ liked likes',
     likeNote userId path db
       = (Note_put noteId (Note.set_likes likes' (Note.withDefaults note)) db,
          ok (JLike liked (length likes')))
     ∧ (userId ∈ Note.likes note →
          likes' = filter (λ x, x ≠ userId) (Note.likes note) ∧ userId ∉ likes')
     ∧ (userId ∉ Note.likes note → likes' = (Note.likes note ++ [userId])%list)
     ∧ (liked = true ↔ userId ∉ Note.likes note)
     ∧ ∃ liked2 likes'',
         likeNote userId path (likeNote userId path db).1
           = (Note_put noteId (Note.set_likes likes'' (Note.withDefaults note)) db,
              ok (JLike liked2 (length likes'')))
         ∧ (∀ x, x ∈ likes'' ↔ x ∈ Note.likes note)
         ∧ ((length (filter (λ x, x = userId) (Note.likes note)) ≤ 1)%nat →
            likes'' ≡ₚ Note.likes note))
  ∧ (Note.valid note = false →
     likeNote userId path db = (db, fail 500 "Failed to toggle like")).
Proof.
  intros Hd Hn Hmay.
  rewrite (likeNote_allowed userId path noteId db note Hd Hn Hmay). cbn zeta.
  split; intros Hv; rewrite Hv; [|done].
  set (likes' := if some_eq userId (Note.likes note)
                 then filter_ne userId (Note.likes note)
                 else (Note.likes note ++ [userId])%list).
  exists (negb (some_eq userId (Note.likes note))), likes'.
  split; [done|]. split; [|split; [|split]].
  - intros Hin. apply some_eq_elem in Hin as Hs. subst likes'. rewrite Hs.
    split; [done|]. rewrite filter_ne_elem. tauto.
  - intros Hnin. apply some_eq_not_elem in Hnin as Hs. subst likes'. by rewrite Hs.
  - rewrite negb_true_iff. apply some_eq_not_elem.
  - cbn [fst].
    rewrite (likeNote_allowed userId path noteId _
               (Note.set_likes likes' (Note.withDefaults note)) Hd
               (Note_put_lookup _ _ _) Hmay).
    cbn zeta. rewrite valid_set_likes, valid_withDefaults, Hv.
    rewrite Note_put_put, withDefaults_set_likes, withDefaults_idempotent,
      set_likes_set_likes.
    change (Note.likes (Note.set_likes likes' (Note.withDefaults note))) with likes'.
    eexists _, _. split; [reflexivity|].
    subst likes'. destruct (some_eq userId (Note.likes note)) eqn:Hs.
    + apply some_eq_elem in Hs as Hin.
      assert (some_eq userId (filter_ne userId (Note.likes note)) = false) as ->.
      { apply some_eq_not_elem. rewrite filter_ne_elem. tauto. }
      split.
      * intros x. rewrite elem_of_app, filter_ne_elem, list_elem_of_singleton.
        destruct (decide (x = userId)) as [->|]; tauto.
      * intros Hc. by apply filter_ne_snoc_perm.
    + apply some_eq_not_elem in Hs as Hnin.
      assert (some_eq userId (Note.likes note ++ [userId])%list = true) as ->.
      { apply some_eq_elem. rewrite elem_of_app, list_elem_of_singleton. tauto. }
      assert (filter_ne userId (Note.likes note ++ [userId])%list = Note.likes note) as ->.
      { unfold filter_ne. rewrite filter_app, filter_cons_False, filter_nil, app_nil_r
          by (intros ?; done).
        by apply filter_ne_absent. }
      split; [done|done].
Qed.

End Likes.

(** ** Creating, updating and duplicating notes *)

Section CreateUpdate.

Variable uploadBase64 : string → option Uploaded.t.
Variable deleteFile : string → bool.

Lemma uploadImages_stored now images out :
  uploadImages uploadBase64 now images = Some out →
  Forall2 (storedAs uploadBase64 now) images out.
Proof.
  revert out. induction images as [|img rest IH]; intros out; simpl.
  - intros [= <-]. constructor.
  - destruct (Image.url img) as [url|] eqn:Hurl; [|done].
    destruct (startsWith url "data:") eqn:Hdata.
    + destruct (uploadBase64 url) as [uploaded|] eqn:Hup; [|done].
      destruct (uploadImages uploadBase64 now rest) as [out'|]; [|done].
      simpl. intros [= <-]. constructor; [|by apply IH].
      unfold storedAs. rewrite Hurl, Hdata. exists uploaded.
      by split_and!.
    + destruct (uploadImages uploadBase64 now rest) as [out'|]; [|done].
      simpl. intros [= <-]. constructor; [|by apply IH].
      unfold storedAs. by rewrite Hurl, Hdata.
Qed.

Lemma uploadImages_total now images :
  (∀ img, img ∈ images →
          ∃ url, Image.url img = Some url
                 ∧ (startsWith url "data:" = true → is_Some (uploadBase64 url))) →
  is_Some (uploadImages uploadBase64 now images).
Proof.
  induction images as [|img rest IH]; intros Hup; simpl; [by eexists|].
  destruct IH as [out' ->].
  { intros i Hi. apply Hup. by right. }
  destruct (Hup img) as (url & -> & Hdata); [by left|].
  destruct (startsWith url "data:") eqn:E; [|by eexists].
  destruct Hdata as [uploaded ->]; [done|]. by eexists.
Qed.

Lemma Note_saveNew_Some id n db db' :
  Note_saveNew id n db = Some db'
  ↔ Note.valid n = true ∧ notes db !! id = None
    ∧ db' = withNotes (<[id := n]> (notes db)) db.
Proof.
  unfold Note_saveNew. destruct (Note.valid n); simpl.
  - case_bool_decide as Hfresh; split.
    + intros [= <-]. done.
    + intros (_ & _ & ->). done.
    + intros [=].
    + intros (_ & ? & _). done.
  - split; [intros [=]|intros ([=] & _)].
Qed.

(** A 201 answer of [POST /] determines the stored note. *)
Lemma createNote_created userId body now newId db db' res :
  createNote uploadBase64 userId body now newId db = (db', res) →
  status res = 201%nat →
  ∃ out note,
    processImages uploadBase64 now (Req.images body) = Some out
    ∧ res = created (JNote (newId, note))
    ∧ notes db !! newId = None
    ∧ notes db' = <[newId := note]> (notes db) ∧ users db' = users db
    ∧ Note.images note = out
    ∧ Note.userId note = userId
    ∧ Note.isArchived note = false ∧ Note.isDeleted note = false
    ∧ Note.deletedAt note = None
    ∧ Note.isPublic note = Some true ∧ Note.likes note = [].
Proof.
  unfold createNote.
  destruct (processImages uploadBase64 now (Req.images body)) as [out|];
    [|intros [= <- <-]; done].
  match goal with
  | |- context [Note_saveNew newId ?n db] => set (note := n)
  end.
  destruct (Note_saveNew newId note db) as [db1|] eqn:Hsave;
    [|intros [= <- <-]; done].
  apply Note_saveNew_Some in Hsave as (Hvalid & Hfresh & ->).
  intros [= <- <-] _. exists out, note. done.
Qed.

Lemma createNote_succeeds userId body now newId db out :
  processImages uploadBase64 now (Req.images body) = Some out →
  forallb Image.valid out = true →
  notes db !! newId = None →
  status (createNote uploadBase64 userId body now newId db).2 = 201%nat.
Proof.
  intros Hout Hvalid Hfresh. unfold createNote. rewrite Hout.
  match goal with
  | |- context [Note_saveNew newId ?n db] => set (note := n)
  end.
  assert (Note.valid note = true) as Hv.
  { unfold Note.valid. subst note. simpl. rewrite Hvalid, andb_true_r.
    apply bool_decide_eq_true. unfold orElse.
    destruct (Req.title body) as [t|]; [|done].
    case_bool_decide; done. }
  unfold Note_saveNew. rewrite Hv. rewrite bool_decide_eq_true_2 by done. done.
Qed.

Lemma updateNote_updated userId path body now db db' res :
  updateNote uploadBase64 deleteFile userId path body now db = (db', res) →
  status res = 200%nat →
  ∃ out id existingNote note,
    processImages uploadBase64 now (Req.images body) = Some out
    ∧ denotes path id
    ∧ notes db !! id = Some existingNote ∧ Note.userId existingNote = userId
    ∧ res = ok (JNote (id, note))
    ∧ notes db' = <[id := note]> (notes db) ∧ users db' = users db
    ∧ Note.images note = out.
Proof.
  unfold updateNote.
  destruct (Note_findOwn path userId db) as [| |id existingNote] eqn:Hf;
    [intros [= <- <-]; done..|].
  apply Note_findOwn_Found in Hf as (Hd & Hn & Hu).
  destruct (processImages uploadBase64 now (Req.images body)) as [out|];
    [|intros [= <- <-]; done].
  destruct (deleteImages _ _); [|intros [= <- <-]; done].
  intros [= <- <-] _. eexists out, id, existingNote, _. done.
Qed.

Lemma deleteImages_all imgs :
  (∀ img publicId, img ∈ imgs → Image.publicId img = Some publicId →
                   deleteFile publicId = true) →
  deleteImages deleteFile imgs = true.
Proof.
  intros Hall. unfold deleteImages. apply forallb_forall. intros img Hin.
  destruct (Image.publicId img) as [p|] eqn:Hp; [|done].
  destruct (truthy (Some p)); [|done]. simpl.
  eapply Hall; [by apply list_elem_of_In|done].
Qed.

Lemma updateNote_succeeds userId path id body now db existingNote out :
  denotes path id →
  notes db !! id = Some existingNote → Note.userId existingNote = userId →
  processImages uploadBase64 now (Req.images body) = Some out →
  (∀ img publicId, img ∈ Note.images existingNote → Image.publicId img = Some publicId →
                   deleteFile publicId = true) →
  status (updateNote uploadBase64 deleteFile userId path body now db).2 = 200%nat.
Proof.
  intros Hd Hn Hu Hout Hdel. unfold updateNote.
  rewrite (proj2 (Note_findOwn_Found path userId id db existingNote)) by done.
  rewrite Hout. rewrite deleteImages_all; [done|].
  intros img p Hin. apply Hdel. apply list_elem_of_filter in Hin. tauto.
Qed.

End CreateUpdate.

Section Images.

Variable uploadBase64 : string → option Uploaded.t.
Variable deleteFile : string → bool.

(** C6. Images are uploaded conditionally.  In [POST /] and [PUT /:id]
    the stored [images] list corresponds, position by position, to the
    request's: an image whose [url] begins with "data:" is replaced by an
    uploaded copy whose [url] and [publicId] are the upload service's and
    whose [id] is the given one or, when none is given, one generated from
    the clock; any other image is stored exactly as given.  The loop
    finishes whenever every image has a [url] and the uploads it needs
    succeed, and then [POST /] answers 201 (for schema-valid images and a
    fresh [_id]) and [PUT /:id] answers 200 (for a note of the requester
    whose dropped images can be deleted from storage).  An image without
    [url] stops the loop: no note is created or updated. *)
Theorem images_uploaded_conditionally (now : Z) :
  (∀ images out,
     processImages uploadBase64 now images = Some out →
     Forall2 (storedAs uploadBase64 now) (default [] images) out)
  ∧ (∀ images,
       (∀ img, img ∈ default [] images →
               ∃ url, Image.url img = Some url
                      ∧ (startsWith url "data:" = true → is_Some (uploadBase64 url))) →
       is_Some (processImages uploadBase64 now images))
  ∧ (∀ userId body newId db db' res,
       createNote uploadBase64 userId body now newId db = (db', res) →
       status res = 201%nat →
       ∃ note, json res = JNote (newId, note) ∧ notes db' !! newId = Some note
               ∧ Forall2 (storedAs uploadBase64 now)
                         (default [] (Req.images body)) (Note.images note))
  ∧ (∀ userId body newId db out,
       processImages uploadBase64 now (Req.images body) = Some out →
       forallb Image.valid out = true →
       notes db !! newId = None →
       status (createNote uploadBase64 userId body now newId db).2 = 201%nat)
  ∧ (∀ userId path body db db' res,
       updateNote uploadBase64 deleteFile userId path body now db = (db', res) →
       status res = 200%nat →
       ∃ id note, denotes path id
                  ∧ json res = JNote (id, note) ∧ notes db' !! id = Some note
                  ∧ Forall2 (storedAs uploadBase64 now)
                            (default [] (Req.images body)) (Note.images note))
  ∧ (∀ userId path id body db existingNote out,
       denotes path id →
       notes db !! id = Some existingNote → Note.userId existingNote = userId →
       processImages uploadBase64 now (Req.images body) = Some out →
       (∀ img publicId, img ∈ Note.images existingNote →
                        Image.publicId img = Some publicId →
                        deleteFile publicId = true) →
       status (updateNote uploadBase64 deleteFile userId path body now db).2 = 200%nat)
  ∧ (∀ userId path body newId db img,
       img ∈ default [] (Req.images body) → Image.url img = None →
       (createNote uploadBase64 userId body now newId db).1 = db
       ∧ status (createNote uploadBase64 userId body now newId db).2 ≠ 201%nat
       ∧ (updateNote uploadBase64 deleteFile userId path body now db).1 = db
       ∧ status (updateNote uploadBase64 deleteFile userId path body now db).2 ≠ 200%nat).
Proof.
  assert (Hloop : ∀ images out,
            processImages uploadBase64 now images = Some out →
            Forall2 (storedAs uploadBase64 now) (default [] images) out).
  { intros [imgs|] out; simpl.
    - apply uploadImages_stored.
    - intros [= <-]. constructor. }
  split_and!; [exact Hloop|..].
  - intros [imgs|] Hup; simpl; [|by eexists]. by apply uploadImages_total.
  - intros userId body newId db db' res Hrun Hst.
    destruct (createNote_created _ _ _ _ _ _ _ _ Hrun Hst)
      as (out & note & Hout & -> & _ & Hdb' & _ & Himgs & _).
    exists note. rewrite Hdb', lookup_insert_eq, Himgs. auto.
  - intros. by eapply createNote_succeeds.
  - intros userId path body db db' res Hrun Hst.
    destruct (updateNote_updated _ _ _ _ _ _ _ _ _ Hrun Hst)
      as (out & id & existingNote & note & Hout & Hd & _ & _ & -> & Hdb' & _ & Himgs).
    exists id, note. rewrite Hdb', lookup_insert_eq, Himgs. auto.
  - intros userId path id body db existingNote out Hd Hn Hu Hout Hdel.
    exact (updateNote_succeeds uploadBase64 deleteFile userId path id body now db
             existingNote out Hd Hn Hu Hout Hdel).
  - intros userId path body newId db img Hin Hurl.
    assert (processImages uploadBase64 now (Req.images body) = None) as Hnone.
    { destruct (processImages uploadBase64 now (Req.images body)) as [out|] eqn:Hout;
        [|done].
      apply Hloop in Hout. apply list_elem_of_lookup_1 in Hin as [i Hi].
      destruct (Forall2_lookup_l _ _ _ _ _ Hout Hi) as (o & _ & Hst).
      unfold storedAs in Hst. by rewrite Hurl in Hst. }
    unfold createNote, updateNote. rewrite Hnone.
    split_and!; [done|done|..]; by destruct (Note_findOwn path userId db).
Qed.

End Images.

Section Duplicate.

(** A 201 answer of [POST /:id/duplicate] determines the stored copy. *)
Lemma duplicateNote_created userId path now newId db db' res :
  duplicateNote userId path now newId db = (db', res) →
  status res = 201%nat →
  ∃ noteId originalNote note,
    denotes path noteId
    ∧ notes db !! noteId = Some originalNote
    ∧ res = created (JNote (newId, note))
    ∧ notes db !! newId = None
    ∧ notes db' = <[newId := note]> (notes db) ∧ users db' = users db
    ∧ Note.title note = Note.title originalNote ++ " (Copy)"
    ∧ Note.content note = Note.content originalNote
    ∧ Note.color note = Note.color originalNote
    ∧ Note.images note = Note.images originalNote
    ∧ Note.date note = now
    ∧ Note.userId note = userId
    ∧ Note.isPinned note = false ∧ Note.isArchived note = false
    ∧ Note.isDeleted note = false
    ∧ Note.isPublic note = Some true ∧ Note.likes note = []
    ∧ (Note.readIsPublic originalNote = true ∨ Note.userId originalNote = userId
       ∨ ∃ currentUser, users db !! userId = Some currentUser
                        ∧ Note.userId originalNote ∈ User.friends currentUser).
Proof.
  unfold duplicateNote, Note_findById.
  destruct (findById (notes db) path) as [| |noteId originalNote] eqn:Hf;
    [intros [= <- <-]; done..|].
  apply findById_Found in Hf as [Hd Hn].
  match goal with
  | |- context [Note_saveNew newId ?n db] => set (note := n)
  end.
  assert (Hdup : ∀ r,
            match Note_saveNew newId note db with
            | Some db1 => (db1, created (JNote (newId, note)))
            | None => (db, fail 500 "Failed to duplicate note")
            end = r → r = (db', res) → status res = 201%nat →
            res = created (JNote (newId, note))
            ∧ notes db !! newId = None
            ∧ notes db' = <[newId := note]> (notes db) ∧ users db' = users db).
  { intros r <-.
    destruct (Note_saveNew newId note db) as [db1|] eqn:Hsave;
      [|intros [= <- <-]; done].
    apply Note_saveNew_Some in Hsave as (Hvalid & Hfresh & ->).
    by intros [= <- <-] _. }
  intros Hrun Hst.
  assert ((res = created (JNote (newId, note))
           ∧ notes db !! newId = None
           ∧ notes db' = <[newId := note]> (notes db) ∧ users db' = users db)
          ∧ (Note.readIsPublic originalNote = true ∨ Note.userId originalNote = userId
             ∨ ∃ currentUser, users db !! userId = Some currentUser
                              ∧ Note.userId originalNote ∈ User.friends currentUser))
    as [(-> & Hfresh & Hdb' & Hus) Hmay].
  { revert Hrun.
    destruct (Note.readIsPublic originalNote) eqn:Hpub; simpl.
    { intros Hr. split; [by apply (Hdup _ eq_refl)|by left]. }
    case_bool_decide as Hown; simpl.
    2:{ intros Hr. split; [by apply (Hdup _ eq_refl)|]. right. left.
        by destruct (decide (Note.userId originalNote = userId)). }
    destruct (users db !! Note.userId originalNote) as [noteOwner|];
      [|intros [= <- <-]; done].
    destruct (users db !! userId) as [currentUser|] eqn:Hcu; [|intros [= <- <-]; done].
    destruct (some_eq _ _) eqn:Hfr; [|intros [= <- <-]; done].
    intros Hr. split; [by apply (Hdup _ eq_refl)|]. right. right.
    exists currentUser. split; [done|]. by apply some_eq_elem. }
  exists noteId, originalNote, note. by split_and!.
Qed.

Lemma duplicateNote_succeeds userId path noteId now newId db originalNote :
  denotes path noteId →
  notes db !! noteId = Some originalNote →
  (Note.readIsPublic originalNote = true ∨ Note.userId originalNote = userId) →
  forallb Image.valid (Note.images originalNote) = true →
  notes db !! newId = None →
  status (duplicateNote userId path now newId db).2 = 201%nat.
Proof.
  intros Hd Hn Hmay Hvalid Hfresh. unfold duplicateNote, Note_findById.
  rewrite (findById_denotes _ _ _ Hd), Hn.
  assert ((negb (Note.readIsPublic originalNote)
           && bool_decide (Note.userId originalNote ≠ userId))%bool = false) as ->.
  { destruct Hmay as [-> | Hu]; [done|].
    rewrite (bool_decide_eq_false_2 (Note.userId originalNote ≠ userId)) by tauto.
    apply andb_false_r. }
  match goal with
  | |- context [Note_saveNew newId ?n db] => set (note := n)
  end.
  assert (Note.valid note = true) as Hv.
  { unfold Note.valid. subst note. simpl. rewrite Hvalid, andb_true_r.
    apply bool_decide_eq_true. by destruct (Note.title originalNote). }
  unfold Note_saveNew. rewrite Hv. rewrite bool_decide_eq_true_2 by done. done.
Qed.

End Duplicate.

Section Defaults.

Variable uploadBase64 : string → option Uploaded.t.

(** C8. A note created by [POST /] starts with [isArchived = false],
    [isDeleted = false], no likes and — the handler leaving the path to the
    schema default — [isPublic = true], so it is public from the start; a
    note created by [POST /:id/duplicate] has [isPublic = true],
    [isPinned = false], no likes and the requester as owner.  Both
    handlers do create the note (status 201) under the stated
    conditions. *)
Theorem new_notes_start_public (userId : string) (now : Z) (newId : string) (db : Db) :
  (∀ body db' res,
     createNote uploadBase64 userId body now newId db = (db', res) →
     status res = 201%nat →
     ∃ note, json res = JNote (newId, note) ∧ notes db' !! newId = Some note
             ∧ Note.isArchived note = false ∧ Note.isDeleted note = false
             ∧ Note.likes note = [] ∧ Note.isPublic note = Some true
             ∧ Note.userId note = userId)
  ∧ (∀ body out,
       processImages uploadBase64 now (Req.images body) = Some out →
       forallb Image.valid out = true →
       notes db !! newId = None →
       status (createNote uploadBase64 userId body now newId db).2 = 201%nat)
  ∧ (∀ path db' res,
       duplicateNote userId path now newId db = (db', res) →
       status res = 201%nat →
       ∃ note, json res = JNote (newId, note) ∧ notes db' !! newId = Some note
               ∧ Note.isPublic note = Some true ∧ Note.isPinned note = false
               ∧ Note.likes note = [] ∧ Note.userId note = userId)
  ∧ (∀ path noteId originalNote,
       denotes path noteId →
       notes db !! noteId = Some originalNote →
       (Note.readIsPublic originalNote = true ∨ Note.userId originalNote = userId) →
       forallb Image.valid (Note.images originalNote) = true →
       notes db !! newId = None →
       status (duplicateNote userId path now newId db).2 = 201%nat).
Proof.
  split; [|split; [|split]].
  - intros body db' res Hrun Hst.
    destruct (createNote_created _ _ _ _ _ _ _ _ Hrun Hst)
      as (out & note & _ & -> & _ & Hdb' & _ & _ & Hu & Ha & Hd & _ & Hp & Hl).
    exists note. rewrite Hdb', lookup_insert_eq. auto 10.
  - intros. by eapply createNote_succeeds.
  - intros path db' res Hrun Hst.
    destruct (duplicateNote_created _ _ _ _ _ _ _ Hrun Hst)
      as (noteId & orig & note & _ & _ & -> & _ & Hdb' & _ & _ & _ & _ & _ & _ & Hu
          & Hpin & _ & _ & Hp & Hl & _).
    exists note. rewrite Hdb', lookup_insert_eq. auto 10.
  - intros. by eapply duplicateNote_succeeds.
Qed.

End Defaults.
(** ** Authentication in front of the routes *)

Section Authentication.

Variable uploadBase64 : string → option Uploaded.t.
Variable uploadFile : string → option Uploaded.t.
Variable deleteFile : string → bool.
Variable authMiddleware : Req.t → AuthOutcome.

(** Routes alone, for a request whose user is known: the first match
    answers. *)
Lemma runLayers_routes (table : list Route) (userId : string) (req : Req.t) (now : Z)
    (newId : string) (db : Db) :
  runLayers (Handle <$> table) (Some userId) req now newId db
  = match firstMatch table (Req.verb req) (Req.path req) with
    | Some h => (Answered (h userId req now newId db).1 (h userId req now newId db).2,
                 [HandlerEntered])
    | None => (FellThrough, [])
    end.
Proof.
  induction table as [|r table IH]; simpl; [done|].
  by destruct (r (Req.verb req) (Req.path req)).
Qed.

(** C7. Every notes route sits behind [router.use(authMiddleware)],
    registered first.  Serving a request begins with the auth check,
    whatever the request.  A request the check rejects is answered by the
    middleware alone: no route handler is entered, so no document is read
    or written, the database is returned unchanged and the answer is the
    middleware's, not note data.  A route handler is entered only after
    the check has let the request through, and it runs for the user id the
    check established. *)
Theorem rejected_requests_never_reach_the_database (req : Req.t) (now : Z) (newId : string)
    (db : Db) :
  let served := serve uploadBase64 uploadFile deleteFile authMiddleware req now newId db in
  head served.2 = Some AuthCheck
  ∧ (∀ res, authMiddleware req = Rejected res →
            served = (Answered db res, [AuthCheck]))
  ∧ (HandlerEntered ∈ served.2 →
     ∃ userId before, authMiddleware req = Authenticated userId
                      ∧ served.2 = (before ++ [HandlerEntered])%list
                      ∧ AuthCheck ∈ before)
  ∧ (∀ userId, authMiddleware req = Authenticated userId →
       served = match route uploadBase64 uploadFile deleteFile userId req now newId db with
                | Some answer => (Answered answer.1 answer.2, [AuthCheck; HandlerEntered])
                | None => (FellThrough, [AuthCheck])
                end)
  ∧ served.1 ≠ NoUserId.
Proof.
  unfold serve, notesRouter. cbn [runLayers].
  destruct (authMiddleware req) as [userId|res] eqn:Hauth.
  - rewrite runLayers_routes. unfold route.
    destruct (firstMatch _ _ _) as [h|]; simpl.
    + split; [done|]. split; [done|]. split.
      { intros _. exists userId, [AuthCheck]. split_and!; [done|done|].
        by apply list_elem_of_singleton. }
      split; [|done]. by intros u [= <-].
    + split; [done|]. split; [done|]. split.
      { intros Hin. apply list_elem_of_singleton in Hin. discriminate. }
      split; [|done]. by intros u [= <-].
  - simpl. split; [done|]. split; [by intros r [= <-]|]. split.
    { intros Hin. apply list_elem_of_singleton in Hin. discriminate. }
    split; [|done]. by intros u [=].
Qed.

(** What the first place of [router.use] buys: were a route registered in
    front of the middleware, a request it matches would enter its handler
    with no check made. *)
Lemma route_before_middleware_is_exposed (r : Route) (h : Handler) (rest : list Layer)
    (req : Req.t) (now : Z) (newId : string) (db : Db) :
  r (Req.verb req) (Req.path req) = Some h →
  runLayers (Handle r :: Use authMiddleware :: rest) None req now newId db
  = (NoUserId, [HandlerEntered]).
Proof. intros Hr. cbn [runLayers]. by rewrite Hr. Qed.

End Authentication.
(** ** Friendship *)

Section SavingUsers.

Lemma User_put_lookup id u db : users (User_put id u db) !! id = Some u.
Proof. apply lookup_insert_eq. Qed.

Lemma User_put_lookup_ne id id' u db :
  id ≠ id' → users (User_put id u db) !! id' = users db !! id'.
Proof. intros. by apply lookup_insert_ne. Qed.

Lemma setList_getList p u : setList p (getList p u) u = u.
Proof. by destruct p, u. Qed.

Lemma getList_setList p l u : getList p (setList p l u) = l.
Proof. by destruct p. Qed.

Lemma getList_setList_ne p q l u : p ≠ q → getList p (setList q l u) = getList p u.
Proof. by destruct p, q. Qed.

Lemma getList_applyChange_ne p u c : p ≠ pathOf c → getList p (applyChange u c) = getList p u.
Proof. destruct c; simpl; intros; by apply getList_setList_ne. Qed.

Lemma getList_applyChanges_ne p cs u :
  (∀ c, c ∈ cs → p ≠ pathOf c) → getList p (applyChanges cs u) = getList p u.
Proof.
  unfold applyChanges. revert u. induction cs as [|c cs IH]; intros u Hp; [done|].
  simpl. rewrite IH by (intros; apply Hp; by right).
  apply getList_applyChange_ne, Hp. by left.
Qed.

(** Validation does not look at the relationship lists. *)
Lemma valid_setList p l u : User.valid (setList p l u) = User.valid u.
Proof. by destruct p. Qed.

Lemma valid_applyChanges cs u : User.valid (applyChanges cs u) = User.valid u.
Proof.
  unfold applyChanges. revert u. induction cs as [|c cs IH]; intros u; [done|].
  simpl. rewrite IH. destruct c; apply valid_setList.
Qed.

(** On the document the changes were made to, sending the changes that
    are sent amounts to taking the document as it is in memory. *)
Lemma applyChanges_sent loaded cs u :
  NoDup (pathOf <$> cs) →
  (∀ c, c ∈ cs → getList (pathOf c) u = getList (pathOf c) loaded) →
  applyChanges (sentChanges loaded cs) u = applyChanges cs u.
Proof.
  unfold applyChanges, sentChanges. revert u.
  induction cs as [|c cs IH]; intros u Hnd Hsame; [done|].
  apply NoDup_cons in Hnd as [Hc Hnd].
  assert (∀ u', (∀ p, p ≠ pathOf c → getList p u' = getList p u) →
                ∀ c', c' ∈ cs → getList (pathOf c') u' = getList (pathOf c') loaded)
    as Hrest.
  { intros u' Hu' c' Hin. rewrite Hu'.
    - apply Hsame. by right.
    - intros Heq. apply Hc. rewrite <- Heq. by apply list_elem_of_fmap_2. }
  simpl. destruct (isSent loaded c) eqn:Hs; simpl.
  - apply IH; [done|]. apply Hrest. intros p Hp. by apply getList_applyChange_ne.
  - destruct c as [p x|p v]; [done|]. simpl in Hs.
    apply bool_decide_eq_false in Hs. apply dec_stable in Hs. subst v.
    pose proof (Hsame (Assign p (getList p loaded)) ltac:(by left)) as E. simpl in E.
    simpl. rewrite <- E, setList_getList. apply IH; [done|]. by apply Hrest.
Qed.

Lemma applyChanges_sent_loaded loaded cs :
  NoDup (pathOf <$> cs) →
  applyChanges (sentChanges loaded cs) loaded = applyChanges cs loaded.
Proof. intros. by apply applyChanges_sent. Qed.

(** A [save] of a stored document that is what was loaded. *)
Lemma User_save_stored id loaded cs db :
  users db !! id = Some loaded →
  NoDup (pathOf <$> cs) →
  User_save false id loaded cs db
  = if User.valid loaded then Some (User_put id (applyChanges cs loaded) db) else None.
Proof.
  intros Hl Hnd. unfold User_save. rewrite valid_applyChanges.
  destruct (User.valid loaded); [|done]. simpl.
  rewrite (alter_alt_Some _ _ _ _ Hl), applyChanges_sent_loaded by done. done.
Qed.

(** Two saves of two different stored users. *)
Lemma saveBoth_distinct a la ca b lb cb db :
  a ≠ b →
  users db !! a = Some la → users db !! b = Some lb →
  NoDup (pathOf <$> ca) → NoDup (pathOf <$> cb) →
  saveBoth (a, la, ca) (b, lb, cb) db
  = ((if User.valid lb then User_put b (applyChanges cb lb) else id)
       ((if User.valid la then User_put a (applyChanges ca la) else id) db),
     (User.valid la && User.valid lb)%bool).
Proof.
  intros Hab Ha Hb Hnda Hndb. unfold saveBoth. cbn [fst snd].
  rewrite (User_save_stored _ _ _ _ Ha Hnda).
  rewrite (bool_decide_eq_false_2 (a = b)) by done. cbn [andb].
  destruct (User.valid la); simpl.
  - rewrite (User_save_stored b lb cb (User_put a (applyChanges ca la) db));
      [|by rewrite User_put_lookup_ne|done].
    by destruct (User.valid lb).
  - rewrite (User_save_stored _ _ _ _ Hb Hndb). by destruct (User.valid lb).
Qed.

(** Whatever happens, two saves touch the notes not at all and the users
    only in the two documents; they add and remove no document. *)
Lemma saveBoth_frame a b db :
  notes (saveBoth a b db).1 = notes db
  ∧ (∀ w, w ≠ a.1.1 → w ≠ b.1.1 → users (saveBoth a b db).1 !! w = users db !! w)
  ∧ (∀ w, is_Some (users (saveBoth a b db).1 !! w) ↔ is_Some (users db !! w)).
Proof.
  destruct a as [[a la] ca], b as [[b lb] cb]. unfold saveBoth. cbn [fst snd].
  assert (∀ stale id l cs d,
            notes (default d (User_save stale id l cs d)) = notes d
            ∧ (∀ w, w ≠ id → users (default d (User_save stale id l cs d)) !! w
                             = users d !! w)
            ∧ (∀ w, is_Some (users (default d (User_save stale id l cs d)) !! w)
                    ↔ is_Some (users d !! w))) as Hone.
  { intros stale id l cs d. unfold User_save.
    destruct (negb _); [done|]. destruct (_ && _)%bool; [done|]. simpl.
    split; [done|]. split.
    - intros w Hw. by rewrite lookup_alter_ne.
    - intros w. destruct (decide (w = id)) as [->|Hw].
      + rewrite lookup_alter_eq. destruct (users d !! id); simpl; split; intros [? ?]; done.
      + by rewrite lookup_alter_ne. }
  set (first := User_save false a la ca db).
  destruct (Hone false a la ca db) as (Hn1 & Hu1 & Hd1). fold first in Hn1, Hu1, Hd1.
  set (db1 := default db first) in *.
  match goal with
  | |- context [User_save ?st b lb cb db1] => destruct (Hone st b lb cb db1) as (Hn2 & Hu2 & Hd2)
  end.
  split; [congruence|]. split.
  - intros w Hwa Hwb. rewrite Hu2, Hu1 by done. done.
  - intros w. by rewrite Hd2, Hd1.
Qed.

(** Changes that leave a list alone leave it alone in the database. *)
Lemma saveBoth_keeps_list p a la ca b lb cb db w :
  (∀ c, c ∈ ca → p ≠ pathOf c) → (∀ c, c ∈ cb → p ≠ pathOf c) →
  getList p <$> users (saveBoth (a, la, ca) (b, lb, cb) db).1 !! w
  = getList p <$> users db !! w.
Proof.
  intros Hca Hcb. unfold saveBoth. cbn [fst snd].
  assert (∀ stale id l cs d,
            (∀ c, c ∈ cs → p ≠ pathOf c) →
            getList p <$> users (default d (User_save stale id l cs d)) !! w
            = getList p <$> users d !! w) as Hone.
  { intros stale id l cs d Hcs. unfold User_save.
    destruct (negb _); [done|]. destruct (_ && _)%bool; [done|]. simpl.
    destruct (decide (w = id)) as [->|Hw]; [|by rewrite lookup_alter_ne].
    rewrite lookup_alter_eq. destruct (users d !! id) as [u|]; [|done]. simpl.
    f_equal. apply getList_applyChanges_ne. intros c Hc. apply Hcs.
    unfold sentChanges in Hc. apply list_elem_of_In, filter_In in Hc as [Hc _].
    by apply list_elem_of_In. }
  rewrite Hone by done. by apply Hone.
Qed.

(** In any case the two documents end up as they were stored, with
    some of the handler's changes applied. *)
Lemma saveBoth_users a la ca b lb cb db :
  ∃ s1 s2,
    (∀ c, c ∈ s1 → c ∈ ca) ∧ (∀ c, c ∈ s2 → c ∈ cb)
    ∧ users (saveBoth (a, la, ca) (b, lb, cb) db).1
      = alter (applyChanges s2) b (alter (applyChanges s1) a (users db)).
Proof.
  assert (∀ stale id l cs d,
            ∃ s, (∀ c, c ∈ s → c ∈ cs)
                 ∧ users (default d (User_save stale id l cs d))
                   = alter (applyChanges s) id (users d)) as Hone.
  { intros stale id l cs d. unfold User_save.
    assert (users d = alter (applyChanges []) id (users d)) as Hid.
    { symmetry. apply alter_id. done. }
    assert (∀ c, c ∈ sentChanges l cs → c ∈ cs) as Hsub.
    { intros c Hc. unfold sentChanges in Hc.
      apply list_elem_of_In, filter_In in Hc as [Hc _]. by apply list_elem_of_In. }
    destruct (negb _); [exists []; split; [by intros ? ?%elem_of_nil|done]|].
    destruct (_ && _)%bool; [exists []; split; [by intros ? ?%elem_of_nil|done]|].
    by exists (sentChanges l cs). }
  unfold saveBoth. cbn [fst snd].
  destruct (Hone false a la ca db) as (s1 & Hs1 & E1).
  set (db1 := default db (User_save false a la ca db)) in *.
  match goal with
  | |- context [User_save ?st b lb cb db1] =>
      destruct (Hone st b lb cb db1) as (s2 & Hs2 & E2)
  end.
  exists s1, s2. split; [done|]. split; [done|]. by rewrite E2, E1.
Qed.

End SavingUsers.

Section Friendship.

#[local] Ltac solve_paths :=
  simpl;
  repeat (apply NoDup_cons; split;
          [rewrite ?not_elem_of_cons; repeat split; try discriminate; apply not_elem_of_nil|]);
  apply NoDup_nil; done.

Lemma User_save_valid stale id loaded cs db :
  isSome (User_save stale id loaded cs db) = true → User.valid loaded = true.
Proof.
  unfold User_save. rewrite valid_applyChanges. by destruct (User.valid loaded).
Qed.

Lemma saveBoth_ok_valid a b db :
  (saveBoth a b db).2 = true → User.valid a.1.2 = true ∧ User.valid b.1.2 = true.
Proof.
  unfold saveBoth. cbn [snd]. intros [H1 H2]%andb_prop.
  split; by eapply User_save_valid.
Qed.

Lemma saveBoth_invalid a b db :
  User.valid a.1.2 = false ∨ User.valid b.1.2 = false → (saveBoth a b db).2 = false.
Proof.
  intros Hv. destruct ((saveBoth a b db).2) eqn:E; [|done].
  apply saveBoth_ok_valid in E as [? ?]. destruct Hv; congruence.
Qed.

(** Symmetry is a matter of the friends lists alone. *)
Lemma Symmetric_same_friends db db' :
  (∀ w, User.friends <$> users db' !! w = User.friends <$> users db !! w) →
  Symmetric db → Symmetric db'.
Proof.
  intros Hsame Hsym u v du dv Hu Hv.
  pose proof (Hsame u) as Eu. pose proof (Hsame v) as Ev.
  rewrite Hu in Eu. rewrite Hv in Ev. simpl in Eu, Ev.
  destruct (users db !! u) as [du0|] eqn:Hu0; [|done].
  destruct (users db !! v) as [dv0|] eqn:Hv0; [|done].
  simpl in Eu, Ev. injection Eu as ->. injection Ev as ->.
  by apply (Hsym u v).
Qed.

(** The dual write: two stored users are rewritten so that each one's
    friends list changes at most in the other's id, and consistently. *)
Lemma Symmetric_dual_write db a b ua ub ua' ub' :
  Symmetric db →
  users db !! a = Some ua → users db !! b = Some ub →
  (∀ w, w ≠ b → (w ∈ User.friends ua' ↔ w ∈ User.friends ua)) →
  (∀ w, w ≠ a → (w ∈ User.friends ub' ↔ w ∈ User.friends ub)) →
  (b ∈ User.friends ua' ↔ a ∈ User.friends ub') →
  Symmetric (User_put b ub' (User_put a ua' db)).
Proof.
  intros Hsym Ha Hb Hfa Hfb Hab u v du dv Hu Hv.
  destruct (decide (u = v)) as [->|Huv]; [by simplify_eq|].
  destruct (decide (u = b)) as [->|Hub].
  - rewrite User_put_lookup in Hu. injection Hu as <-.
    rewrite User_put_lookup_ne in Hv by done.
    destruct (decide (v = a)) as [->|Hva].
    + rewrite User_put_lookup in Hv. injection Hv as <-. symmetry. apply Hab.
    + rewrite User_put_lookup_ne in Hv by done.
      rewrite (Hfb v Hva). apply (Hsym b v ub dv Hb Hv).
  - rewrite User_put_lookup_ne in Hu by done.
    destruct (decide (v = b)) as [->|Hvb].
    + rewrite User_put_lookup in Hv. injection Hv as <-.
      destruct (decide (u = a)) as [->|Hua].
      * rewrite User_put_lookup in Hu. injection Hu as <-. apply Hab.
      * rewrite User_put_lookup_ne in Hu by done.
        rewrite (Hfb u Hua). apply (Hsym u b du ub Hu Hb).
    + rewrite User_put_lookup_ne in Hv by done.
      destruct (decide (u = a)) as [->|Hua].
      * rewrite User_put_lookup in Hu. injection Hu as <-.
        rewrite User_put_lookup_ne in Hv by done.
        rewrite (Hfa v Hvb). apply (Hsym a v ua dv Ha Hv).
      * rewrite User_put_lookup_ne in Hu by done.
        destruct (decide (v = a)) as [->|Hva].
        -- rewrite User_put_lookup in Hv. injection Hv as <-.
           rewrite (Hfa u Hub). apply (Hsym u a du ua Hu Ha).
        -- rewrite User_put_lookup_ne in Hv by done.
           apply (Hsym u v du dv Hu Hv).
Qed.

Lemma snoc_elem_ne (w x : string) (l : list string) :
  w ≠ x → (w ∈ (l ++ [x])%list ↔ w ∈ l).
Proof. intros. rewrite elem_of_app, list_elem_of_singleton. tauto. Qed.

(** Only one document is rewritten, and its friends list changes at most
    in its own id. *)
Lemma Symmetric_self_update db db' a f :
  Symmetric db →
  users db' = alter f a (users db) →
  (∀ u w, users db !! a = Some u → w ≠ a →
          (w ∈ User.friends (f u) ↔ w ∈ User.friends u)) →
  Symmetric db'.
Proof.
  intros Hsym Hdb' Hf u v du dv. rewrite Hdb'.
  destruct (decide (u = v)) as [->|Huv]; [intros; by simplify_eq|].
  destruct (decide (u = a)) as [->|Hua].
  - rewrite lookup_alter_eq, lookup_alter_ne by done.
    destruct (users db !! a) as [ua|] eqn:Ha; [|done]. simpl.
    intros [= <-] Hv. rewrite (Hf ua v eq_refl) by done. by apply (Hsym a v).
  - rewrite lookup_alter_ne by done.
    destruct (decide (v = a)) as [->|Hva].
    + rewrite lookup_alter_eq.
      destruct (users db !! a) as [ua|] eqn:Ha; [|done]. simpl.
      intros Hu [= <-]. rewrite (Hf ua u eq_refl) by done. by apply (Hsym u a).
    + rewrite lookup_alter_ne by done. apply Hsym.
Qed.

(** Changes that push [x] onto the friends list, or assign it a list that
    differs from the original in [x] at most, leave the membership of
    everybody else as it was. *)
Lemma friends_applyChanges (x : string) (l0 : list string) cs u :
  (∀ w, w ≠ x → (w ∈ User.friends u ↔ w ∈ l0)) →
  (∀ c, c ∈ cs →
        pathOf c ≠ Friends ∨ c = Push Friends x
        ∨ ∃ l, c = Assign Friends l ∧ ∀ w, w ≠ x → (w ∈ l ↔ w ∈ l0)) →
  ∀ w, w ≠ x → (w ∈ User.friends (applyChanges cs u) ↔ w ∈ l0).
Proof.
  unfold applyChanges. revert u. induction cs as [|c cs IH]; intros u Hu Hcs; [done|].
  simpl. apply IH; [|intros; apply Hcs; by right].
  destruct (Hcs c ltac:(by left)) as [Hp|[->|(l & -> & Hl)]].
  - intros w Hw. rewrite <- (Hu w Hw).
    change (User.friends (applyChange u c)) with (getList Friends (applyChange u c)).
    by rewrite getList_applyChange_ne.
  - intros w Hw. simpl. rewrite snoc_elem_ne by done. by apply Hu.
  - done.
Qed.

Lemma filter_ne_elem_ne (w x : string) (l : list string) :
  w ≠ x → (w ∈ filter_ne x l ↔ w ∈ l).
Proof. intros. rewrite filter_ne_elem. tauto. Qed.

(** The four handlers between two different stored users that pass
    validation, the one in the path addressed by [path]. *)

Lemma sendFriendRequest_served userId path targetId db cu tu :
  denotes path targetId → path ≠ userId → userId ≠ targetId →
  users db !! userId = Some cu → users db !! targetId = Some tu →
  User.valid cu = true → User.valid tu = true →
  (path ∉ User.friends cu) → (path ∉ User.sentFriendRequests cu) →
  sendFriendRequest userId path db
  = (User_put targetId
       (User.set_friendRequests (User.friendRequests tu ++ [userId])%list tu)
       (User_put userId
          (User.set_sentFriendRequests (User.sentFriendRequests cu ++ [targetId])%list cu)
          db),
     ok (JMessage "Friend request sent")).
Proof.
  intros Hd Hself Hne Hc Ht Hvc Hvt Hf Hs. unfold sendFriendRequest, User_findById.
  rewrite bool_decide_eq_false_2 by done.
  rewrite Hc, (findById_denotes _ _ _ Hd), Ht.
  rewrite (proj2 (some_eq_not_elem _ _) Hf), (proj2 (some_eq_not_elem _ _) Hs).
  rewrite saveBoth_distinct; try done; try solve_paths.
  by rewrite Hvc, Hvt.
Qed.

Lemma acceptFriendRequest_served userId path requesterId db cu ru :
  denotes path requesterId → userId ≠ requesterId →
  users db !! userId = Some cu → users db !! requesterId = Some ru →
  User.valid cu = true → User.valid ru = true →
  path ∈ User.friendRequests cu →
  acceptFriendRequest userId path db
  = (User_put requesterId
       (User.set_friends (User.friends ru ++ [userId])%list
          (User.set_sentFriendRequests
             (filter_ne userId (User.sentFriendRequests ru)) ru))
       (User_put userId
          (User.set_friends (User.friends cu ++ [requesterId])%list
             (User.set_friendRequests (filter_ne path (User.friendRequests cu)) cu))
          db),
     ok (JMessage "Friend request accepted")).
Proof.
  intros Hd Hne Hc Hr Hvc Hvr Hin. unfold acceptFriendRequest, User_findById.
  rewrite Hc, (findById_denotes _ _ _ Hd), Hr.
  rewrite (proj2 (some_eq_elem _ _) Hin). cbn [negb].
  rewrite saveBoth_distinct; try done; try solve_paths.
  by rewrite Hvc, Hvr.
Qed.

Lemma declineFriendRequest_served userId path requesterId db cu ru :
  denotes path requesterId → userId ≠ requesterId →
  users db !! userId = Some cu → users db !! requesterId = Some ru →
  User.valid cu = true → User.valid ru = true →
  declineFriendRequest userId path db
  = (User_put requesterId
       (User.set_sentFriendRequests (filter_ne userId (User.sentFriendRequests ru)) ru)
       (User_put userId
          (User.set_friendRequests (filter_ne path (User.friendRequests cu)) cu) db),
     ok (JMessage "Friend request declined")).
Proof.
  intros Hd Hne Hc Hr Hvc Hvr. unfold declineFriendRequest, User_findById.
  rewrite Hc, (findById_denotes _ _ _ Hd), Hr.
  rewrite saveBoth_distinct; try done; try solve_paths.
  by rewrite Hvc, Hvr.
Qed.

Lemma removeFriend_served userId path friendId db cu fu :
  denotes path friendId → userId ≠ friendId →
  users db !! userId = Some cu → users db !! friendId = Some fu →
  User.valid cu = true → User.valid fu = true →
  removeFriend userId path db
  = (User_put friendId (User.set_friends (filter_ne userId (User.friends fu)) fu)
       (User_put userId (User.set_friends (filter_ne path (User.friends cu)) cu) db),
     ok (JMessage "Friend removed")).
Proof.
  intros Hd Hne Hc Hf Hvc Hvf. unfold removeFriend, User_findById.
  rewrite Hc, (findById_denotes _ _ _ Hd), Hf.
  rewrite saveBoth_distinct; try done; try solve_paths.
  by rewrite Hvc, Hvf.
Qed.

Lemma sendFriendRequest_symmetric userId path db :
  Symmetric db → Symmetric (sendFriendRequest userId path db).1.
Proof.
  intros Hsym. unfold sendFriendRequest.
  case_bool_decide; [done|].
  destruct (users db !! userId) as [cu|], (User_findById path db) as [| |tid tu];
    try done.
  destruct (some_eq _ _); [done|]. destruct (some_eq _ _); [done|].
  match goal with
  | |- Symmetric (if ?b then _ else _).1 => assert (Symmetric (saveBoth
        (userId, cu, [Push SentFriendRequests tid])
        (tid, tu, [Push FriendRequests userId]) db).1); [|by destruct b]
  end.
  apply (Symmetric_same_friends db); [|done]. intros w.
  apply (saveBoth_keeps_list Friends); intros c Hc;
    apply list_elem_of_singleton in Hc as ->; done.
Qed.

Lemma declineFriendRequest_symmetric userId path db :
  Symmetric db → Symmetric (declineFriendRequest userId path db).1.
Proof.
  intros Hsym. unfold declineFriendRequest.
  destruct (users db !! userId) as [cu|], (User_findById path db) as [| |rid ru];
    try done.
  match goal with
  | |- Symmetric (if ?b then (?d, _) else _).1 => assert (Symmetric d); [|by destruct b]
  end.
  apply (Symmetric_same_friends db); [|done]. intros w.
  apply (saveBoth_keeps_list Friends); intros c Hc;
    apply list_elem_of_singleton in Hc as ->; done.
Qed.

Lemma acceptFriendRequest_symmetric userId path db :
  ValidUsers db → Symmetric db → Symmetric (acceptFriendRequest userId path db).1.
Proof.
  intros Hvalid Hsym.
  destruct (users db !! userId) as [cu|] eqn:Hc;
    [|unfold acceptFriendRequest; rewrite Hc; by destruct (User_findById path db)].
  destruct (User_findById path db) as [| |rid ru] eqn:Hf;
    [unfold acceptFriendRequest; by rewrite Hc, Hf..|].
  apply findById_Found in Hf as Hf'. destruct Hf' as [Hd Hr].
  destruct (some_eq path (User.friendRequests cu)) eqn:Hreq;
    [|unfold acceptFriendRequest; by rewrite Hc, Hf, Hreq].
  destruct (decide (userId = rid)) as [<-|Hne].
  - unfold acceptFriendRequest. rewrite Hc, Hf, Hreq. cbn [negb].
    match goal with
    | |- Symmetric (if ?b then (?d, _) else _).1 => assert (Symmetric d); [|by destruct b]
    end.
    match goal with
    | |- context [saveBoth (userId, ?l1, ?c1) (userId, ?l2, ?c2) db] =>
        destruct (saveBoth_users userId l1 c1 userId l2 c2 db) as (s1 & s2 & Hs1 & Hs2 & E)
    end.
    rewrite alter_alter_eq in E.
    apply (Symmetric_self_update db _ _ _ Hsym E).
    intros u w Hu Hw. simpl.
    rewrite (friends_applyChanges userId (User.friends u) s2); [done| |..|done].
    + apply (friends_applyChanges userId (User.friends u)); [done|].
      intros c Hin. apply Hs1 in Hin.
      rewrite !elem_of_cons in Hin. destruct Hin as [->|[->|?%elem_of_nil]]; try done.
      * by left.
      * right. by left.
    + intros c Hin. apply Hs2 in Hin.
      rewrite !elem_of_cons in Hin. destruct Hin as [->|[->|?%elem_of_nil]]; try done.
      * by left.
      * right. by left.
  - rewrite (acceptFriendRequest_served userId path rid db cu ru); try done.
    + cbn [fst]. eapply Symmetric_dual_write; eauto; simpl.
      * intros w Hw. by apply snoc_elem_ne.
      * intros w Hw. by apply snoc_elem_ne.
      * rewrite !elem_of_app, !list_elem_of_singleton. tauto.
    + by eapply Hvalid.
    + by eapply Hvalid.
    + by apply some_eq_elem.
Qed.

Lemma removeFriend_symmetric userId path db :
  ValidUsers db → denotes path path →
  Symmetric db → Symmetric (removeFriend userId path db).1.
Proof.
  intros Hvalid Hd Hsym. unfold removeFriend, User_findById.
  rewrite (findById_denotes _ _ _ Hd).
  destruct (users db !! userId) as [cu|] eqn:Hc; [|by destruct (users db !! path)].
  destruct (users db !! path) as [fu|] eqn:Hf; [|done].
  destruct (decide (userId = path)) as [<-|Hne].
  - match goal with
    | |- Symmetric (if ?b then (?d, _) else _).1 => assert (Symmetric d); [|by destruct b]
    end.
    match goal with
    | |- context [saveBoth (userId, ?l1, ?c1) (userId, ?l2, ?c2) db] =>
        destruct (saveBoth_users userId l1 c1 userId l2 c2 db) as (s1 & s2 & Hs1 & Hs2 & E)
    end.
    rewrite alter_alter_eq in E. simplify_eq.
    apply (Symmetric_self_update db _ _ _ Hsym E).
    intros u w Hu Hw. simpl. rewrite Hc in Hu. injection Hu as <-.
    rewrite (friends_applyChanges userId (User.friends cu) s2); [done| |..|done].
    + apply (friends_applyChanges userId (User.friends cu)); [done|].
      intros c Hin. apply Hs1 in Hin. apply list_elem_of_singleton in Hin as ->.
      right. right. eexists. split; [done|]. intros w' Hw'. by apply filter_ne_elem_ne.
    + intros c Hin. apply Hs2 in Hin. apply list_elem_of_singleton in Hin as ->.
      right. right. eexists. split; [done|]. intros w' Hw'. by apply filter_ne_elem_ne.
  - pose proof (removeFriend_served userId path path db cu fu Hd Hne Hc Hf
                  (Hvalid _ _ Hc) (Hvalid _ _ Hf)) as E.
    unfold removeFriend, User_findById in E.
    rewrite (findById_denotes _ _ _ Hd), Hc, Hf in E. rewrite E.
    cbn [fst]. eapply Symmetric_dual_write; eauto; simpl.
    + intros w Hw. by apply filter_ne_elem_ne.
    + intros w Hw. by apply filter_ne_elem_ne.
    + rewrite !filter_ne_elem. tauto.
Qed.

(** The executable check is sound. *)
Lemma symmetricb_sound db : symmetricb db = true → Symmetric db.
Proof.
  unfold symmetricb. rewrite forallb_forall. intros Hall.
  assert (Hdir : ∀ u v du dv, users db !! u = Some du → users db !! v = Some dv →
                 v ∈ User.friends du → u ∈ User.friends dv).
  { intros u v du dv Hu Hv Hin.
    specialize (Hall (u, du)). rewrite forallb_forall in Hall.
    assert (In (u, du) (map_to_list (users db))) as Hmem.
    { apply list_elem_of_In. by apply elem_of_map_to_list. }
    specialize (Hall Hmem v). simpl in Hall. rewrite Hv in Hall.
    eapply bool_decide_eq_true_1. apply Hall. by apply list_elem_of_In. }
  intros u v du dv Hu Hv. split; eauto.
Qed.

(** C1. Friendship does not stay symmetric under [DELETE /friends/:userId].
    Alice and Bob are friends, each listing the other.  Alice removes Bob,
    spelling his id in upper case: [findById] casts the id and finds Bob,
    the two filters compare with the string as sent, so Bob's list loses
    Alice while Alice's list keeps Bob; the answer is 200
    "Friend removed", and the state is no longer symmetric. *)
Theorem remove_by_respelt_id_breaks_symmetry :
  Symmetric sampleDb
  ∧ denotes bobIdUpper bobId
  ∧ ∃ db',
      removeFriend aliceId bobIdUpper sampleDb = (db', ok (JMessage "Friend removed"))
      ∧ users db' !! aliceId = Some alice
      ∧ users db' !! bobId = Some (User.set_friends [] bob)
      ∧ bobId ∈ User.friends alice
      ∧ ¬ Symmetric db'.
Proof.
  split; [apply symmetricb_sound; vm_compute; reflexivity|].
  split; [reflexivity|].
  eexists. split; [vm_compute; reflexivity|].
  split; [reflexivity|]. split; [reflexivity|].
  split; [by apply list_elem_of_singleton|].
  intros Hsym.
  specialize (Hsym aliceId bobId alice (User.set_friends [] bob) eq_refl eq_refl).
  simpl in Hsym. destruct Hsym as [Hsym _].
  specialize (Hsym ltac:(by apply list_elem_of_singleton)).
  by apply elem_of_nil in Hsym.
Qed.

End Friendship.

(** ** Visibility of other users' notes *)

Section Visibility.

(** C2 (as amended). Visibility is governed by [isPublic] plus friendship,
    where the friendship test reads the requester's own friends list.  For
    a stored note whose [isPublic] is false and whose owner is not the
    requester, addressed by any spelling of its id: [POST /:id/like]
    answers 403 whatever the friendship; and when both user documents
    exist and the owner is not in the requester's friends list — in a
    state with symmetric friendship: the requester is not in the owner's
    list — [POST /:id/duplicate] answers 403, and so does
    [GET /user/:owner] with the owner's id as stored, or with another
    spelling of it that is not in the requester's friends list either.
    In each case the database is returned unchanged, so no note is
    created or modified. *)
Theorem private_notes_are_refused (userId path noteId : string) (now : Z) (newId : string)
    (db : Db) (note : Note.t) :
  denotes path noteId →
  notes db !! noteId = Some note →
  Note.isPublic note = Some false →
  Note.userId note ≠ userId →
  likeNote userId path db = (db, fail 403 "Cannot like private note")
  ∧ (∀ noteOwner currentUser,
       users db !! Note.userId note = Some noteOwner →
       users db !! userId = Some currentUser →
       (Note.userId note ∉ User.friends currentUser
        ∨ (Symmetric db ∧ userId ∉ User.friends noteOwner)) →
       duplicateNote userId path now newId db
         = (db, fail 403 "Cannot duplicate private note")
       ∧ (∀ ownerPath,
            denotes ownerPath (Note.userId note) →
            ownerPath = Note.userId note
            ∨ (ownerPath ≠ userId ∧ ownerPath ∉ User.friends currentUser) →
            userNotes userId ownerPath db
            = (db, fail 403 "Not authorized to view notes"))).
Proof.
  intros Hd Hn Hpriv Hother.
  assert (Note.readIsPublic note = false) as Hread.
  { unfold Note.readIsPublic. by rewrite Hpriv. }
  split.
  - unfold likeNote, Note_findById. rewrite (findById_denotes _ _ _ Hd), Hn, Hread. simpl.
    by rewrite bool_decide_eq_true_2.
  - intros noteOwner currentUser Ho Hc Hnf.
    assert (Note.userId note ∉ User.friends currentUser) as Hnot.
    { destruct Hnf as [?|[Hsym Hnf]]; [done|].
      intros Hin. apply Hnf.
      by apply (Hsym userId (Note.userId note) currentUser noteOwner Hc Ho). }
    apply some_eq_not_elem in Hnot. split.
    + unfold duplicateNote, Note_findById.
      rewrite (findById_denotes _ _ _ Hd), Hn, Hread. simpl.
      rewrite bool_decide_eq_true_2 by done. rewrite Ho, Hc, Hnot. done.
    + intros ownerPath Hpath Hspelt. unfold userNotes, User_findById.
      rewrite Hc, (findById_denotes _ _ _ Hpath), Ho.
      destruct Hspelt as [->|[Hne Hnf']].
      * rewrite Hnot. rewrite bool_decide_eq_false_2 by congruence. done.
      * apply some_eq_not_elem in Hnf'. rewrite Hnf'.
        rewrite bool_decide_eq_false_2 by congruence. done.
Qed.

End Visibility.

(** ** Registration *)

Section Registration.

Variable toLowerCase : string → string.
Variable generateAccessToken : string → string.
Variable generateRefreshToken : string → string.
Variable bcryptHash : string → string.

Lemma User_findOneByEmail_None email db :
  User_findOneByEmail toLowerCase email db = None
  ↔ ∀ id u, users db !! id = Some u → User.email u ≠ emailSetters toLowerCase email.
Proof.
  unfold User_findOneByEmail. rewrite head_None. split.
  - intros Hnil id u Hu He.
    eapply (filter_nil_not_elem_of _ _ (id, u)); [exact Hnil|exact He|].
    by apply elem_of_map_to_list.
  - intros Hall. destruct (filter _ _) as [|[id u] l] eqn:Hf; [done|].
    assert ((id, u) ∈ filter (λ d : string * User.t,
                                User.email d.2 = emailSetters toLowerCase email)
                        (map_to_list (users db))) as Hin
      by (rewrite Hf; left).
    apply list_elem_of_filter in Hin as [He Hin].
    apply elem_of_map_to_list in Hin. by destruct (Hall id u Hin).
Qed.

Lemma User_findOneByEmail_Some email db id u :
  User_findOneByEmail toLowerCase email db = Some (id, u) →
  users db !! id = Some u ∧ User.email u = emailSetters toLowerCase email.
Proof.
  unfold User_findOneByEmail. intros Hh.
  apply head_Some_elem_of in Hh. apply list_elem_of_filter in Hh as [He Hin].
  apply elem_of_map_to_list in Hin. done.
Qed.

Lemma User_findOneByEmail_taken email db id u :
  users db !! id = Some u → User.email u = emailSetters toLowerCase email →
  is_Some (User_findOneByEmail toLowerCase email db).
Proof.
  intros Hu He. destruct (User_findOneByEmail toLowerCase email db) eqn:Hf; [by eexists|].
  rewrite User_findOneByEmail_None in Hf. by destruct (Hf id u Hu).
Qed.

Lemma jsLength_nonempty s : (1 ≤ jsLength s)%nat → s ≠ "".
Proof. destruct s; simpl; [lia|done]. Qed.

(** What [register] comes to once its field checks are passed. *)
Lemma register_checked (email password name newId : string) (db : Db) :
  email ≠ "" → name ≠ "" → (6 ≤ jsLength password)%nat →
  register toLowerCase generateAccessToken generateRefreshToken bcryptHash
    (Some email) (Some password) (Some name) newId db
  = match User_findOneByEmail toLowerCase (toLowerCase email) db with
    | Some _ => (db, fail 400 "Email already registered")
    | None =>
        let user := set_refreshToken (Some (generateRefreshToken newId))
                      (User_new toLowerCase (toLowerCase email) password name) in
        match User_saveNew bcryptHash newId user db with
        | Some db' =>
            (db', created (JRegistered "Registration successful" newId
                             (User.email user) (User.name user)
                             (generateAccessToken newId)
                             (generateRefreshToken newId)))
        | None => (db, fail 500 "Failed to register")
        end
    end.
Proof.
  intros He Hname Hpw.
  assert (password ≠ "") as Hp by (apply jsLength_nonempty; lia).
  unfold register, truthy.
  rewrite !bool_decide_eq_true_2 by done. simpl.
  rewrite bool_decide_eq_false_2 by lia. done.
Qed.

(** C5 (as amended). For a request that passes the handler's field
    checks (email, password and name present, password of at least 6
    characters): registration answers 400 "Email already registered" and
    leaves the database unchanged whenever a stored user's email equals
    the requested email lower-cased and trimmed, which is what the lookup
    compares with after the schema's setters; otherwise — when that
    address and the trimmed name are not empty and the [_id] is fresh —
    it answers 201 and stores one new user, whose email is the requested
    email lower-cased and trimmed. *)
Theorem register_email_unique (email password name newId : string) (db : Db) :
  email ≠ "" → name ≠ "" → (6 ≤ jsLength password)%nat →
  let address := emailSetters toLowerCase (toLowerCase email) in
  ((∃ id u, users db !! id = Some u ∧ User.email u = address) →
     register toLowerCase generateAccessToken generateRefreshToken bcryptHash
       (Some email) (Some password) (Some name) newId db
     = (db, fail 400 "Email already registered"))
  ∧ ((∀ id u, users db !! id = Some u → User.email u ≠ address) →
     address ≠ "" → trim name ≠ "" →
     users db !! newId = None →
     ∃ u,
       register toLowerCase generateAccessToken generateRefreshToken bcryptHash
         (Some email) (Some password) (Some name) newId db
       = (User_put newId u db,
          created (JRegistered "Registration successful" newId
                     address (trim name)
                     (generateAccessToken newId) (generateRefreshToken newId)))
       ∧ User.email u = address
       ∧ users (User_put newId u db) !! newId = Some u
       ∧ (∀ id, id ≠ newId → users (User_put newId u db) !! id = users db !! id)
       ∧ notes (User_put newId u db) = notes db).
Proof.
  intros He Hname Hpw address.
  rewrite (register_checked _ _ _ _ _ He Hname Hpw).
  split.
  - intros (id & u & Hu & Heq).
    destruct (User_findOneByEmail_taken _ _ _ _ Hu Heq) as [d ->]. done.
  - intros Hfree Haddr Htn Hfresh.
    rewrite (proj2 (User_findOneByEmail_None _ _) Hfree). cbn zeta.
    unfold User_saveNew.
    assert (User.valid (set_refreshToken (Some (generateRefreshToken newId))
                          (User_new toLowerCase (toLowerCase email) password name)) = true)
      as ->.
    { unfold User.valid. simpl.
      rewrite !bool_decide_eq_true_2; try done; simpl; lia. }
    rewrite bool_decide_eq_true_2 by done. simpl.
    assert (forallb (λ d : string * User.t,
                       bool_decide (User.email d.2 ≠ emailSetters toLowerCase (toLowerCase email)))
                    (map_to_list (users db)) = true) as ->.
    { apply forallb_forall. intros [id u] Hin. apply bool_decide_eq_true_2.
      apply list_elem_of_In, elem_of_map_to_list in Hin. by apply (Hfree id u). }
    eexists. split; [reflexivity|]. split; [done|]. split; [apply User_put_lookup|].
    split; [|done]. intros id Hne. by apply User_put_lookup_ne.
Qed.

End Registration.

(** * The statements on the sample data *)

(** Carol, no friend of Alice, is refused Alice's private note. *)
Lemma private_notes_sample :
  likeNote carolId privateId sampleDb = (sampleDb, fail 403 "Cannot like private note")
  ∧ duplicateNote carolId privateId 400 freshId sampleDb
    = (sampleDb, fail 403 "Cannot duplicate private note")
  ∧ userNotes carolId aliceId sampleDb
    = (sampleDb, fail 403 "Not authorized to view notes").
Proof.
  assert (Hd : denotes privateId privateId) by (vm_compute; reflexivity).
  assert (Hn : notes sampleDb !! privateId = Some privateNote) by reflexivity.
  assert (Hp : Note.isPublic privateNote = Some false) by reflexivity.
  assert (Hu : Note.userId privateNote ≠ carolId) by discriminate.
  destruct (private_notes_are_refused carolId privateId privateId 400 freshId sampleDb
              privateNote Hd Hn Hp Hu) as [Hlike Hrest].
  split; [exact Hlike|].
  destruct (Hrest alice carol eq_refl eq_refl) as [Hdup Hlist].
  { left. apply not_elem_of_nil. }
  split; [exact Hdup|]. apply (Hlist aliceId); [vm_compute; reflexivity|by left].
Defined.

(** The claim as stated fails where friendship is one-sided: Alice's note
    is private, Bob is neither its owner nor in Alice's friends list, yet —
    Bob listing Alice — the duplicate is made. *)
Lemma private_duplicate_by_one_sided_friend :
  notes lopsidedDb !! privateId = Some privateNote
  ∧ Note.isPublic privateNote = Some false
  ∧ Note.userId privateNote = aliceId ∧ aliceId ≠ bobId
  ∧ users lopsidedDb !! aliceId = Some loneAlice
  ∧ (bobId ∉ User.friends loneAlice)
  ∧ status (duplicateNote bobId privateId 400 freshId lopsidedDb).2 = 201%nat
  ∧ notes lopsidedDb !! freshId = None
  ∧ is_Some (notes (duplicateNote bobId privateId 400 freshId lopsidedDb).1 !! freshId)
  ∧ status (userNotes bobId aliceId lopsidedDb).2 = 200%nat.
Proof.
  repeat split; try (vm_compute; reflexivity); try discriminate.
  - apply not_elem_of_nil.
  - vm_compute. by eexists.
Qed.

(** Bob takes back his like of Alice's public note. *)
Lemma like_toggle_sample :
  ∃ liked likes',
    likeNote bobId recentId sampleDb
    = (Note_put recentId (Note.set_likes likes' (Note.withDefaults recentNote)) sampleDb,
       ok (JLike liked (length likes')))
    ∧ likes' = [].
Proof.
  destruct (like_toggles_membership bobId recentId recentId sampleDb recentNote
              ltac:(vm_compute; reflexivity) eq_refl (or_introl eq_refl))
    as [Hvalid _].
  destruct (Hvalid eq_refl) as (liked & likes' & Heq & Hin & _).
  exists liked, likes'. split; [exact Heq|].
  apply Hin. apply list_elem_of_singleton. reflexivity.
Defined.

(** The claim as stated fails on a note that [PUT /:id] has left with an
    image without [publicId]: the note exists and is public, so Carol may
    like it, yet the like is answered 500 and the list is not changed. *)
Lemma like_of_an_invalid_note :
  updateNote sampleUploadBase64 sampleDeleteFile aliceId recentId looseBody 400 sampleDb
  = (looseDb, ok (JNote (recentId, looseNote)))
  ∧ notes looseDb !! recentId = Some looseNote
  ∧ Note.readIsPublic looseNote = true
  ∧ (carolId ∉ Note.likes looseNote)
  ∧ likeNote carolId recentId looseDb = (looseDb, fail 500 "Failed to toggle like").
Proof.
  split; [vm_compute; reflexivity|]. split; [reflexivity|]. split; [reflexivity|].
  split; [|vm_compute; reflexivity].
  intros Hin. apply list_elem_of_singleton in Hin. discriminate.
Qed.

(** Alice trashes her pinned note and restores the trashed one; her
    pinned note cannot be restored, and neither can "trash". *)
Lemma trash_sample :
  (∃ db' note',
     deleteNote sampleDeleteFile aliceId pinnedId None 500 sampleDb
     = (db', ok (JMessage "Note moved to trash"))
     ∧ notes db' !! pinnedId = Some note'
     ∧ Note.isDeleted note' = true ∧ Note.deletedAt note' = Some 500)
  ∧ (∃ db' note',
       restoreNote aliceId trashedId sampleDb
       = (db', ok (JMessage "Note restored successfully"))
       ∧ notes db' !! trashedId = Some note'
       ∧ Note.isDeleted note' = false ∧ Note.deletedAt note' = None)
  ∧ restoreNote aliceId pinnedId sampleDb = (sampleDb, fail 404 "Note not found in trash")
  ∧ restoreNote aliceId "trash" sampleDb = (sampleDb, fail 500 "Failed to restore note").
Proof.
  destruct (trash_soft_delete_and_restore sampleDeleteFile aliceId pinnedId 500 sampleDb)
    as (Hdel & _ & _ & Hnot & _).
  destruct (trash_soft_delete_and_restore sampleDeleteFile aliceId trashedId 500 sampleDb)
    as (_ & Hres & _).
  destruct (trash_soft_delete_and_restore sampleDeleteFile aliceId "trash" 500 sampleDb)
    as (_ & _ & _ & _ & Hcast).
  split; [|split; [|split]].
  - destruct (Hdel pinnedId pinnedNote None ltac:(vm_compute; reflexivity) eq_refl eq_refl)
      as (db' & note' & Hrun & Hdb & _ & _ & Hd & Ht); [discriminate|].
    exists db', note'. rewrite Hdb, lookup_insert_eq. auto.
  - destruct (Hres trashedId trashedNote ltac:(vm_compute; reflexivity) eq_refl eq_refl eq_refl)
      as (db' & note' & Hrun & Hdb & _ & _ & Hd & Ht).
    exists db', note'. rewrite Hdb, lookup_insert_eq. auto.
  - apply (Hnot pinnedId); [vm_compute; reflexivity|]. intros note Hn _.
    assert (Some note = Some pinnedNote) as [= ->] by (rewrite <- Hn; reflexivity).
    discriminate.
  - apply Hcast. reflexivity.
Defined.

(** The claim as stated fails on a path that is not an ObjectId: for
    [POST /trash/restore] no note of Alice's is stored under that id, yet
    the answer is 500 "Failed to restore note", not 404. *)
Lemma restore_of_a_malformed_id :
  notes sampleDb !! "trash" = None
  ∧ restoreNote aliceId "trash" sampleDb = (sampleDb, fail 500 "Failed to restore note")
  ∧ fail 500 "Failed to restore note" ≠ fail 404 "Note not found in trash".
Proof.
  split; [reflexivity|]. split; [reflexivity|]. discriminate.
Qed.

(** Registration against the sample state: Alice's address is taken,
    also when sent padded and in capitals; Dave's is free. *)
Lemma register_sample :
  register sampleToLowerCase sampleAccessToken sampleRefreshToken sampleHash
    (Some "  Alice@Example.COM ") (Some "secret1") (Some "Alice") freshId sampleDb
  = (sampleDb, fail 400 "Email already registered")
  ∧ ∃ u,
      register sampleToLowerCase sampleAccessToken sampleRefreshToken sampleHash
        (Some " Dave@Example.com") (Some "secret1") (Some "Dave") freshId sampleDb
      = (User_put freshId u sampleDb,
         created (JRegistered "Registration successful" freshId
                    "dave@example.com" "Dave"
                    (sampleAccessToken freshId) (sampleRefreshToken freshId)))
      ∧ User.email u = "dave@example.com".
Proof.
  split.
  - apply (register_email_unique sampleToLowerCase sampleAccessToken sampleRefreshToken
             sampleHash "  Alice@Example.COM " "secret1" "Alice" freshId sampleDb);
      [discriminate|discriminate|simpl; lia|].
    exists aliceId, alice. split; reflexivity.
  - destruct (proj2 (register_email_unique sampleToLowerCase sampleAccessToken
                       sampleRefreshToken sampleHash
                       " Dave@Example.com" "secret1" "Dave" freshId sampleDb
                       ltac:(discriminate) ltac:(discriminate) ltac:(simpl; lia)))
      as (u & Hrun & Hemail & _).
    + apply User_findOneByEmail_None. vm_compute. reflexivity.
    + discriminate.
    + discriminate.
    + reflexivity.
    + exists u. split; [exact Hrun|exact Hemail].
Defined.

(** The claim as stated fails in three ways.  On a request the field
    checks refuse: the address is taken, but the answer names the
    password; and with a free address such a request creates no user.  On
    a padded address: no stored email equals the lower-cased requested
    one, yet a taken address is refused and a free one is stored trimmed.
    On a blank name or address: the address is free, yet no user is
    created. *)
Lemma register_short_password_or_padded_email :
  users sampleDb !! aliceId = Some alice
  ∧ User.email alice = sampleToLowerCase "Alice@Example.com"
  ∧ register sampleToLowerCase sampleAccessToken sampleRefreshToken sampleHash
      (Some "Alice@Example.com") (Some "12345") (Some "Alice") freshId sampleDb
    = (sampleDb, fail 400 "Password must be at least 6 characters")
  ∧ fail 400 "Password must be at least 6 characters" ≠ fail 400 "Email already registered"
  ∧ register sampleToLowerCase sampleAccessToken sampleRefreshToken sampleHash
      (Some "Dave@Example.com") (Some "12345") (Some "Dave") freshId sampleDb
    = (sampleDb, fail 400 "Password must be at least 6 characters")
  ∧ forallb (λ d : string * User.t,
               bool_decide (User.email d.2 ≠ sampleToLowerCase " Alice@Example.com"
                            ∧ User.email d.2 ≠ sampleToLowerCase " Dave@Example.com"
                            ∧ User.email d.2 ≠ sampleToLowerCase "Dave@Example.com"
                            ∧ User.email d.2 ≠ sampleToLowerCase "   "))
            (map_to_list (users sampleDb)) = true
  ∧ register sampleToLowerCase sampleAccessToken sampleRefreshToken sampleHash
      (Some " Alice@Example.com") (Some "secret1") (Some "Alice") freshId sampleDb
    = (sampleDb, fail 400 "Email already registered")
  ∧ (∃ db' res dave,
       register sampleToLowerCase sampleAccessToken sampleRefreshToken sampleHash
         (Some " Dave@Example.com") (Some "secret1") (Some "Dave") freshId sampleDb
       = (db', res)
       ∧ status res = 201%nat
       ∧ users db' !! freshId = Some dave
       ∧ User.email dave = "dave@example.com"
       ∧ User.email dave ≠ sampleToLowerCase " Dave@Example.com")
  ∧ register sampleToLowerCase sampleAccessToken sampleRefreshToken sampleHash
      (Some "Dave@Example.com") (Some "secret1") (Some "   ") freshId sampleDb
    = (sampleDb, fail 500 "Failed to register")
  ∧ register sampleToLowerCase sampleAccessToken sampleRefreshToken sampleHash
      (Some "   ") (Some "secret1") (Some "Dave") freshId sampleDb
    = (sampleDb, fail 500 "Failed to register").
Proof.
  split; [reflexivity|]. split; [reflexivity|]. split; [vm_compute; reflexivity|].
  split; [discriminate|]. split; [vm_compute; reflexivity|].
  split; [vm_compute; reflexivity|]. split; [vm_compute; reflexivity|].
  split; [|split; vm_compute; reflexivity].
  eexists _, _, _. split; [vm_compute; reflexivity|].
  split; [reflexivity|]. split; [vm_compute; reflexivity|]. split; [reflexivity|].
  discriminate.
Qed.

(** The inline image is uploaded and given a generated id; the stored one
    is kept as it is. *)
Lemma images_sample :
  ∃ out,
    processImages sampleUploadBase64 1700000000000 (Some sampleImages) = Some out
    ∧ Forall2 (storedAs sampleUploadBase64 1700000000000) sampleImages out
    ∧ status (createNote sampleUploadBase64 aliceId sampleBody 1700000000000
                freshId sampleDb).2 = 201%nat.
Proof.
  destruct (images_uploaded_conditionally sampleUploadBase64 sampleDeleteFile 1700000000000)
    as (Hloop & _ & _ & Hcreate & _).
  eexists. split; [vm_compute; reflexivity|]. split.
  - apply (Hloop (Some sampleImages)). vm_compute; reflexivity.
  - eapply (Hcreate aliceId sampleBody freshId sampleDb);
      [vm_compute; reflexivity|reflexivity|reflexivity].
Defined.

(** A request without a token is answered 401 by the middleware, and no
    handler is entered. *)
Lemma rejected_request_sample :
  serve sampleUploadBase64 sampleUploadFile sampleDeleteFile sampleAuth
    anonymousRequest 500 freshId sampleDb
  = (Answered sampleDb (fail 401 "No token provided"), [AuthCheck]).
Proof.
  apply (rejected_requests_never_reach_the_database sampleUploadBase64 sampleUploadFile
           sampleDeleteFile sampleAuth anonymousRequest 500 freshId sampleDb).
  reflexivity.
Defined.

(** Alice creates a note and Bob duplicates her pinned one. *)
Lemma new_notes_sample :
  (∃ note,
     json (createNote sampleUploadBase64 aliceId sampleBody 500 freshId sampleDb).2
     = JNote (freshId, note)
     ∧ Note.isArchived note = false ∧ Note.isDeleted note = false
     ∧ Note.likes note = [] ∧ Note.isPublic note = Some true)
  ∧ (∃ note,
       json (duplicateNote bobId pinnedId 500 freshId sampleDb).2 = JNote (freshId, note)
       ∧ Note.isPublic note = Some true ∧ Note.isPinned note = false
       ∧ Note.likes note = [] ∧ Note.userId note = bobId).
Proof.
  destruct (new_notes_start_public sampleUploadBase64 aliceId 500 freshId sampleDb)
    as (Hcreate & _).
  destruct (new_notes_start_public sampleUploadBase64 bobId 500 freshId sampleDb)
    as (_ & _ & Hdup & _).
  split.
  - destruct (Hcreate sampleBody _ _ (surjective_pairing _) eq_refl)
      as (note & Hj & _ & Ha & Hd & Hl & Hp & _).
    exists note. auto.
  - destruct (Hdup pinnedId _ _ (surjective_pairing _) eq_refl)
      as (note & Hj & _ & Hp & Hpin & Hl & Hu).
    exists note. auto.
Defined.

(** Alice's trashed note shows in the deleted view only. *)
Lemma list_views_sample :
  (trashedId, trashedNote) ∈ docsOf (listNotes aliceId None (Some "true") sampleDb).2
  ∧ ((trashedId, trashedNote) ∉ docsOf (listNotes aliceId (Some "true") None sampleDb).2)
  ∧ ((trashedId, trashedNote) ∉ docsOf (listNotes aliceId None None sampleDb).2).
Proof.
  destruct (list_views_partition aliceId sampleDb trashedId trashedNote eq_refl eq_refl)
    as (Hdel & Harch & Hdef & _).
  split; [|split].
  - apply Hdel. reflexivity.
  - intros Hin. apply Harch in Hin as [Hin _]. discriminate Hin.
  - intros Hin. apply Hdef in Hin as [Hin _]. discriminate Hin.
Defined.

(** Bob's view of Alice's notes: the pinned note first, then the rest by
    date. *)
Lemma listings_sample :
  ∃ views,
    (userNotes bobId aliceId sampleDb).2 = ok (JUserNotes views)
    ∧ NoteView.title <$> views = ["Pinned"; "Recent"]
    ∧ ordered (viewKey <$> views).
Proof.
  eexists. split; [vm_compute; reflexivity|]. split; [reflexivity|].
  apply (proj1 (proj2 listings_pinned_first_date_desc) bobId aliceId sampleDb).
  vm_compute; reflexivity.
Defined.

(** * Further properties of the handlers *)

(** ** What a notes request can touch *)

Section RouteTable.

Lemma firstMatch_Some (table : list Route) verb path h :
  firstMatch table verb path = Some h → ∃ r, r ∈ table ∧ r verb path = Some h.
Proof.
  induction table as [|r table IH]; simpl; [done|].
  destruct (r verb path) as [h'|] eqn:Hr.
  - intros [= <-]. exists r. split; [left|done].
  - intros Hm. destruct (IH Hm) as (r' & Hin & Hr'). exists r'. split; [by right|done].
Qed.

Lemma sameButLikes_refl n : sameButLikes n n.
Proof. left. by destruct n. Qed.

Lemma sameButLikes_set_likes l n : sameButLikes n (Note.set_likes l n).
Proof. left. by destruct n. Qed.

Lemma sameButLikes_withDefaults l n :
  sameButLikes n (Note.set_likes l (Note.withDefaults n)).
Proof. right. by destruct n. Qed.

Lemma Confined_refl userId db : Confined userId db db.
Proof.
  split; [done|]. intros id n Hn _. exists n. split; [done|apply sameButLikes_refl].
Qed.

(** Writing a note of the requester, or a note under an unused id. *)
Lemma Confined_put userId id n db :
  (∀ m, notes db !! id = Some m → Note.userId m = userId) →
  Confined userId db (Note_put id n db).
Proof.
  intros Hown. split; [done|]. intros id' m Hm Hforeign.
  destruct (decide (id = id')) as [<-|Hne].
  - by destruct (Hforeign (Hown m Hm)).
  - exists m. rewrite Note_put_lookup_ne by done. split; [done|apply sameButLikes_refl].
Qed.

End RouteTable.

Section Confinement.

Variable uploadBase64 : string → option Uploaded.t.
Variable uploadFile : string → option Uploaded.t.
Variable deleteFile : string → bool.

Lemma createNote_confined userId body now newId db :
  Confined userId db (createNote uploadBase64 userId body now newId db).1.
Proof.
  unfold createNote.
  destruct (processImages _ _ _); [|apply Confined_refl].
  destruct (Note_saveNew _ _ _) as [db'|] eqn:Hsave; [|apply Confined_refl].
  apply Note_saveNew_Some in Hsave as (_ & Hfresh & ->).
  apply (Confined_put userId newId). intros m Hm. congruence.
Qed.

Lemma updateNote_confined userId id body now db :
  Confined userId db (updateNote uploadBase64 deleteFile userId id body now db).1.
Proof.
  unfold updateNote.
  destruct (Note_findOwn id userId db) as [| |i existingNote] eqn:Hf;
    [apply Confined_refl..|].
  apply Note_findOwn_Found in Hf as (_ & Hn & Hu).
  destruct (processImages _ _ _); [|apply Confined_refl].
  destruct (deleteImages _ _); [|apply Confined_refl].
  apply Confined_put. intros m Hm. congruence.
Qed.

Lemma deleteNote_confined userId id permanent now db :
  Confined userId db (deleteNote deleteFile userId id permanent now db).1.
Proof.
  unfold deleteNote.
  destruct (Note_findOwn id userId db) as [| |i note] eqn:Hf; [apply Confined_refl..|].
  apply Note_findOwn_Found in Hf as (_ & Hn & Hu).
  case_bool_decide.
  - destruct (deleteImages _ _); [|apply Confined_refl].
    split; [done|]. intros id' m Hm Hforeign. exists m. simpl.
    rewrite lookup_delete_ne by congruence. split; [done|apply sameButLikes_refl].
  - apply Confined_put. intros m Hm. congruence.
Qed.

Lemma restoreNote_confined userId id db :
  Confined userId db (restoreNote userId id db).1.
Proof.
  unfold restoreNote.
  destruct (Note_findOwn id userId db) as [| |i note] eqn:Hf; [apply Confined_refl..|].
  apply Note_findOwn_Found in Hf as (_ & Hn & Hu).
  destruct (Note.isDeleted note); [|apply Confined_refl].
  apply Confined_put. intros m Hm. congruence.
Qed.

Lemma setVisibility_confined userId id body db :
  Confined userId db (setVisibility userId id body db).1.
Proof.
  unfold setVisibility, Note_save.
  destruct (Note_findOwn id userId db) as [| |i note] eqn:Hf; [apply Confined_refl..|].
  apply Note_findOwn_Found in Hf as (_ & Hn & Hu).
  destruct (Note.valid _); [|apply Confined_refl].
  apply Confined_put. intros m Hm. congruence.
Qed.

Lemma emptyTrash_confined userId db :
  Confined userId db (emptyTrash deleteFile userId db).1.
Proof.
  clear uploadBase64 uploadFile.
  unfold emptyTrash. destruct (forallb _ _); [|apply Confined_refl].
  split; [done|]. intros id m Hm Hforeign. exists m. simpl.
  split; [|apply sameButLikes_refl].
  apply map_lookup_filter_Some. split; [done|]. simpl.
  unfold matches. simpl. rewrite bool_decide_eq_false_2 by done. simpl. tauto.
Qed.

Lemma likeNote_confined userId noteId db :
  Confined userId db (likeNote userId noteId db).1.
Proof.
  clear uploadBase64 uploadFile deleteFile.
  unfold likeNote, Note_save.
  destruct (Note_findById noteId db) as [| |i note] eqn:Hf; [apply Confined_refl..|].
  apply findById_Found in Hf as [_ Hn].
  destruct (_ && _)%bool; [apply Confined_refl|].
  destruct (Note.valid _); [|apply Confined_refl].
  split; [done|]. intros id m Hm Hforeign. cbn [fst].
  destruct (decide (i = id)) as [<-|Hne].
  - rewrite Note_put_lookup. eexists. split; [done|].
    assert (m = note) as -> by congruence. apply sameButLikes_withDefaults.
  - rewrite Note_put_lookup_ne by done. exists m. split; [done|apply sameButLikes_refl].
Qed.

Lemma duplicateNote_confined userId noteId now newId db :
  Confined userId db (duplicateNote userId noteId now newId db).1.
Proof.
  clear uploadBase64 uploadFile deleteFile.
  unfold duplicateNote.
  destruct (Note_findById noteId db) as [| |i orig]; [apply Confined_refl..|].
  match goal with
  | |- context [Note_saveNew newId ?n db] => set (note := n)
  end.
  assert (Confined userId db
            (match Note_saveNew newId note db with
             | Some db1 => (db1, created (JNote (newId, note)))
             | None => (db, fail 500 "Failed to duplicate note")
             end).1) as Hdup.
  { destruct (Note_saveNew newId note db) as [db1|] eqn:Hsave; [|apply Confined_refl].
    apply Note_saveNew_Some in Hsave as (_ & Hfresh & ->).
    apply (Confined_put userId newId). intros m Hm. congruence. }
  destruct (_ && _)%bool; [|exact Hdup].
  destruct (users db !! Note.userId orig); [|apply Confined_refl].
  destruct (users db !! userId); [|apply Confined_refl].
  destruct (some_eq _ _); [exact Hdup|apply Confined_refl].
Qed.

Lemma getNote_unchanged userId id db : (getNote userId id db).1 = db.
Proof. unfold getNote. by destruct (Note_findOwn id userId db). Qed.

Lemma userNotes_unchanged userId target db : (userNotes userId target db).1 = db.
Proof. unfold userNotes. by repeat case_match. Qed.

Lemma upload_unchanged body now db : (upload uploadBase64 body now db).1 = db.
Proof. unfold upload. by repeat case_match. Qed.

Lemma uploadFileRoute_unchanged file now db :
  (uploadFileRoute uploadFile file now db).1 = db.
Proof. unfold uploadFileRoute. by repeat case_match. Qed.

(** Inversion of a route on the request line it matches. *)
#[local] Ltac route_inv H :=
  repeat (case_match; try discriminate); injection H as <-.

(** Every handler in the route table is confined. *)
Lemma routes_confined r verb path h userId req now newId db :
  r ∈ routes uploadBase64 uploadFile deleteFile →
  r verb path = Some h →
  Confined userId db (h userId req now newId db).1.
Proof.
  unfold routes. intros Hr Hm.
  repeat (apply elem_of_cons in Hr as [->|Hr]); [..|by apply elem_of_nil in Hr].
  - unfold get_root in Hm. route_inv Hm. apply Confined_refl.
  - unfold get_id in Hm. route_inv Hm. rewrite getNote_unchanged. apply Confined_refl.
  - unfold post_root in Hm. route_inv Hm. apply createNote_confined.
  - unfold put_id in Hm. route_inv Hm. apply updateNote_confined.
  - unfold delete_id in Hm. route_inv Hm. apply deleteNote_confined.
  - unfold post_id_restore in Hm. route_inv Hm. apply restoreNote_confined.
  - unfold delete_trash_empty in Hm. route_inv Hm. apply emptyTrash_confined.
  - unfold post_upload in Hm. route_inv Hm. rewrite upload_unchanged. apply Confined_refl.
  - unfold post_upload_file in Hm. route_inv Hm.
    rewrite uploadFileRoute_unchanged. apply Confined_refl.
  - unfold post_id_like in Hm. route_inv Hm. apply likeNote_confined.
  - unfold post_id_duplicate in Hm. route_inv Hm. apply duplicateNote_confined.
  - unfold put_id_visibility in Hm. route_inv Hm. apply setVisibility_confined.
  - unfold get_user_userId in Hm. route_inv Hm.
    rewrite userNotes_unchanged. apply Confined_refl.
Qed.

(** The handlers the table has for GET write nothing. *)
Lemma routes_get_unchanged r path h userId req now newId db :
  r ∈ routes uploadBase64 uploadFile deleteFile →
  r Req.GET path = Some h →
  (h userId req now newId db).1 = db.
Proof.
  unfold routes. intros Hr Hm.
  repeat (apply elem_of_cons in Hr as [->|Hr]); [..|by apply elem_of_nil in Hr].
  all: try discriminate Hm.
  - unfold get_root in Hm. route_inv Hm. done.
  - unfold get_id in Hm. route_inv Hm. apply getNote_unchanged.
  - unfold get_user_userId in Hm. route_inv Hm. apply userNotes_unchanged.
Qed.

(** X1. A request served by the notes routes never writes a user document,
    and it leaves every note of another user in place, changed at most in
    its [likes] list and in that a schema default for [isPublic] is written
    out: it cannot edit, trash, restore, hide or delete somebody else's
    note. *)
Theorem notes_requests_are_confined (userId : string) (req : Req.t) (now : Z)
    (newId : string) (db db' : Db) (res : Response) :
  route uploadBase64 uploadFile deleteFile userId req now newId db = Some (db', res) →
  users db' = users db
  ∧ ∀ id n, notes db !! id = Some n → Note.userId n ≠ userId →
            ∃ n', notes db' !! id = Some n'
                  ∧ Note.title n' = Note.title n ∧ Note.content n' = Note.content n
                  ∧ Note.color n' = Note.color n ∧ Note.images n' = Note.images n
                  ∧ Note.date n' = Note.date n ∧ Note.userId n' = Note.userId n
                  ∧ Note.isPinned n' = Note.isPinned n
                  ∧ Note.isArchived n' = Note.isArchived n
                  ∧ Note.isDeleted n' = Note.isDeleted n
                  ∧ Note.deletedAt n' = Note.deletedAt n
                  ∧ Note.readIsPublic n' = Note.readIsPublic n
                  ∧ (Note.isPublic n' = Note.isPublic n
                     ∨ (Note.isPublic n = None ∧ Note.isPublic n' = Some true)).
Proof.
  unfold route. intros Hrun.
  destruct (firstMatch _ _ _) as [h|] eqn:Hm; [|discriminate].
  injection Hrun as Hrun.
  apply firstMatch_Some in Hm as (r & Hr & Hm).
  pose proof (routes_confined r _ _ h userId req now newId db Hr Hm) as [Hus Hnotes].
  rewrite Hrun in Hus, Hnotes. split; [done|]. intros id n Hn Hforeign.
  destruct (Hnotes id n Hn Hforeign) as (n' & Hn' & Hsame).
  exists n'. split; [done|]. cbn [fst] in *.
  destruct Hsame as [Hsame|Hsame].
  - rewrite <- Hsame. split_and!; try done. by left.
  - destruct n as [? ? ? ? ? ? ? ? ? ? p ?], n'.
    injection Hsame as -> -> -> -> -> -> -> -> -> -> ->.
    cbn. split_and!; try done. destruct p as [b|]; [by left|right; done].
Qed.

(** X2. A GET request never changes the database. *)
Theorem get_requests_change_nothing (userId : string) (req : Req.t) (now : Z)
    (newId : string) (db db' : Db) (res : Response) :
  Req.verb req = Req.GET →
  route uploadBase64 uploadFile deleteFile userId req now newId db = Some (db', res) →
  db' = db.
Proof.
  unfold route. intros Hget Hrun.
  destruct (firstMatch _ _ _) as [h|] eqn:Hm; [|discriminate].
  injection Hrun as Hrun. rewrite Hget in Hm.
  apply firstMatch_Some in Hm as (r & Hr & Hm).
  pose proof (routes_get_unchanged r _ h userId req now newId db Hr Hm) as Hsame.
  by rewrite Hrun in Hsame.
Qed.

End Confinement.

(** ** Single notes *)

Section SingleNotes.

Variable uploadBase64 : string → option Uploaded.t.
Variable deleteFile : string → bool.

(** X3. A note that does not exist or belongs to somebody else is "not
    found" for reading, updating, deleting and changing visibility alike:
    when the id in the path is the string of an ObjectId under which the
    requester has no note, each answers 404; when it is not the string of
    an ObjectId, each answers 500 with its own message.  The database
    stays as it is. *)
Theorem foreign_notes_are_not_found (userId path : string) (db : Db) :
  (∀ id, denotes path id →
     (∀ n, notes db !! id = Some n → Note.userId n ≠ userId) →
     getNote userId path db = (db, fail 404 "Note not found")
     ∧ (∀ body now,
          updateNote uploadBase64 deleteFile userId path body now db
          = (db, fail 404 "Note not found"))
     ∧ (∀ permanent now,
          deleteNote deleteFile userId path permanent now db
          = (db, fail 404 "Note not found"))
     ∧ (∀ body, setVisibility userId path body db = (db, fail 404 "Note not found")))
  ∧ (castObjectId path = None →
     getNote userId path db = (db, fail 500 "Failed to fetch note")
     ∧ (∀ body now,
          updateNote uploadBase64 deleteFile userId path body now db
          = (db, fail 500 "Failed to update note"))
     ∧ (∀ permanent now,
          deleteNote deleteFile userId path permanent now db
          = (db, fail 500 "Failed to delete note"))
     ∧ (∀ body, setVisibility userId path body db
                = (db, fail 500 "Failed to update visibility"))).
Proof.
  split.
  - intros id Hd Hforeign.
    assert (Note_findOwn path userId db = NotFound) as Hf.
    { apply Note_findOwn_NotFound. by exists id. }
    unfold getNote, updateNote, deleteNote, setVisibility. rewrite Hf. done.
  - intros Hc. apply (Note_findOwn_CastError path userId db) in Hc.
    unfold getNote, updateNote, deleteNote, setVisibility. rewrite Hc. done.
Qed.

Lemma deleteImages_true imgs :
  deleteImages deleteFile imgs = true
  ↔ ∀ img publicId, img ∈ imgs → Image.publicId img = Some publicId → publicId ≠ "" →
                    deleteFile publicId = true.
Proof.
  unfold deleteImages. rewrite forallb_forall. split.
  - intros Hall img p Hin Hp Hne. specialize (Hall img (proj1 (list_elem_of_In _ _) Hin)).
    simpl in Hall. rewrite Hp in Hall. simpl in Hall.
    by rewrite bool_decide_eq_true_2 in Hall.
  - intros Hall img Hin. destruct (Image.publicId img) as [p|] eqn:Hp; [|done].
    simpl. case_bool_decide; [|done].
    eapply Hall; [by apply list_elem_of_In|done|done].
Qed.

(** X4. [DELETE /:id?permanent=true] on a note of the requester first
    deletes from storage every image that has a [publicId].  When all these
    deletions succeed the note is removed and nothing else changes; when one
    fails the answer is 500 and the note is still there. *)
Theorem permanent_delete_removes_the_note (userId path id : string) (now : Z) (db : Db)
    (note : Note.t) :
  denotes path id →
  notes db !! id = Some note → Note.userId note = userId →
  ((∀ img publicId, img ∈ Note.images note → Image.publicId img = Some publicId →
                    publicId ≠ "" → deleteFile publicId = true) →
   ∃ db',
     deleteNote deleteFile userId path (Some "true") now db
     = (db', ok (JMessage "Note permanently deleted"))
     ∧ notes db' !! id = None
     ∧ (∀ id', id' ≠ id → notes db' !! id' = notes db !! id')
     ∧ users db' = users db)
  ∧ ((∃ img publicId, img ∈ Note.images note ∧ Image.publicId img = Some publicId
                      ∧ publicId ≠ "" ∧ deleteFile publicId = false) →
     deleteNote deleteFile userId path (Some "true") now db
     = (db, fail 500 "Failed to delete note")).
Proof.
  intros Hd Hn Hu. unfold deleteNote.
  rewrite (proj2 (Note_findOwn_Found path userId id db note)) by done.
  rewrite bool_decide_eq_true_2 by done. split.
  - intros Hall. rewrite (proj2 (deleteImages_true _) Hall).
    eexists. split; [reflexivity|]. simpl. split; [apply lookup_delete_eq|].
    split; [|done]. intros id' Hne. by apply lookup_delete_ne.
  - intros (img & p & Hin & Hp & Hne & Hfail).
    destruct (deleteImages deleteFile (Note.images note)) eqn:Hdel; [|done].
    rewrite deleteImages_true in Hdel. rewrite (Hdel img p Hin Hp Hne) in Hfail. done.
Qed.




End SingleNotes.

(** ** Trash, update and visibility in sequence *)

Section NoteSequences.

Variable uploadBase64 : string → option Uploaded.t.
Variable deleteFile : string → bool.

Lemma Note_put_same id n db : notes db !! id = Some n → Note_put id n db = db.
Proof.
  intros Hn. destruct db as [us ns]. unfold Note_put, withNotes. simpl in *.
  by rewrite insert_id.
Qed.

Lemma valid_set_isPublic p n : Note.valid (Note.set_isPublic p n) = Note.valid n.
Proof. done. Qed.

(** X6. Trashing a note and restoring it is a round trip: for a note of the
    requester that is not in the trash (no [deletedAt]), soft delete
    followed by restore gives back exactly the database it started from. *)
Theorem trash_then_restore_is_identity (userId path id : string)
    (permanent : option string) (now : Z) (db : Db) (note : Note.t) :
  denotes path id →
  notes db !! id = Some note → Note.userId note = userId →
  Note.isDeleted note = false → Note.deletedAt note = None →
  permanent ≠ Some "true" →
  restoreNote userId path (deleteNote deleteFile userId path permanent now db).1
  = (db, ok (JMessage "Note restored successfully")).
Proof.
  intros Hp Hn Hu Hd Ht Hperm. unfold deleteNote.
  rewrite (proj2 (Note_findOwn_Found path userId id db note)) by done.
  rewrite bool_decide_eq_false_2 by done. cbn [fst]. unfold restoreNote.
  rewrite (proj2 (Note_findOwn_Found path userId id _ (Note.set_trash true (Some now) note)))
    by (split; [done|split; [apply Note_put_lookup|done]]).
  cbn [Note.isDeleted Note.set_trash]. rewrite Note_put_put.
  assert (Note.set_trash false None (Note.set_trash true (Some now) note) = note) as ->.
  { destruct note. simpl in *. by subst. }
  by rewrite Note_put_same.
Qed.

(** X7. Trashing moves a note between the views of [GET /]: after a soft
    delete of a note of the requester, the deleted view lists it and no
    other view does; after a restore from the trash, no deleted view lists
    it any more. *)
Theorem trash_moves_between_views (userId path id : string) (db : Db) (note : Note.t) :
  denotes path id →
  notes db !! id = Some note → Note.userId note = userId →
  (∀ permanent now db',
     permanent ≠ Some "true" →
     (deleteNote deleteFile userId path permanent now db).1 = db' →
     (∃ n', (id, n') ∈ docsOf (listNotes userId None (Some "true") db').2)
     ∧ (∀ archived deleted n', deleted ≠ Some "true" →
          (id, n') ∉ docsOf (listNotes userId archived deleted db').2))
  ∧ (∀ db',
       Note.isDeleted note = true →
       (restoreNote userId path db).1 = db' →
       ∀ archived n', (id, n') ∉ docsOf (listNotes userId archived (Some "true") db').2).
Proof.
  intros Hpath Hn Hu. split.
  - intros permanent now db' Hp <-. unfold deleteNote.
    rewrite (proj2 (Note_findOwn_Found path userId id db note)) by done.
    rewrite bool_decide_eq_false_2 by done. cbn [fst]. split.
    + exists (Note.set_trash true (Some now) note). rewrite listNotes_elem. simpl.
      split; [apply lookup_insert_eq|].
      unfold listFilter, matches, holds. simpl. by rewrite Hu, bool_decide_eq_true_2.
    + intros archived deleted n' Hdel. rewrite listNotes_elem. simpl.
      rewrite lookup_insert_eq. intros [[= <-] Hm]. revert Hm.
      unfold listFilter. rewrite (bool_decide_eq_false_2 (deleted = Some "true")) by done.
      case_bool_decide; unfold matches, holds; simpl;
        rewrite bool_decide_eq_true_2 by done; done.
  - intros db' Hd <-. unfold restoreNote.
    rewrite (proj2 (Note_findOwn_Found path userId id db note)) by done. rewrite Hd.
    cbn [fst]. intros archived n'. rewrite listNotes_elem. simpl.
    rewrite lookup_insert_eq. intros [[= <-] Hm]. revert Hm.
    unfold listFilter, matches, holds. simpl.
    rewrite bool_decide_eq_true_2 by done. done.
Qed.

(** X8. [PUT /:id] changes only what its body carries.  After a 200 answer
    the stored note has the same owner, likes, visibility and trash state
    as before; its title is never empty ("Untitled" when the body has
    none); its date is the time of the request; and [isPinned] and
    [isArchived] change only when the body gives a boolean. *)
Theorem update_keeps_owner_likes_and_trash (userId path : string) (body : Req.body)
    (now : Z) (db db' : Db) (res : Response) :
  updateNote uploadBase64 deleteFile userId path body now db = (db', res) →
  status res = 200%nat →
  ∃ id old new,
    denotes path id
    ∧ notes db !! id = Some old ∧ notes db' !! id = Some new
    ∧ json res = JNote (id, new)
    ∧ Note.userId new = Note.userId old ∧ Note.likes new = Note.likes old
    ∧ Note.isPublic new = Note.isPublic old
    ∧ Note.isDeleted new = Note.isDeleted old
    ∧ Note.deletedAt new = Note.deletedAt old
    ∧ Note.title new ≠ ""
    ∧ (∀ t, Req.title body = Some t → t ≠ "" → Note.title new = t)
    ∧ Note.date new = now
    ∧ Note.isPinned new = default (Note.isPinned old) (Req.isPinned body)
    ∧ Note.isArchived new = default (Note.isArchived old) (Req.isArchived body)
    ∧ (∀ id', id' ≠ id → notes db' !! id' = notes db !! id').
Proof.
  unfold updateNote.
  destruct (Note_findOwn path userId db) as [| |id old] eqn:Hf;
    [intros [= <- <-]; done..|].
  apply Note_findOwn_Found in Hf as (Hd & Hn & Hu).
  destruct (processImages _ _ _) as [out|]; [|intros [= <- <-]; done].
  destruct (deleteImages _ _); [|intros [= <- <-]; done].
  intros [= <- <-] _. eexists id, old, _.
  split; [done|]. split; [done|]. split; [apply Note_put_lookup|]. split; [done|].
  simpl. repeat split; try done.
  - unfold orElse. destruct (Req.title body) as [t|]; [|done]. by case_bool_decide.
  - intros t -> Ht. unfold orElse. by rewrite bool_decide_eq_false_2.
  - intros id' Hne. by apply lookup_insert_ne.
Qed.

(** X9. Likes stay duplicate-free: if the [likes] list of a note has no
    repeated id, it has none after any [POST /:id/like], whoever sends it
    and whatever the answer. *)
Theorem likes_stay_duplicate_free (userId path noteId : string) (db : Db)
    (note note' : Note.t) :
  denotes path noteId →
  notes db !! noteId = Some note →
  NoDup (Note.likes note) →
  notes (likeNote userId path db).1 !! noteId = Some note' →
  NoDup (Note.likes note').
Proof.
  intros Hd Hn Hnd. unfold likeNote, Note_findById, Note_save.
  rewrite (findById_denotes _ _ _ Hd), Hn.
  destruct (_ && _)%bool.
  { cbn [fst]. rewrite Hn. by intros [= <-]. }
  destruct (Note.valid _).
  - cbn [fst]. rewrite Note_put_lookup. intros [= <-]. simpl.
    destruct (some_eq userId (Note.likes note)) eqn:Hs.
    + by apply NoDup_filter.
    + apply some_eq_not_elem in Hs. apply NoDup_app. split; [done|]. split.
      * intros x Hx Hin. apply list_elem_of_singleton in Hin as ->. done.
      * apply NoDup_singleton.
  - cbn [fst]. rewrite Hn. by intros [= <-].
Qed.

(** X10. [PUT /:id/visibility] decides who may like.  On a note of the
    requester that passes schema validation the value sent is stored
    (no value unsets the path), and then: with [isPublic = false] a like
    by anybody else is refused with 403 and changes nothing; with
    [isPublic = true], or none, a like by anybody is served.  On a note
    that does not pass validation the visibility is not stored (500), and
    no like is served. *)
Theorem visibility_decides_who_may_like (ownerId path id : string) (body : Req.body)
    (db : Db) (note : Note.t) :
  denotes path id →
  notes db !! id = Some note → Note.userId note = ownerId →
  (Note.valid note = true →
   ∃ db',
     setVisibility ownerId path body db
     = (db', ok (JVisibility "Note visibility updated" (Req.isPublic body)))
     ∧ db' = Note_put id (Note.set_isPublic (Req.isPublic body) note) db
     ∧ (Req.isPublic body = Some false →
        ∀ userId, userId ≠ ownerId →
          likeNote userId path db' = (db', fail 403 "Cannot like private note"))
     ∧ (Req.isPublic body ≠ Some false →
        ∀ userId, status (likeNote userId path db').2 = 200%nat))
  ∧ (Note.valid note = false →
     setVisibility ownerId path body db = (db, fail 500 "Failed to update visibility")
     ∧ ∀ userId, status (likeNote userId path db).2 ≠ 200%nat).
Proof.
  intros Hd Hn Hu. unfold setVisibility, Note_save.
  rewrite (proj2 (Note_findOwn_Found path ownerId id db note)) by done.
  rewrite valid_set_isPublic. split; intros Hv; rewrite Hv.
  - eexists. split; [reflexivity|]. split; [reflexivity|]. split.
    + intros Hp userId Hne. unfold likeNote, Note_findById.
      rewrite (findById_denotes _ _ _ Hd), Note_put_lookup, Hp. simpl.
      rewrite bool_decide_eq_true_2 by congruence. done.
    + intros Hp userId. unfold likeNote, Note_findById, Note_save.
      rewrite (findById_denotes _ _ _ Hd), Note_put_lookup.
      rewrite valid_set_likes, valid_withDefaults, valid_set_isPublic, Hv.
      destruct (Req.isPublic body) as [[]|]; done.
  - split; [done|]. intros userId. unfold likeNote, Note_findById, Note_save.
    rewrite (findById_denotes _ _ _ Hd), Hn.
    rewrite valid_set_likes, valid_withDefaults, Hv.
    by destruct (_ && _)%bool.
Qed.

End NoteSequences.

(** ** Creating, copying and showing notes *)

Section CreateCopyShow.

Variable uploadBase64 : string → option Uploaded.t.

(** X11. What [POST /] answers can be read back: after a 201 answer
    carrying a note, [GET /:id] with the new id (the string of an
    ObjectId) by the same user returns that note, and the default view of
    [GET /] lists it. *)
Theorem created_note_can_be_read_back (userId : string) (body : Req.body) (now : Z)
    (newId : string) (db db' : Db) (res : Response) :
  denotes newId newId →
  createNote uploadBase64 userId body now newId db = (db', res) →
  status res = 201%nat →
  ∃ note,
    json res = JNote (newId, note)
    ∧ getNote userId newId db' = (db', ok (JNote (newId, note)))
    ∧ (newId, note) ∈ docsOf (listNotes userId None None db').2
    ∧ Note.title note ≠ "" ∧ Note.date note = now
    ∧ (∀ id, id ≠ newId → notes db' !! id = notes db !! id).
Proof.
  intros Hid Hrun Hst.
  destruct (createNote_created _ _ _ _ _ _ _ _ Hrun Hst)
    as (out & note & Hout & -> & Hfresh & Hdb' & Hus & Himgs & Hu & Ha & Hd & _).
  exists note. split; [done|].
  assert (notes db' !! newId = Some note) as Hn by (by rewrite Hdb', lookup_insert_eq).
  split; [|split; [|split; [|split]]].
  - unfold getNote.
    by rewrite (proj2 (Note_findOwn_Found newId userId newId db' note)).
  - rewrite listNotes_elem. simpl. split; [done|].
    unfold listFilter, matches, holds. simpl.
    rewrite Hu, Ha, Hd. by rewrite bool_decide_eq_true_2.
  - revert Hrun. unfold createNote. rewrite Hout.
    destruct (Note_saveNew _ _ _) eqn:Hsave; [|by intros [= _ ?]].
    apply Note_saveNew_Some in Hsave as (Hvalid & _ & _).
    intros [= _ <-]. unfold Note.valid in Hvalid.
    apply andb_true_iff in Hvalid as [Ht _]. by apply bool_decide_eq_true in Ht.
  - revert Hrun. unfold createNote. rewrite Hout.
    destruct (Note_saveNew _ _ _); by intros [= _ <-].
  - intros id Hne. rewrite Hdb'. by apply lookup_insert_ne.
Qed.

(** X12. [POST /:id/duplicate] copies and does not touch: after a 201
    answer the original is stored exactly as before, and the copy carries
    the original's title followed by " (Copy)" and its content, colour and
    images, but not its pin flag or likes, and belongs to the requester.
    A friend of the owner — the owner being in the requester's friends
    list — is served for a private note too. *)
Theorem duplicate_copies_and_keeps_the_original (userId path : string) (now : Z)
    (newId : string) (db : Db) :
  (∀ db' res,
     duplicateNote userId path now newId db = (db', res) →
     status res = 201%nat →
     ∃ noteId original copy,
       denotes path noteId
       ∧ notes db !! noteId = Some original
       ∧ notes db' !! noteId = Some original
       ∧ notes db' !! newId = Some copy
       ∧ noteId ≠ newId
       ∧ Note.title copy = Note.title original ++ " (Copy)"
       ∧ Note.content copy = Note.content original
       ∧ Note.color copy = Note.color original
       ∧ Note.images copy = Note.images original
       ∧ Note.date copy = now
       ∧ Note.userId copy = userId
       ∧ Note.isPinned copy = false ∧ Note.likes copy = []
       ∧ (∀ id, id ≠ newId → notes db' !! id = notes db !! id))
  ∧ (∀ noteId original noteOwner currentUser,
       denotes path noteId →
       notes db !! noteId = Some original →
       users db !! Note.userId original = Some noteOwner →
       users db !! userId = Some currentUser →
       Note.userId original ∈ User.friends currentUser →
       forallb Image.valid (Note.images original) = true →
       notes db !! newId = None →
       status (duplicateNote userId path now newId db).2 = 201%nat).
Proof.
  clear uploadBase64.
  split.
  - intros db' res Hrun Hst.
    destruct (duplicateNote_created _ _ _ _ _ _ _ Hrun Hst)
      as (noteId & original & copy & Hd & Hn & _ & Hfresh & Hdb' & _ & Ht & Hc & Hcol
          & Hi & Hdate & Hu & Hpin & _ & _ & _ & Hl & _).
    exists noteId, original, copy.
    assert (noteId ≠ newId) as Hne by congruence.
    rewrite Hdb', lookup_insert_eq, lookup_insert_ne by done.
    split_and!; try done. intros id Hid. by apply lookup_insert_ne.
  - intros noteId original noteOwner currentUser Hd Hn Ho Hc Hfriend Hvalid Hfresh.
    unfold duplicateNote, Note_findById.
    rewrite (findById_denotes _ _ _ Hd), Hn, Ho, Hc.
    rewrite (proj2 (some_eq_elem _ _) Hfriend).
    match goal with
    | |- context [Note_saveNew newId ?n db] => set (copy := n)
    end.
    assert (Note_saveNew newId copy db
            = Some (withNotes (<[newId := copy]> (notes db)) db)) as ->.
    { apply Note_saveNew_Some. split; [|done].
      unfold Note.valid. subst copy. simpl. rewrite Hvalid, andb_true_r.
      apply bool_decide_eq_true. by destruct (Note.title original). }
    by destruct (_ && _)%bool.
Qed.

Lemma userNotes_answer currentUserId targetUserId db views :
  (userNotes currentUserId targetUserId db).2 = ok (JUserNotes views) →
  views = withLikeInfo currentUserId (bool_decide (currentUserId = targetUserId))
          <$> sortNotes (Note_find
                (Filter.mk (Some targetUserId) (Some (Ne true)) (Some (Ne true))
                   (if bool_decide (currentUserId = targetUserId)
                    then None else Some (Is true))) db).
Proof.
  clear uploadBase64.
  unfold userNotes.
  destruct (users db !! currentUserId); [|by destruct (User_findById _ _)].
  destruct (User_findById targetUserId db); [discriminate..|].
  destruct (_ && _)%bool; [discriminate|].
  destruct (_ && _)%bool; [discriminate|].
  by intros [= <-].
Qed.

(** X13. What [GET /user/:userId] shows.  Whenever it answers with a list,
    the list holds exactly the stored notes whose [userId] is the id in
    the path and that are neither trashed nor archived and — unless the
    requester is the target — have [isPublic] stored as true (a note whose
    [isPublic] has been unset is not among them); each entry reports the
    note's number of likes and whether the requester is among them. *)
Theorem user_listing_shows_exactly_the_visible_notes (currentUserId targetUserId : string)
    (db : Db) (views : list NoteView.t) :
  (userNotes currentUserId targetUserId db).2 = ok (JUserNotes views) →
  (∀ id n,
     notes db !! id = Some n → Note.userId n = targetUserId →
     Note.isDeleted n = false → Note.isArchived n = false →
     currentUserId = targetUserId ∨ Note.isPublic n = Some true →
     withLikeInfo currentUserId (bool_decide (currentUserId = targetUserId)) (id, n)
     ∈ views)
  ∧ (∀ v, v ∈ views →
       ∃ n, notes db !! NoteView._id v = Some n
            ∧ Note.userId n = targetUserId
            ∧ Note.isDeleted n = false ∧ Note.isArchived n = false
            ∧ (currentUserId ≠ targetUserId → Note.isPublic n = Some true)
            ∧ NoteView.title v = Note.title n ∧ NoteView.content v = Note.content n
            ∧ NoteView.isPublic v = Note.readIsPublic n
            ∧ NoteView.likesCount v = length (Note.likes n)
            ∧ (NoteView.isLiked v = true ↔ currentUserId ∈ Note.likes n)
            ∧ (NoteView.isOwn v = true ↔ currentUserId = targetUserId)).
Proof.
  clear uploadBase64.
  intros Hrun. apply userNotes_answer in Hrun.
  set (isOwn := bool_decide (currentUserId = targetUserId)) in *.
  set (f := Filter.mk (Some targetUserId) (Some (Ne true)) (Some (Ne true))
              (if isOwn then None else Some (Is true))) in *.
  assert (Hf : ∀ n, matches f n = true
                    ↔ Note.userId n = targetUserId
                      ∧ Note.isDeleted n = false ∧ Note.isArchived n = false
                      ∧ (currentUserId = targetUserId ∨ Note.isPublic n = Some true)).
  { intros n. unfold matches, holds, f, isOwn. simpl.
    destruct (Note.isDeleted n), (Note.isArchived n), (Note.isPublic n) as [[]|];
      repeat case_bool_decide; simpl; intuition congruence. }
  assert (Hin : ∀ id n, (id, n) ∈ sortNotes (Note_find f db)
                        ↔ notes db !! id = Some n ∧ matches f n = true).
  { intros id n. rewrite sortNotes_elem, Note_find_elem. simpl.
    by rewrite Is_true_true. }
  subst views. split.
  - intros id n Hn Hu Hdel Harch Hpub.
    apply list_elem_of_fmap_2. apply Hin. split; [done|]. by apply Hf.
  - intros v Hv. apply list_elem_of_fmap in Hv as ([id n] & -> & Hd).
    apply Hin in Hd as [Hn Hm]. apply Hf in Hm as (Hu & Hdel & Harch & Hpub).
    exists n. simpl. split; [done|]. repeat split; try done.
    + intros Hne. by destruct Hpub.
    + apply some_eq_elem.
    + apply some_eq_elem.
    + apply bool_decide_eq_true.
    + by apply bool_decide_eq_true.
Qed.

End CreateCopyShow.

(** ** The listing of [GET /] *)

Section OwnListing.

(** X28. [GET /] is private and shows each note once: whatever the query
    string, the answer is 200, every listed document is a stored note of
    the requester, and no id is listed twice. *)
Theorem listing_shows_own_notes_once (userId : string) (archived deleted : option string)
    (db : Db) :
  status (listNotes userId archived deleted db).2 = 200%nat
  ∧ (listNotes userId archived deleted db).1 = db
  ∧ NoDup (docsOf (listNotes userId archived deleted db).2).*1
  ∧ ∀ id n, (id, n) ∈ docsOf (listNotes userId archived deleted db).2 →
            notes db !! id = Some n ∧ Note.userId n = userId.
Proof.
  split_and!; [done|done| |].
  - change (docsOf (listNotes userId archived deleted db).2)
      with (sortNotes (Note_find (listFilter userId archived deleted) db)).
    unfold sortNotes. rewrite merge_sort_Permutation.
    unfold Note_find.
    apply (sublist_NoDup _ (map_to_list (notes db)).*1);
      [apply NoDup_fst_map_to_list|].
    apply fmap_sublist, sublist_filter.
  - intros id n Hin. apply listNotes_elem in Hin as [Hn Hm]. simpl in *.
    split; [done|].
    unfold listFilter, matches in Hm.
    repeat case_bool_decide; simpl in Hm;
      repeat (apply andb_prop_elim in Hm as [Hm _]);
      apply Is_true_true in Hm; by apply bool_decide_eq_true in Hm.
Qed.

End OwnListing.

(** ** Accounts *)

Section Accounts.

Variable toLowerCase : string → string.
Variable generateAccessToken : string → string.
Variable generateRefreshToken : string → string.
Variable bcryptHash : string → string.

(** A 201 answer of [POST /register] determines the stored user. *)
Lemma register_created email password name newId db db' res :
  register toLowerCase generateAccessToken generateRefreshToken bcryptHash
    email password name newId db = (db', res) →
  status res = 201%nat →
  ∃ e p n u,
    email = Some e ∧ password = Some p ∧ name = Some n
    ∧ (6 ≤ jsLength p)%nat
    ∧ users db !! newId = None
    ∧ (∀ id v, users db !! id = Some v → User.email v ≠ User.email u)
    ∧ users db' = <[newId := u]> (users db) ∧ notes db' = notes db
    ∧ res = created (JRegistered "Registration successful" newId
                       (User.email u) (User.name u)
                       (generateAccessToken newId) (generateRefreshToken newId))
    ∧ User.email u = emailSetters toLowerCase (toLowerCase e) ∧ User.name u = trim n
    ∧ User.email u ≠ "" ∧ User.name u ≠ ""
    ∧ User.password u = Some (bcryptHash p)
    ∧ User.refreshToken u = Some (generateRefreshToken newId)
    ∧ User.friends u = [] ∧ User.friendRequests u = []
    ∧ User.sentFriendRequests u = []
    ∧ User.isPrivate u = false ∧ User.authProvider u = User.Email.
Proof.
  unfold register.
  destruct (_ || _)%bool eqn:Hguard; [intros [= <- <-]; done|].
  apply orb_false_iff in Hguard as [Hguard Hn].
  apply orb_false_iff in Hguard as [He Hp].
  destruct email as [e|]; [|done]. destruct password as [p|]; [|done].
  destruct name as [n|]; [|done]. simpl.
  case_bool_decide as Hlen; [intros [= <- <-]; done|].
  destruct (User_findOneByEmail toLowerCase (toLowerCase e) db) eqn:Hfind;
    [intros [= <- <-]; done|].
  destruct (User_saveNew _ _ _ _) as [db1|] eqn:Hsave; [|intros [= <- <-]; done].
  intros [= <- <-] _. revert Hsave. unfold User_saveNew.
  destruct (User.valid _) eqn:Hvalid; [|done]. simpl.
  case_bool_decide as Hfresh; [|done]. simpl.
  destruct (forallb _ _) eqn:Hfree; [|done]. intros [= <-].
  unfold User.valid in Hvalid. simpl in Hvalid.
  apply andb_true_iff in Hvalid as [Hvalid _].
  apply andb_true_iff in Hvalid as [Hvalid _].
  apply andb_true_iff in Hvalid as [Hve Hvn].
  apply bool_decide_eq_true in Hve, Hvn.
  assert (p ≠ "") as Hpne by (destruct p; [simpl in Hlen; lia|done]).
  eexists e, p, n, _. split; [done|]. split; [done|]. split; [done|].
  split; [lia|]. split; [done|]. split; [|split; [reflexivity|]].
  - intros id v Hv. simpl.
    by apply (proj1 (User_findOneByEmail_None toLowerCase _ _) Hfind id v).
  - simpl. rewrite (bool_decide_eq_false_2 (p = "")) by done. done.
Qed.

Lemma UniqueEmails_insert db id u :
  UniqueEmails db →
  (∀ i v, users db !! i = Some v → User.email v ≠ User.email u) →
  UniqueEmails (User_put id u db).
Proof.
  intros Huniq Hfree i j ui uj Hi Hj He.
  destruct (decide (i = j)) as [|Hij]; [done|].
  destruct (decide (id = i)) as [<-|Hi'].
  - rewrite User_put_lookup in Hi. injection Hi as <-.
    rewrite User_put_lookup_ne in Hj by done. by destruct (Hfree j uj Hj).
  - rewrite User_put_lookup_ne in Hi by done.
    destruct (decide (id = j)) as [<-|Hj'].
    + rewrite User_put_lookup in Hj. injection Hj as <-. by destruct (Hfree i ui Hi).
    + rewrite User_put_lookup_ne in Hj by done. by apply (Huniq i j ui uj).
Qed.

Lemma uniqueEmailsb_sound db : uniqueEmailsb db = true → UniqueEmails db.
Proof.
  unfold uniqueEmailsb. intros Hnd%bool_decide_eq_true.
  intros i j ui uj Hi Hj He.
  apply elem_of_map_to_list in Hi, Hj.
  apply list_elem_of_lookup in Hi as [a Ha]. apply list_elem_of_lookup in Hj as [b Hb].
  assert (a = b) as <-.
  { apply (NoDup_lookup _ a b (User.email ui) Hnd).
    - by rewrite list_lookup_fmap, Ha.
    - by rewrite list_lookup_fmap, Hb, He. }
  congruence.
Qed.

(** X14. Registration keeps email addresses unique: if no two stored users
    share an address, none do after [POST /register], whatever the request
    and whatever the answer. *)
Theorem register_keeps_emails_unique (email password name : option string)
    (newId : string) (db : Db) :
  UniqueEmails db →
  UniqueEmails (register toLowerCase generateAccessToken generateRefreshToken bcryptHash
                  email password name newId db).1.
Proof.
  intros Huniq.
  destruct (register _ _ _ _ email password name newId db) as [db' res] eqn:Hrun.
  destruct (decide (status res = 201%nat)) as [Hst|Hst].
  - destruct (register_created _ _ _ _ _ _ _ Hrun Hst)
      as (e & p & n & u & _ & _ & _ & _ & _ & Hfree & Hdb' & Hnotes & _).
    assert (db' = User_put newId u db) as ->.
    { destruct db', db. unfold User_put, withUsers. simpl in *. by subst. }
    by apply UniqueEmails_insert.
  - assert (db' = db) as ->; [|done].
    revert Hrun. unfold register.
    repeat case_match; intros [= <- <-]; done.
Qed.

(** X15. What [POST /register] stores.  After a 201 answer there is
    exactly one new user document, under the new id: its password is the
    bcrypt hash of the submitted one, its refresh token is the one handed
    out in the answer, its three relationship lists are empty, the profile
    is not private and the provider is "email"; every other user and all
    notes are untouched. *)
Theorem register_stores_a_fresh_hashed_account (email password name : option string)
    (newId : string) (db db' : Db) (res : Response) :
  register toLowerCase generateAccessToken generateRefreshToken bcryptHash
    email password name newId db = (db', res) →
  status res = 201%nat →
  ∃ p u accessToken refreshToken,
    password = Some p
    ∧ users db !! newId = None ∧ users db' !! newId = Some u
    ∧ (∀ id, id ≠ newId → users db' !! id = users db !! id)
    ∧ notes db' = notes db
    ∧ json res = JRegistered "Registration successful" newId
                   (User.email u) (User.name u) accessToken refreshToken
    ∧ User.password u = Some (bcryptHash p)
    ∧ User.refreshToken u = Some refreshToken
    ∧ User.friends u = [] ∧ User.friendRequests u = []
    ∧ User.sentFriendRequests u = []
    ∧ User.isPrivate u = false ∧ User.authProvider u = User.Email.
Proof.
  intros Hrun Hst.
  destruct (register_created _ _ _ _ _ _ _ Hrun Hst)
    as (e & p & n & u & _ & -> & _ & _ & Hfresh & _ & Hdb' & Hnotes & -> & _ & _ & _ & _
        & Hpw & Htok & Hf & Hfr & Hs & Hpriv & Hprov).
  exists p, u, (generateAccessToken newId), (generateRefreshToken newId).
  rewrite Hdb', lookup_insert_eq. repeat split; try done.
  intros id Hne. by apply lookup_insert_ne.
Qed.

(** X16. An address can be registered once.  After a 201 answer, a further
    registration that passes the field checks (the password having at
    least 6 UTF-16 code units) and whose email, lower-cased and trimmed as
    the lookup does, is the address the first answer reported is refused
    with 400 "Email already registered", whatever the letter case and
    padding it is typed with. *)
Theorem registered_email_cannot_be_registered_again (email password name : option string)
    (newId : string) (db db' : Db) (message id address name' access token : string) :
  register toLowerCase generateAccessToken generateRefreshToken bcryptHash
    email password name newId db
  = (db', created (JRegistered message id address name' access token)) →
  ∀ email2 password2 name2 newId2,
    email2 ≠ "" → name2 ≠ "" → (6 ≤ jsLength password2)%nat →
    emailSetters toLowerCase (toLowerCase email2) = address →
    register toLowerCase generateAccessToken generateRefreshToken bcryptHash
      (Some email2) (Some password2) (Some name2) newId2 db'
    = (db', fail 400 "Email already registered").
Proof.
  intros Hrun email2 password2 name2 newId2 He Hn Hp Haddr.
  destruct (register_created _ _ _ _ _ _ _ Hrun eq_refl)
    as (e & p & n & u & _ & _ & _ & _ & _ & _ & Hdb' & _ & Hres & _).
  injection Hres as _ _ -> _ _ _.
  assert (is_Some (User_findOneByEmail toLowerCase (toLowerCase email2) db')) as [d Hd].
  { apply (User_findOneByEmail_taken _ _ _ newId u); [|done].
    by rewrite Hdb', lookup_insert_eq. }
  rewrite (register_checked toLowerCase _ _ _ _ _ _ _ _ He Hn Hp). by rewrite Hd.
Qed.

End Accounts.

(** ** Sessions *)

Section Sessions.

Variable toLowerCase : string → string.
Variable generateAccessToken : string → string.
Variable generateRefreshToken : string → string.
Variable verifyRefreshToken : string → option Decoded.t.
Variable bcryptCompare : string → option string → option bool.

Lemma valid_set_token t u : User.valid (set_token t u) = User.valid u.
Proof. done. Qed.

(** What [login] comes to once both fields are present. *)
Lemma login_checked (email password : string) (db : Db) :
  email ≠ "" → password ≠ "" →
  login toLowerCase generateAccessToken generateRefreshToken bcryptCompare
    (Some email) (Some password) db
  = match User_findOneByEmail toLowerCase (toLowerCase email) db with
    | None => (db, refuse 401 "Invalid email or password")
    | Some (id, user) =>
        match bcryptCompare password (User.password user) with
        | None => (db, refuse 500 "Failed to login")
        | Some false => (db, refuse 401 "Invalid email or password")
        | Some true =>
            if User.valid user then
              (User_put id (set_token (Some (generateRefreshToken id)) user) db,
               reply (ASession "Login successful" id (User.email user)
                        (User.name user) (generateAccessToken id)
                        (generateRefreshToken id)))
            else (db, refuse 500 "Failed to login")
        end
    end.
Proof.
  intros He Hp. unfold login, truthy, comparePassword, User_saveLoaded.
  rewrite !bool_decide_eq_true_2 by done. simpl.
  destruct (User_findOneByEmail _ _ _) as [[id u]|]; [|done].
  destruct (bcryptCompare _ _) as [[]|]; try done.
  rewrite valid_set_token. by destruct (User.valid u).
Qed.

(** X17. [POST /login] gives nothing away and writes only on success.  The
    address looked up is the one sent, lower-cased and trimmed.  An unknown
    address and a wrong password get the same answer, 401
    "Invalid email or password"; every answer other than 200 leaves the
    database as it is; a 200 answer belongs to a stored user with that
    address whose password matched, and the only thing written is that
    user's refresh token, the one handed out in the answer; and a stored,
    schema-valid user whose password matches does get 200. *)
Theorem login_is_uniform_and_writes_the_token (email password : string) (db : Db) :
  email ≠ "" → password ≠ "" →
  let address := emailSetters toLowerCase (toLowerCase email) in
  (User_findOneByEmail toLowerCase (toLowerCase email) db = None →
     login toLowerCase generateAccessToken generateRefreshToken bcryptCompare
       (Some email) (Some password) db
     = (db, refuse 401 "Invalid email or password"))
  ∧ (∀ id u, User_findOneByEmail toLowerCase (toLowerCase email) db = Some (id, u) →
             bcryptCompare password (User.password u) = Some false →
     login toLowerCase generateAccessToken generateRefreshToken bcryptCompare
       (Some email) (Some password) db
     = (db, refuse 401 "Invalid email or password"))
  ∧ (∀ db' r,
       login toLowerCase generateAccessToken generateRefreshToken bcryptCompare
         (Some email) (Some password) db = (db', r) →
       (code r ≠ 200%nat → db' = db)
       ∧ (code r = 200%nat →
          ∃ id u u' accessToken refreshToken,
            users db !! id = Some u ∧ User.email u = address
            ∧ bcryptCompare password (User.password u) = Some true
            ∧ answer r = ASession "Login successful" id (User.email u) (User.name u)
                           accessToken refreshToken
            ∧ users db' = <[id := u']> (users db) ∧ notes db' = notes db
            ∧ u' = set_token (Some refreshToken) u
            ∧ User.refreshToken u' = Some refreshToken
            ∧ User.password u' = User.password u
            ∧ User.friends u' = User.friends u))
  ∧ (∀ id u, User_findOneByEmail toLowerCase (toLowerCase email) db = Some (id, u) →
             bcryptCompare password (User.password u) = Some true →
             User.valid u = true →
     code (login toLowerCase generateAccessToken generateRefreshToken bcryptCompare
             (Some email) (Some password) db).2 = 200%nat).
Proof.
  intros He Hp address.
  rewrite (login_checked _ _ _ He Hp). split; [by intros ->|]. split; [|split].
  - intros id u -> ->. done.
  - intros db' r.
    destruct (User_findOneByEmail toLowerCase (toLowerCase email) db) as [[id u]|] eqn:Hf;
      [|intros [= <- <-]; done].
    apply User_findOneByEmail_Some in Hf as [Hu Hemail].
    destruct (bcryptCompare password (User.password u)) as [[]|] eqn:Hc;
      [|intros [= <- <-]; done..].
    destruct (User.valid u); intros [= <- <-]; (split; [done|]); [|done].
    intros _. eexists id, u, _, _, _. repeat split; done.
  - intros id u -> -> ->. done.
Qed.

Lemma refresh_accepted refreshToken db db' r :
  refresh generateAccessToken generateRefreshToken verifyRefreshToken
    refreshToken db = (db', r) →
  code r = 200%nat →
  ∃ t decoded user,
    refreshToken = Some t ∧ t ≠ ""
    ∧ verifyRefreshToken t = Some decoded ∧ Decoded.type decoded = "refresh"
    ∧ users db !! Decoded.userId decoded = Some user
    ∧ User.refreshToken user = Some t
    ∧ User.valid user = true
    ∧ db' = User_put (Decoded.userId decoded)
              (set_token (Some (generateRefreshToken (Decoded.userId decoded))) user) db
    ∧ r = reply (ATokens (generateAccessToken (Decoded.userId decoded))
                         (generateRefreshToken (Decoded.userId decoded))).
Proof.
  clear toLowerCase bcryptCompare.
  unfold refresh, User_saveLoaded.
  destruct (negb (truthy refreshToken)) eqn:Ht; [intros [= <- <-]; done|].
  destruct refreshToken as [t|]; [|done]. simpl in *.
  apply negb_false_iff, bool_decide_eq_true in Ht.
  destruct (verifyRefreshToken t) as [decoded|] eqn:Hv; [|intros [= <- <-]; done].
  case_bool_decide as Hty; [intros [= <- <-]; done|].
  destruct (users db !! Decoded.userId decoded) as [user|] eqn:Hu;
    [|intros [= <- <-]; done].
  case_bool_decide as Htok; [intros [= <- <-]; done|].
  rewrite valid_set_token. destruct (User.valid user) eqn:Hvalid;
    [|intros [= <- <-]; done].
  intros [= <- <-] _. exists t, decoded, user.
  by split_and!.
Qed.

End Sessions.

Section TokenRotation.

Variable verifyRefreshToken : string → option Decoded.t.

(** X18. Refresh tokens rotate.  When [POST /refresh] answers 200 the
    stored token becomes the new one it hands out, so, the new token
    differing from the old, presenting the old token again is refused with
    401 "Invalid refresh token" and changes nothing — whenever the second
    call is made; and should the token no longer verify by then, the
    second call is refused with 401 all the same. *)
Theorem refresh_token_is_single_use (access1 refresh1 access2 refresh2 : string → string)
    (token : string) (db db' : Db) (r : AuthReply) :
  refresh access1 refresh1 verifyRefreshToken (Some token) db = (db', r) →
  code r = 200%nat →
  ∃ userId newToken,
    answer r = ATokens (access1 userId) newToken
    ∧ (∃ u', users db' !! userId = Some u' ∧ User.refreshToken u' = Some newToken)
    ∧ (newToken ≠ token →
       refresh access2 refresh2 verifyRefreshToken (Some token) db'
       = (db', refuse 401 "Invalid refresh token")
       ∧ ∀ verifyLater,
           verifyLater token = None ∨ verifyLater token = verifyRefreshToken token →
           (refresh access2 refresh2 verifyLater (Some token) db').1 = db'
           ∧ code (refresh access2 refresh2 verifyLater (Some token) db').2 = 401%nat).
Proof.
  intros Hrun Hok.
  destruct (refresh_accepted _ _ _ _ _ _ _ Hrun Hok)
    as (t & decoded & user & [= <-] & Hne & Hv & Hty & Hu & Htok & Hvalid & -> & ->).
  exists (Decoded.userId decoded), (refresh1 (Decoded.userId decoded)).
  split; [done|]. split.
  - eexists. rewrite User_put_lookup. done.
  - intros Hnew.
    assert (Hagain : refresh access2 refresh2 verifyRefreshToken (Some token)
                       (User_put (Decoded.userId decoded)
                          (set_token (Some (refresh1 (Decoded.userId decoded))) user) db)
                     = (User_put (Decoded.userId decoded)
                          (set_token (Some (refresh1 (Decoded.userId decoded))) user) db,
                        refuse 401 "Invalid refresh token")).
    { unfold refresh, truthy.
      rewrite bool_decide_eq_true_2 by done. simpl. rewrite Hv.
      rewrite (bool_decide_eq_false_2 (Decoded.type decoded ≠ "refresh")) by tauto.
      rewrite ?User_put_lookup, ?lookup_insert_eq. simpl.
      rewrite bool_decide_eq_true_2 by congruence. done. }
    split; [exact Hagain|].
    intros verifyLater [Hnone|Hsame].
    + unfold refresh, truthy. rewrite bool_decide_eq_true_2 by done. simpl.
      rewrite Hnone. done.
    + assert (refresh access2 refresh2 verifyLater (Some token)
                (User_put (Decoded.userId decoded)
                   (set_token (Some (refresh1 (Decoded.userId decoded))) user) db)
              = refresh access2 refresh2 verifyRefreshToken (Some token)
                  (User_put (Decoded.userId decoded)
                     (set_token (Some (refresh1 (Decoded.userId decoded))) user) db)) as ->.
      { unfold refresh. simpl. by rewrite Hsame. }
      rewrite Hagain. done.
Qed.

(** X19. The token handed out by login opens one refresh.  After a 200
    answer of [POST /login], presenting its refresh token — which
    [verifyRefreshToken] decodes to a refresh token of that user — to
    [POST /refresh] is answered 200 with new tokens for the same user. *)
Theorem login_token_is_accepted_by_refresh (toLowerCase : string → string)
    (access1 refresh1 access2 refresh2 : string → string)
    (bcryptCompare : string → option string → option bool)
    (email password : option string) (db db' : Db)
    (message id address name accessToken refreshToken : string) :
  login toLowerCase access1 refresh1 bcryptCompare email password db
  = (db', reply (ASession message id address name accessToken refreshToken)) →
  refreshToken ≠ "" →
  verifyRefreshToken refreshToken = Some (Decoded.mk "refresh" id) →
  ∃ db'',
    refresh access2 refresh2 verifyRefreshToken (Some refreshToken) db'
    = (db'', reply (ATokens (access2 id) (refresh2 id)))
    ∧ ∃ u'', users db'' !! id = Some u'' ∧ User.refreshToken u'' = Some (refresh2 id).
Proof.
  unfold login, User_saveLoaded. destruct (_ || _)%bool; [intros [=]|].
  destruct (User_findOneByEmail _ _ db) as [[id' u]|]; [|intros [=]].
  destruct (comparePassword _ _ _) as [[]|]; try (intros [=]; fail).
  destruct (User.valid (set_token _ u)) eqn:Hvalid; [|intros [=]].
  intros [= <- _ <- _ _ _ <-] Hne Hv.
  unfold refresh, truthy, User_saveLoaded.
  rewrite bool_decide_eq_true_2 by done. simpl. rewrite Hv. simpl.
  rewrite ?User_put_lookup, ?lookup_insert_eq. simpl.
  rewrite bool_decide_eq_false_2 by (intros H; by apply H).
  rewrite valid_set_token in Hvalid |- *. rewrite valid_set_token, Hvalid.
  eexists. split; [reflexivity|]. eexists. rewrite User_put_lookup. done.
Qed.

(** X20. Logging out ends the session.  For a user whose stored document
    passes schema validation (or who is not stored), [POST /logout]
    answers 200 and clears the stored refresh token, leaving the rest of
    the user document and everything else alone; afterwards no token that
    decodes to this user is accepted by [POST /refresh]: the answer is not
    200 and nothing is written.  For a stored document that does not pass
    validation the answer is 500 and nothing is written. *)
Theorem logout_invalidates_refresh_tokens (access refresh' : string → string)
    (userId : string) (db : Db) :
  ((∀ u, users db !! userId = Some u → User.valid u = true) →
   ∃ db',
     logout userId db = (db', reply (AMessage "Logged out successfully"))
     ∧ notes db' = notes db
     ∧ (∀ id, id ≠ userId → users db' !! id = users db !! id)
     ∧ (∀ u, users db !! userId = Some u →
             users db' !! userId = Some (set_token None u))
     ∧ (∀ token decoded,
          verifyRefreshToken token = Some decoded →
          Decoded.userId decoded = userId →
          (refresh access refresh' verifyRefreshToken (Some token) db').1 = db'
          ∧ code (refresh access refresh' verifyRefreshToken (Some token) db').2 ≠ 200%nat))
  ∧ (∀ u, users db !! userId = Some u → User.valid u = false →
          logout userId db = (db, refuse 500 "Failed to logout")).
Proof.
  unfold logout, User_saveLoaded. split.
  - intros Hvalid. destruct (users db !! userId) as [u|] eqn:Hu.
    + rewrite valid_set_token, (Hvalid u eq_refl).
      eexists. split; [reflexivity|]. split; [done|]. split; [|split].
      * intros id Hne. by apply User_put_lookup_ne.
      * intros ? [= <-]. apply User_put_lookup.
      * intros token decoded Hv <-. unfold refresh.
        destruct (negb (truthy (Some token))); [done|]. simpl. rewrite Hv.
        case_bool_decide; [done|]. rewrite ?User_put_lookup, ?lookup_insert_eq. done.
    + exists db. split; [done|]. split; [done|]. split; [done|]. split; [done|].
      intros token decoded Hv <-. unfold refresh.
      destruct (negb (truthy (Some token))); [done|]. simpl. rewrite Hv.
      case_bool_decide; [done|]. rewrite Hu. done.
  - intros u -> Hv. by rewrite valid_set_token, Hv.
Qed.

End TokenRotation.

(** ** Profiles *)

Section Profiles.

Lemma Symmetric_put_same_friends db id u u' :
  Symmetric db → users db !! id = Some u →
  User.friends u' = User.friends u →
  Symmetric (User_put id u' db).
Proof.
  intros Hsym Hu Hf a b da db_ Ha Hb.
  destruct (decide (id = a)) as [<-|Hna]; destruct (decide (id = b)) as [<-|Hnb].
  - rewrite User_put_lookup in Ha, Hb. by simplify_eq.
  - rewrite User_put_lookup in Ha. rewrite User_put_lookup_ne in Hb by done.
    injection Ha as <-. rewrite Hf. by apply Hsym.
  - rewrite User_put_lookup in Hb. rewrite User_put_lookup_ne in Ha by done.
    injection Hb as <-. rewrite Hf. by apply Hsym.
  - rewrite User_put_lookup_ne in Ha, Hb by done. by apply Hsym.
Qed.

(** X21. [PUT /profile] writes the profile paths and nothing else.  After
    a 200 answer the user's email, password, refresh token and the three
    relationship lists are as before, a submitted name is stored trimmed
    and is not blank, a submitted bio is stored cut to its first 200
    UTF-16 code units; the stored user is schema-valid and symmetric
    friendship stays symmetric.  A blank name is answered 500, every
    answer other than 200 leaves the database as it is, and a schema-valid
    user who sends no blank name is answered 200. *)
Theorem profile_update_touches_only_the_profile (userId : string)
    (name bio avatar : option string) (isPrivate : option bool)
    (db db' : Db) (r : AuthReply) :
  updateProfile userId name bio avatar isPrivate db = (db', r) →
  (code r = 200%nat →
     ∃ u u',
       users db !! userId = Some u
       ∧ users db' = <[userId := u']> (users db) ∧ notes db' = notes db
       ∧ User.email u' = User.email u ∧ User.password u' = User.password u
       ∧ User.refreshToken u' = User.refreshToken u
       ∧ User.friends u' = User.friends u
       ∧ User.friendRequests u' = User.friendRequests u
       ∧ User.sentFriendRequests u' = User.sentFriendRequests u
       ∧ (∀ n, name = Some n → User.name u' = trim n ∧ trim n ≠ "")
       ∧ (∀ b, bio = Some b →
               User.bio u' = substring0 200 b
               ∧ (jsLength (User.bio u') ≤ 200)%nat)
       ∧ User.valid u' = true
       ∧ (Symmetric db → Symmetric db'))
  ∧ (code r ≠ 200%nat → db' = db)
  ∧ (∀ n u, name = Some n → trim n = "" → users db !! userId = Some u →
            r = refuse 500 "Failed to update profile")
  ∧ (∀ u, users db !! userId = Some u → User.valid u = true →
          (∀ n, name = Some n → trim n ≠ "") →
          code r = 200%nat).
Proof.
  unfold updateProfile, User_saveLoaded.
  destruct (users db !! userId) as [u|] eqn:Hu.
  2:{ intros [= <- <-]. split; [done|]. split; [done|]. split; by intros. }
  set (name' := from_option (λ n, trim (trim n)) (User.name u) name).
  set (bio' := from_option (substring0 200) (User.bio u) bio).
  destruct (User.valid _) eqn:Hvalid; intros [= <- <-].
  - split; [|split; [done|split]].
    + intros _. eexists u, _. split; [done|]. split; [reflexivity|].
      simpl. split_and!; try done.
      * intros n ->. subst name'. simpl in *. rewrite trim_idempotent.
        split; [done|].
        unfold User.valid in Hvalid. simpl in Hvalid. rewrite trim_idempotent in Hvalid.
        apply andb_true_iff in Hvalid as [Hv _]. apply andb_true_iff in Hv as [Hv _].
        apply andb_true_iff in Hv as [_ Hn]. by apply bool_decide_eq_true in Hn.
      * intros b ->. subst bio'. simpl. split; [done|]. apply jsLength_substring0.
      * intros Hsym. by apply (Symmetric_put_same_friends db userId u).
    + intros n u0 -> Hblank [= <-]. subst name'. simpl in Hvalid.
      unfold User.valid in Hvalid. simpl in Hvalid.
      rewrite trim_idempotent, Hblank in Hvalid.
      by rewrite andb_false_r in Hvalid.
    + done.
  - split; [done|]. split; [done|]. split; [done|].
    intros u0 [= <-] Hv Hname. exfalso.
    unfold User.valid in Hvalid, Hv. simpl in Hvalid.
    apply andb_true_iff in Hv as [Hv Hb]. apply andb_true_iff in Hv as [Hv Hp].
    apply andb_true_iff in Hv as [He Hn].
    rewrite He, Hp in Hvalid. simpl in Hvalid.
    apply bool_decide_eq_true in Hn, Hb.
    assert (bool_decide (name' ≠ "") = true) as Hn'.
    { apply bool_decide_eq_true. subst name'. destruct name as [n|]; simpl; [|done].
      rewrite trim_idempotent. by apply Hname. }
    assert (bool_decide (jsLength bio' ≤ 200)%nat = true) as Hb'.
    { apply bool_decide_eq_true. subst bio'. destruct bio as [b|]; simpl; [|done].
      apply jsLength_substring0. }
    rewrite Hn', Hb' in Hvalid. done.
Qed.

(** X22. The profile's [canViewNotes] flag tells the truth about the notes
    listing: [GET /users/:userId] reports [canViewNotes = true] exactly
    when [GET /user/:userId] of the notes router answers 200 for the same
    requester and the same path, and the one answers 404, or 500, exactly
    when the other does. *)
Theorem canViewNotes_agrees_with_the_listing (userId targetUserId : string) (db : Db) :
  (∀ p, answer (getUserProfile userId targetUserId db).2 = AProfile p →
        (Profile.canViewNotes p = true
         ↔ status (userNotes userId targetUserId db).2 = 200%nat)
        ∧ (Profile.isOwn p = true ↔ userId = targetUserId))
  ∧ (code (getUserProfile userId targetUserId db).2 = 404%nat
     ↔ status (userNotes userId targetUserId db).2 = 404%nat)
  ∧ (code (getUserProfile userId targetUserId db).2 = 500%nat
     ↔ status (userNotes userId targetUserId db).2 = 500%nat)
  ∧ (getUserProfile userId targetUserId db).1 = db.
Proof.
  unfold getUserProfile, userNotes.
  destruct (users db !! userId) as [cu|];
    [|by destruct (User_findById targetUserId db)].
  destruct (User_findById targetUserId db) as [| |tid tu]; [done..|].
  split_and!;
    [|repeat case_match; simpl; split; intros [=]..|done].
  intros p [= <-]. simpl. split; [|apply bool_decide_eq_true].
  destruct (bool_decide (userId = targetUserId)),
           (some_eq targetUserId (User.friends cu)), (User.isPrivate tu); simpl; done.
Qed.

End Profiles.

(** ** Friend requests in sequence *)

Section FriendSequences.

#[local] Ltac solve_paths :=
  simpl;
  repeat (apply NoDup_cons; split;
          [rewrite ?not_elem_of_cons; repeat split; try discriminate; apply not_elem_of_nil|]);
  apply NoDup_nil; done.

Lemma filter_ne_snoc (x : string) (l : list string) :
  x ∉ l → filter_ne x (l ++ [x]) = l.
Proof.
  intros Hx. unfold filter_ne.
  rewrite filter_app, filter_cons_False, filter_nil, app_nil_r by (intros ?; done).
  by apply filter_ne_absent.
Qed.

Lemma User_put_restore a b ua ub xa xb db :
  users db !! a = Some ua → users db !! b = Some ub → a ≠ b →
  User_put a ua (User_put b ub (User_put b xb (User_put a xa db))) = db.
Proof.
  intros Ha Hb Hne. destruct db as [us ns]. unfold User_put, withUsers. simpl in *.
  f_equal. apply map_eq. intros i.
  destruct (decide (i = a)) as [->|Hia].
  - by rewrite lookup_insert_eq.
  - rewrite lookup_insert_ne by done.
    destruct (decide (i = b)) as [->|Hib].
    + by rewrite lookup_insert_eq.
    + by rewrite !lookup_insert_ne by done.
Qed.

(** When [POST /friends/request/:userId] is served. *)
Lemma sendFriendRequest_sent userId path db db' res :
  sendFriendRequest userId path db = (db', res) →
  status res = 200%nat →
  ∃ targetId cu tu,
    path ≠ userId ∧ denotes path targetId
    ∧ users db !! userId = Some cu ∧ users db !! targetId = Some tu
    ∧ User.valid cu = true ∧ User.valid tu = true
    ∧ (path ∉ User.friends cu) ∧ (path ∉ User.sentFriendRequests cu)
    ∧ res = ok (JMessage "Friend request sent")
    ∧ (userId ≠ targetId →
       db' = User_put targetId
               (User.set_friendRequests (User.friendRequests tu ++ [userId]) tu)
               (User_put userId
                  (User.set_sentFriendRequests
                     (User.sentFriendRequests cu ++ [targetId]) cu) db)).
Proof.
  unfold sendFriendRequest, User_findById.
  case_bool_decide as Hself; [intros [= <- <-]; done|].
  destruct (users db !! userId) as [cu|] eqn:Hc;
    [|destruct (findById _ _); intros [= <- <-]; done].
  destruct (findById (users db) path) as [| |targetId tu] eqn:Hf;
    [intros [= <- <-]; done..|].
  apply findById_Found in Hf as [Hd Ht].
  destruct (some_eq path (User.friends cu)) eqn:Hfr; [intros [= <- <-]; done|].
  destruct (some_eq path (User.sentFriendRequests cu)) eqn:Hs;
    [intros [= <- <-]; done|].
  apply some_eq_not_elem in Hfr, Hs.
  match goal with
  | |- context [saveBoth ?a ?b db] => remember (saveBoth a b db) as sb eqn:Hsb
  end.
  destruct (sb.2) eqn:Hsaved; [|intros [= <- <-]; done].
  rewrite Hsb in Hsaved.
  apply saveBoth_ok_valid in Hsaved as Hv. destruct Hv as [Hvc Hvt]. simpl in Hvc, Hvt.
  intros [= <- <-] _. exists targetId, cu, tu. split_and!; try done.
  intros Hne. rewrite Hsb, saveBoth_distinct; try done; try solve_paths.
  by rewrite Hvc, Hvt.
Qed.

(** X23. Declining undoes a request.  When [u]'s friend request to [v] is
    served and [v] had no earlier request from [u] on file, [v]'s decline
    gives back exactly the database from before the request.  Both ids are
    spelt as the database has them. *)
Theorem decline_undoes_a_request (userId targetUserId : string) (db db' : Db)
    (res : Response) :
  denotes userId userId → denotes targetUserId targetUserId →
  sendFriendRequest userId targetUserId db = (db', res) →
  status res = 200%nat →
  (∀ tu, users db !! targetUserId = Some tu → userId ∉ User.friendRequests tu) →
  declineFriendRequest targetUserId userId db'
  = (db, ok (JMessage "Friend request declined")).
Proof.
  intros Hdu Hdt Hrun Hst Hnone.
  destruct (sendFriendRequest_sent _ _ _ _ _ Hrun Hst)
    as (targetId & cu & tu & Hne & Hd & Hc & Ht & Hvc & Hvt & _ & Hs & _ & Hdb').
  rewrite (denotes_unique _ _ _ Hd Hdt) in *. clear Hd.
  rewrite Hdb' by done. clear Hdb'.
  rewrite (declineFriendRequest_served targetUserId userId userId _
             (User.set_friendRequests (User.friendRequests tu ++ [userId]) tu)
             (User.set_sentFriendRequests
                (User.sentFriendRequests cu ++ [targetUserId]) cu));
    try done.
  - cbn [User.friendRequests User.set_friendRequests
         User.sentFriendRequests User.set_sentFriendRequests].
    rewrite (filter_ne_snoc userId) by (by apply Hnone).
    rewrite (filter_ne_snoc targetUserId) by done.
    assert (User.set_friendRequests (User.friendRequests tu)
              (User.set_friendRequests (User.friendRequests tu ++ [userId]) tu) = tu)
      as -> by (by destruct tu).
    assert (User.set_sentFriendRequests (User.sentFriendRequests cu)
              (User.set_sentFriendRequests (User.sentFriendRequests cu ++ [targetUserId]) cu)
            = cu) as -> by (by destruct cu).
    rewrite User_put_restore by done. done.
  - apply User_put_lookup.
  - rewrite User_put_lookup_ne by done. apply User_put_lookup.
Qed.

(** X24. Guards of the friend request.  [POST /friends/request/:userId] is
    served exactly when the path is not the requester's id as a string,
    it casts to the id of a stored user, the path string is neither in the
    requester's friends list nor in their outgoing requests, and both
    documents pass schema validation.  An answer 400 or 404 writes
    nothing.  A request to one's own id as stored is refused with 400,
    and sending the same request a second time, the id spelt as the
    database has it, is refused with 400 "Friend request already sent". *)
Theorem friend_request_guards (userId targetUserId : string) (db : Db) :
  (status (sendFriendRequest userId targetUserId db).2 = 200%nat
   ↔ targetUserId ≠ userId
     ∧ ∃ targetId cu tu,
         denotes targetUserId targetId
         ∧ users db !! userId = Some cu ∧ users db !! targetId = Some tu
         ∧ User.valid cu = true ∧ User.valid tu = true
         ∧ (targetUserId ∉ User.friends cu)
         ∧ (targetUserId ∉ User.sentFriendRequests cu))
  ∧ (status (sendFriendRequest userId targetUserId db).2 = 400%nat
     ∨ status (sendFriendRequest userId targetUserId db).2 = 404%nat →
     (sendFriendRequest userId targetUserId db).1 = db)
  ∧ sendFriendRequest userId userId db
    = (db, fail 400 "Cannot send friend request to yourself")
  ∧ (denotes targetUserId targetUserId →
     status (sendFriendRequest userId targetUserId db).2 = 200%nat →
     sendFriendRequest userId targetUserId (sendFriendRequest userId targetUserId db).1
     = ((sendFriendRequest userId targetUserId db).1,
        fail 400 "Friend request already sent")).
Proof.
  split_and!.
  - split.
    + intros Hst.
      destruct (sendFriendRequest userId targetUserId db) as [db' res] eqn:Hrun.
      destruct (sendFriendRequest_sent _ _ _ _ _ Hrun Hst)
        as (targetId & cu & tu & Hne & Hd & Hc & Ht & Hvc & Hvt & Hf & Hs & _).
      split; [done|]. by exists targetId, cu, tu.
    + intros (Hne & targetId & cu & tu & Hd & Hc & Ht & Hvc & Hvt & Hf & Hs).
      destruct (decide (userId = targetId)) as [<-|Hdiff].
      * apply some_eq_not_elem in Hf, Hs.
        unfold sendFriendRequest, User_findById.
        rewrite bool_decide_eq_false_2 by done.
        rewrite Hc, (findById_denotes _ _ _ Hd), Ht, Hf, Hs.
        assert (tu = cu) as -> by congruence.
        unfold saveBoth, User_save. cbn [fst snd].
        rewrite !valid_applyChanges, Hvc. cbn. by rewrite andb_false_r.
      * by rewrite (sendFriendRequest_served userId targetUserId targetId db cu tu).
  - unfold sendFriendRequest.
    repeat case_match; simpl; try done; intros [[=]|[=]].
  - unfold sendFriendRequest. by rewrite bool_decide_eq_true_2.
  - intros Hdt Hst.
    destruct (sendFriendRequest userId targetUserId db) as [db' res] eqn:Hrun.
    destruct (sendFriendRequest_sent _ _ _ _ _ Hrun Hst)
      as (targetId & cu & tu & Hne & Hd & Hc & Ht & _ & _ & Hf & Hs & _ & Hdb').
    rewrite (denotes_unique _ _ _ Hd Hdt) in *. clear Hd.
    rewrite Hdb' by done. clear Hdb'.
    cbn [fst]. unfold sendFriendRequest, User_findById.
    rewrite bool_decide_eq_false_2 by done.
    rewrite (findById_denotes _ _ _ Hdt).
    rewrite User_put_lookup, User_put_lookup_ne, User_put_lookup by done.
    cbn [User.friends User.set_sentFriendRequests User.sentFriendRequests].
    rewrite (proj2 (some_eq_not_elem _ _) Hf).
    assert (some_eq targetUserId (User.sentFriendRequests cu ++ [targetUserId]) = true)
      as ->; [|done].
    apply some_eq_elem. rewrite elem_of_app, list_elem_of_singleton. tauto.
Qed.

(** When [POST /friends/accept/:userId] between two different stored
    users is served. *)
Lemma acceptFriendRequest_accepted userId path requesterId db db1 res cu ru :
  denotes path requesterId → userId ≠ requesterId →
  users db !! userId = Some cu → users db !! requesterId = Some ru →
  acceptFriendRequest userId path db = (db1, res) →
  status res = 200%nat →
  User.valid cu = true ∧ User.valid ru = true
  ∧ path ∈ User.friendRequests cu
  ∧ db1 = User_put requesterId
            (User.set_friends (User.friends ru ++ [userId])
               (User.set_sentFriendRequests
                  (filter_ne userId (User.sentFriendRequests ru)) ru))
            (User_put userId
               (User.set_friends (User.friends cu ++ [requesterId])
                  (User.set_friendRequests (filter_ne path (User.friendRequests cu)) cu))
               db).
Proof.
  intros Hd Hne Hc Hr. unfold acceptFriendRequest, User_findById.
  rewrite Hc, (findById_denotes _ _ _ Hd), Hr.
  destruct (some_eq path (User.friendRequests cu)) eqn:Hreq; [|intros [= <- <-]; done].
  apply some_eq_elem in Hreq. cbn [negb].
  match goal with
  | |- context [saveBoth ?a ?b db] => remember (saveBoth a b db) as sb eqn:Hsb
  end.
  destruct (sb.2) eqn:Hsaved; [|intros [= <- <-]; done].
  rewrite Hsb in Hsaved.
  apply saveBoth_ok_valid in Hsaved as Hv. destruct Hv as [Hvc Hvr]. simpl in Hvc, Hvr.
  intros [= <- <-] _. split_and!; try done.
  rewrite Hsb, saveBoth_distinct; try done; try solve_paths.
  by rewrite Hvc, Hvr.
Qed.

(** X25. A request that is accepted makes friends.  When [u]'s request to
    [v] is served and [v] then accepts it, both ids spelt as the database
    has them, the accept is answered 200; afterwards each is in the
    other's friends list, [u] is no longer among [v]'s incoming requests
    nor [v] among [u]'s outgoing ones, and a new request from [u] to [v]
    is refused with 400 "Already friends". *)
Theorem accepted_request_makes_friends (userId targetUserId : string) (db db1 : Db)
    (res : Response) :
  denotes userId userId → denotes targetUserId targetUserId →
  sendFriendRequest userId targetUserId db = (db1, res) →
  status res = 200%nat →
  ∃ db2 u' v',
    acceptFriendRequest targetUserId userId db1
    = (db2, ok (JMessage "Friend request accepted"))
    ∧ users db2 !! userId = Some u' ∧ users db2 !! targetUserId = Some v'
    ∧ targetUserId ∈ User.friends u' ∧ userId ∈ User.friends v'
    ∧ (userId ∉ User.friendRequests v')
    ∧ (targetUserId ∉ User.sentFriendRequests u')
    ∧ notes db2 = notes db
    ∧ sendFriendRequest userId targetUserId db2 = (db2, fail 400 "Already friends").
Proof.
  intros Hdu Hdt Hrun Hst.
  destruct (sendFriendRequest_sent _ _ _ _ _ Hrun Hst)
    as (targetId & cu & tu & Hne & Hd & Hc & Ht & Hvc & Hvt & Hf & Hs & _ & Hdb1).
  rewrite (denotes_unique _ _ _ Hd Hdt) in *. clear Hd.
  rewrite Hdb1 by done. clear Hdb1.
  rewrite (acceptFriendRequest_served targetUserId userId userId _
             (User.set_friendRequests (User.friendRequests tu ++ [userId]) tu)
             (User.set_sentFriendRequests
                (User.sentFriendRequests cu ++ [targetUserId]) cu));
    try done.
  2:{ apply User_put_lookup. }
  2:{ rewrite User_put_lookup_ne by done. apply User_put_lookup. }
  2:{ simpl. rewrite elem_of_app, list_elem_of_singleton. tauto. }
  eexists _, _, _. split; [reflexivity|].
  split; [apply User_put_lookup|].
  split; [rewrite User_put_lookup_ne by done; apply User_put_lookup|].
  simpl. split_and!; try done.
  - rewrite elem_of_app, list_elem_of_singleton. tauto.
  - rewrite elem_of_app, list_elem_of_singleton. tauto.
  - rewrite filter_ne_elem. tauto.
  - rewrite filter_ne_elem. tauto.
  - unfold sendFriendRequest, User_findById.
    rewrite bool_decide_eq_false_2 by done.
    rewrite (findById_denotes _ _ _ Hdt).
    rewrite (User_put_lookup_ne userId targetUserId) by done.
    rewrite !User_put_lookup. simpl.
    assert (some_eq targetUserId (User.friends cu ++ [targetUserId]) = true) as ->; [|done].
    apply some_eq_elem. rewrite elem_of_app, list_elem_of_singleton. tauto.
Qed.

(** X26. Removing a friend undoes an accept.  When [u] accepts [v]'s
    request, the two not being friends before, and then removes [v] again,
    [v]'s id spelt as the database has it, both friends lists are exactly
    what they were before the accept. *)
Theorem remove_undoes_an_accept (userId otherId : string) (db db1 : Db)
    (res : Response) (u v : User.t) :
  denotes otherId otherId →
  userId ≠ otherId →
  users db !! userId = Some u → users db !! otherId = Some v →
  otherId ∉ User.friends u → userId ∉ User.friends v →
  acceptFriendRequest userId otherId db = (db1, res) →
  status res = 200%nat →
  ∃ db2 u2 v2,
    removeFriend userId otherId db1 = (db2, ok (JMessage "Friend removed"))
    ∧ users db2 !! userId = Some u2 ∧ users db2 !! otherId = Some v2
    ∧ User.friends u2 = User.friends u ∧ User.friends v2 = User.friends v.
Proof.
  intros Hd Hne Hu Hv Hnu Hnv Hrun Hst.
  destruct (acceptFriendRequest_accepted _ _ _ _ _ _ _ _ Hd Hne Hu Hv Hrun Hst)
    as (Hvu & Hvv & _ & ->).
  rewrite (removeFriend_served userId otherId otherId _
             (User.set_friends (User.friends u ++ [otherId])
                (User.set_friendRequests (filter_ne otherId (User.friendRequests u)) u))
             (User.set_friends (User.friends v ++ [userId])
                (User.set_sentFriendRequests
                   (filter_ne userId (User.sentFriendRequests v)) v)));
    try done.
  2:{ rewrite User_put_lookup_ne by done. apply User_put_lookup. }
  2:{ apply User_put_lookup. }
  eexists _, _, _. split; [reflexivity|].
  split; [rewrite User_put_lookup_ne by done; apply User_put_lookup|].
  split; [apply User_put_lookup|]. simpl.
  by rewrite !filter_ne_snoc.
Qed.

(** X27. The friend operations stay between the two users.  Each of
    send, accept, decline and remove leaves all notes untouched and every
    user document other than the requester's and the one the path casts
    to, and neither adds nor removes a user. *)
Theorem friend_operations_touch_only_the_pair (userId path : string) (db : Db) :
  ∀ op, op ∈ [sendFriendRequest; acceptFriendRequest; declineFriendRequest; removeFriend] →
    notes (op userId path db).1 = notes db
    ∧ (∀ w, w ≠ userId → ¬ denotes path w →
            users (op userId path db).1 !! w = users db !! w)
    ∧ (∀ w, is_Some (users (op userId path db).1 !! w) ↔ is_Some (users db !! w)).
Proof.
  assert (Hsave : ∀ (b : bool) (r1 r2 : Response) a c,
            notes (if b then ((saveBoth a c db).1, r1) else ((saveBoth a c db).1, r2)).1
            = notes db
            ∧ (∀ w, w ≠ a.1.1 → w ≠ c.1.1 →
                 users (if b then ((saveBoth a c db).1, r1)
                        else ((saveBoth a c db).1, r2)).1 !! w
                 = users db !! w)
            ∧ (∀ w, is_Some (users (if b then ((saveBoth a c db).1, r1)
                                    else ((saveBoth a c db).1, r2)).1 !! w)
                    ↔ is_Some (users db !! w))).
  { intros b r1 r2 a c. destruct b; apply saveBoth_frame. }
  intros op Hop. repeat (apply elem_of_cons in Hop as [->|Hop]).
  - unfold sendFriendRequest. case_bool_decide; [done|].
    destruct (users db !! userId) as [cu|] eqn:Hc;
      [|by destruct (User_findById path db)].
    destruct (User_findById path db) as [| |tid tu] eqn:Hf; [done..|].
    apply findById_Found in Hf as [Hd Ht].
    destruct (some_eq _ _); [done|]. destruct (some_eq _ _); [done|].
    match goal with
    | |- context [if ?b then (_, ?r1) else (_, ?r2)] =>
        destruct (Hsave b r1 r2 (userId, cu, [Push SentFriendRequests tid])
                    (tid, tu, [Push FriendRequests userId])) as (Hn & Hu & Hdom)
    end.
    split; [exact Hn|]. split; [|exact Hdom].
    intros w Hw Hnd. apply Hu; [done|]. simpl. by intros ->.
  - unfold acceptFriendRequest.
    destruct (users db !! userId) as [cu|] eqn:Hc;
      [|by destruct (User_findById path db)].
    destruct (User_findById path db) as [| |rid ru] eqn:Hf; [done..|].
    apply findById_Found in Hf as [Hd Hr].
    destruct (negb _); [done|].
    match goal with
    | |- context [saveBoth ?a ?c db] =>
        match goal with
        | |- context [if ?b then (_, ?r1) else (_, ?r2)] =>
            destruct (Hsave b r1 r2 a c) as (Hn & Hu & Hdom)
        end
    end.
    split; [exact Hn|]. split; [|exact Hdom].
    intros w Hw Hnd. apply Hu; [done|]. simpl. by intros ->.
  - unfold declineFriendRequest.
    destruct (users db !! userId) as [cu|] eqn:Hc;
      [|by destruct (User_findById path db)].
    destruct (User_findById path db) as [| |rid ru] eqn:Hf; [done..|].
    apply findById_Found in Hf as [Hd Hr].
    match goal with
    | |- context [saveBoth ?a ?c db] =>
        match goal with
        | |- context [if ?b then (_, ?r1) else (_, ?r2)] =>
            destruct (Hsave b r1 r2 a c) as (Hn & Hu & Hdom)
        end
    end.
    split; [exact Hn|]. split; [|exact Hdom].
    intros w Hw Hnd. apply Hu; [done|]. simpl. by intros ->.
  - unfold removeFriend.
    destruct (users db !! userId) as [cu|] eqn:Hc;
      [|by destruct (User_findById path db)].
    destruct (User_findById path db) as [| |fid fu] eqn:Hf; [done..|].
    apply findById_Found in Hf as [Hd Hr].
    match goal with
    | |- context [saveBoth ?a ?c db] =>
        match goal with
        | |- context [if ?b then (_, ?r1) else (_, ?r2)] =>
            destruct (Hsave b r1 r2 a c) as (Hn & Hu & Hdom)
        end
    end.
    split; [exact Hn|]. split; [|exact Hdom].
    intros w Hw Hnd. apply Hu; [done|]. simpl. by intros ->.
  - by apply elem_of_nil in Hop.
Qed.

(** X29. Where friendship stays symmetric.  From a state with symmetric
    friends lists, sending and declining a request lead to a symmetric
    state whatever the path; accepting does so when every stored user
    passes schema validation; and removing does so when, in addition, the
    path is not a respelling of an id: it is the id as the database has it
    or no ObjectId at all. *)
Theorem friend_operations_keep_symmetry (userId path : string) (db : Db) :
  Symmetric db →
  Symmetric (sendFriendRequest userId path db).1
  ∧ Symmetric (declineFriendRequest userId path db).1
  ∧ (ValidUsers db → Symmetric (acceptFriendRequest userId path db).1)
  ∧ (ValidUsers db → (∀ id, denotes path id → id = path) →
     Symmetric (removeFriend userId path db).1).
Proof.
  intros Hsym. split_and!.
  - by apply sendFriendRequest_symmetric.
  - by apply declineFriendRequest_symmetric.
  - intros Hvalid. by apply acceptFriendRequest_symmetric.
  - intros Hvalid Hcanon. destruct (castObjectId path) as [id|] eqn:Hc.
    + assert (denotes path path) as Hd.
      { unfold denotes. rewrite Hc. f_equal. by apply Hcanon. }
      by apply removeFriend_symmetric.
    + unfold removeFriend, User_findById, findById. rewrite Hc.
      by destruct (users db !! userId).
Qed.

(** X30. The friend operations write both documents.  Between two
    different stored users who pass schema validation, the path casting
    to the other user's id: a served request appends each id to the other
    one's request list; an accept appends each id to the other one's
    friends list, so that afterwards each lists the other; a decline and a
    remove filter both documents, and after a remove by the id as the
    database has it neither lists the other.  Each answers 200. *)
Theorem friend_operations_write_both_documents (userId path otherId : string) (db : Db)
    (cu ou : User.t) :
  denotes path otherId → userId ≠ otherId →
  users db !! userId = Some cu → users db !! otherId = Some ou →
  User.valid cu = true → User.valid ou = true →
  (path ≠ userId → path ∉ User.friends cu → path ∉ User.sentFriendRequests cu →
   sendFriendRequest userId path db
   = (User_put otherId
        (User.set_friendRequests (User.friendRequests ou ++ [userId]) ou)
        (User_put userId
           (User.set_sentFriendRequests (User.sentFriendRequests cu ++ [otherId]) cu) db),
      ok (JMessage "Friend request sent")))
  ∧ (path ∈ User.friendRequests cu →
     ∃ db' cu' ou',
       acceptFriendRequest userId path db = (db', ok (JMessage "Friend request accepted"))
       ∧ users db' !! userId = Some cu' ∧ users db' !! otherId = Some ou'
       ∧ User.friends cu' = (User.friends cu ++ [otherId])%list
       ∧ User.friends ou' = (User.friends ou ++ [userId])%list
       ∧ otherId ∈ User.friends cu' ∧ userId ∈ User.friends ou'
       ∧ User.friendRequests cu' = filter_ne path (User.friendRequests cu)
       ∧ User.sentFriendRequests ou' = filter_ne userId (User.sentFriendRequests ou))
  ∧ (∃ db' cu' ou',
       declineFriendRequest userId path db
       = (db', ok (JMessage "Friend request declined"))
       ∧ users db' !! userId = Some cu' ∧ users db' !! otherId = Some ou'
       ∧ User.friendRequests cu' = filter_ne path (User.friendRequests cu)
       ∧ User.sentFriendRequests ou' = filter_ne userId (User.sentFriendRequests ou)
       ∧ User.friends cu' = User.friends cu ∧ User.friends ou' = User.friends ou)
  ∧ (∃ db' cu' ou',
       removeFriend userId path db = (db', ok (JMessage "Friend removed"))
       ∧ users db' !! userId = Some cu' ∧ users db' !! otherId = Some ou'
       ∧ User.friends cu' = filter_ne path (User.friends cu)
       ∧ User.friends ou' = filter_ne userId (User.friends ou)
       ∧ (userId ∉ User.friends ou')
       ∧ (path = otherId → otherId ∉ User.friends cu')).
Proof.
  intros Hd Hne Hc Ho Hvc Hvo. split_and!.
  - intros Hself Hf Hs. by apply sendFriendRequest_served.
  - intros Hin.
    rewrite (acceptFriendRequest_served userId path otherId db cu ou) by done.
    eexists _, _, _. split; [reflexivity|].
    split; [rewrite User_put_lookup_ne by done; apply User_put_lookup|].
    split; [apply User_put_lookup|]. simpl. split_and!; try done.
    + rewrite elem_of_app, list_elem_of_singleton. tauto.
    + rewrite elem_of_app, list_elem_of_singleton. tauto.
  - rewrite (declineFriendRequest_served userId path otherId db cu ou) by done.
    eexists _, _, _. split; [reflexivity|].
    split; [rewrite User_put_lookup_ne by done; apply User_put_lookup|].
    split; [apply User_put_lookup|]. done.
  - rewrite (removeFriend_served userId path otherId db cu ou) by done.
    eexists _, _, _. split; [reflexivity|].
    split; [rewrite User_put_lookup_ne by done; apply User_put_lookup|].
    split; [apply User_put_lookup|]. simpl. split_and!; try done.
    + rewrite filter_ne_elem. tauto.
    + intros ->. rewrite filter_ne_elem. tauto.
Qed.

End FriendSequences.

(** * The further properties on the sample data *)

Lemma sample_users_valid : ValidUsers sampleDb.
Proof.
  intros id u Hu. unfold sampleDb in Hu. simpl in Hu.
  repeat (apply lookup_insert_Some in Hu as [[_ <-]|[_ Hu]]; [reflexivity|]).
  by rewrite lookup_empty in Hu.
Qed.

(** Bob likes Alice's public note: no user document changes. *)
Lemma confined_sample :
  ∃ db' res,
    route sampleUploadBase64 sampleUploadFile sampleDeleteFile bobId likeRequest
      500 freshId sampleDb = Some (db', res)
    ∧ users db' = users sampleDb.
Proof.
  eexists _, _. split; [vm_compute; reflexivity|].
  eapply (notes_requests_are_confined sampleUploadBase64 sampleUploadFile sampleDeleteFile
            bobId likeRequest 500 freshId sampleDb).
  vm_compute; reflexivity.
Defined.

(** Alice lists her notes. *)
Lemma get_sample :
  ∃ db' res,
    route sampleUploadBase64 sampleUploadFile sampleDeleteFile aliceId anonymousRequest
      500 freshId sampleDb = Some (db', res)
    ∧ db' = sampleDb.
Proof.
  eexists _, _. split; [vm_compute; reflexivity|].
  eapply (get_requests_change_nothing sampleUploadBase64 sampleUploadFile sampleDeleteFile
            aliceId anonymousRequest 500 freshId sampleDb).
  - reflexivity.
  - vm_compute; reflexivity.
Defined.

(** Bob cannot read or change Alice's pinned note, and "trash" is no
    note id. *)
Lemma foreign_note_sample :
  getNote bobId pinnedId sampleDb = (sampleDb, fail 404 "Note not found")
  ∧ deleteNote sampleDeleteFile bobId pinnedId (Some "true") 500 sampleDb
    = (sampleDb, fail 404 "Note not found")
  ∧ getNote aliceId "trash" sampleDb = (sampleDb, fail 500 "Failed to fetch note").
Proof.
  destruct (foreign_notes_are_not_found sampleUploadBase64 sampleDeleteFile
              bobId pinnedId sampleDb) as [Hforeign _].
  destruct (foreign_notes_are_not_found sampleUploadBase64 sampleDeleteFile
              aliceId "trash" sampleDb) as [_ Hcast].
  destruct (Hforeign pinnedId) as (Hget & _ & Hdel & _).
  - vm_compute; reflexivity.
  - intros n Hn.
    assert (Some n = Some pinnedNote) as [= ->] by (rewrite <- Hn; reflexivity).
    discriminate.
  - split; [exact Hget|]. split; [apply Hdel|].
    apply Hcast. reflexivity.
Defined.

(** Alice deletes her pinned note for good. *)
Lemma permanent_delete_sample :
  ∃ db',
    deleteNote sampleDeleteFile aliceId pinnedId (Some "true") 500 sampleDb
    = (db', ok (JMessage "Note permanently deleted"))
    ∧ notes db' !! pinnedId = None.
Proof.
  destruct (proj1 (permanent_delete_removes_the_note sampleDeleteFile aliceId pinnedId
                     pinnedId 500 sampleDb pinnedNote
                     ltac:(vm_compute; reflexivity) eq_refl eq_refl))
    as (db' & Hrun & Hgone & _).
  - intros img p _ _ _. reflexivity.
  - exists db'. split; [exact Hrun|exact Hgone].
Defined.


(** Alice trashes her pinned note and takes it back. *)
Lemma trash_round_trip_sample :
  restoreNote aliceId pinnedId (deleteNote sampleDeleteFile aliceId pinnedId None 500 sampleDb).1
  = (sampleDb, ok (JMessage "Note restored successfully")).
Proof.
  apply (trash_then_restore_is_identity sampleDeleteFile aliceId pinnedId pinnedId None 500
           sampleDb pinnedNote); try reflexivity.
  discriminate.
Defined.

(** After trashing, the pinned note is in Alice's deleted view. *)
Lemma trash_views_sample :
  ∃ n', (pinnedId, n')
        ∈ docsOf (listNotes aliceId None (Some "true")
                    (deleteNote sampleDeleteFile aliceId pinnedId None 500 sampleDb).1).2.
Proof.
  destruct (proj1 (trash_moves_between_views sampleDeleteFile aliceId pinnedId pinnedId
                     sampleDb pinnedNote ltac:(vm_compute; reflexivity) eq_refl eq_refl)
              None 500 _ ltac:(discriminate) eq_refl)
    as [Hin _].
  exact Hin.
Defined.

(** Alice edits her pinned note: owner and likes stay. *)
Lemma update_sample :
  ∃ old new,
    notes sampleDb !! pinnedId = Some old
    ∧ json (updateNote sampleUploadBase64 sampleDeleteFile aliceId pinnedId sampleBody
              600 sampleDb).2 = JNote (pinnedId, new)
    ∧ Note.userId new = Note.userId old ∧ Note.likes new = Note.likes old
    ∧ Note.title new = "Shopping".
Proof.
  destruct (update_keeps_owner_likes_and_trash sampleUploadBase64 sampleDeleteFile aliceId
              pinnedId sampleBody 600 sampleDb _ _ (surjective_pairing _) eq_refl)
    as (id & old & new & Hd & Hold & _ & Hj & Hu & Hl & _ & _ & _ & _ & Ht & _).
  assert (id = pinnedId) as -> by (vm_compute in Hd; injection Hd as <-; reflexivity).
  exists old, new. split; [exact Hold|]. split; [exact Hj|].
  split; [exact Hu|]. split; [exact Hl|].
  apply Ht; [reflexivity|discriminate].
Defined.

(** Carol likes Alice's public note, already liked by Bob. *)
Lemma likes_sample :
  ∃ note',
    notes (likeNote carolId recentId sampleDb).1 !! recentId = Some note'
    ∧ NoDup (Note.likes note').
Proof.
  eexists. split; [vm_compute; reflexivity|].
  eapply (likes_stay_duplicate_free carolId recentId recentId sampleDb recentNote).
  - vm_compute; reflexivity.
  - reflexivity.
  - apply NoDup_singleton.
  - vm_compute; reflexivity.
Defined.

(** Alice hides her public note; Bob's like is refused. *)
Lemma visibility_sample :
  ∃ db',
    (setVisibility aliceId recentId
       (Req.mkBody None None None None None None (Some false) None) sampleDb).1 = db'
    ∧ likeNote bobId recentId db' = (db', fail 403 "Cannot like private note").
Proof.
  destruct (visibility_decides_who_may_like aliceId recentId recentId
              (Req.mkBody None None None None None None (Some false) None)
              sampleDb recentNote ltac:(vm_compute; reflexivity) eq_refl eq_refl)
    as [Hvalid _].
  destruct (Hvalid eq_refl) as (db' & Hrun & _ & Hpriv & _).
  exists db'. split; [by rewrite Hrun|]. apply Hpriv; [reflexivity|discriminate].
Defined.

(** Alice creates a note and reads it back. *)
Lemma read_back_sample :
  ∃ note,
    json (createNote sampleUploadBase64 aliceId sampleBody 500 freshId sampleDb).2
    = JNote (freshId, note)
    ∧ getNote aliceId freshId
        (createNote sampleUploadBase64 aliceId sampleBody 500 freshId sampleDb).1
      = ((createNote sampleUploadBase64 aliceId sampleBody 500 freshId sampleDb).1,
         ok (JNote (freshId, note))).
Proof.
  destruct (created_note_can_be_read_back sampleUploadBase64 aliceId sampleBody 500 freshId
              sampleDb _ _ ltac:(vm_compute; reflexivity) (surjective_pairing _) eq_refl)
    as (note & Hj & Hget & _).
  exists note. split; [exact Hj|exact Hget].
Defined.

(** Bob copies Alice's pinned note; Bob, her friend, may also copy her
    private one. *)
Lemma duplicate_sample :
  (∃ original copy,
     notes (duplicateNote bobId pinnedId 500 freshId sampleDb).1 !! pinnedId = Some original
     ∧ notes (duplicateNote bobId pinnedId 500 freshId sampleDb).1 !! freshId = Some copy
     ∧ Note.title copy = Note.title original ++ " (Copy)")
  ∧ status (duplicateNote bobId privateId 500 freshId sampleDb).2 = 201%nat.
Proof.
  destruct (duplicate_copies_and_keeps_the_original bobId pinnedId 500 freshId sampleDb)
    as [Hcopy _].
  destruct (duplicate_copies_and_keeps_the_original bobId privateId 500 freshId sampleDb)
    as [_ Hfriend].
  split.
  - destruct (Hcopy _ _ (surjective_pairing _) eq_refl)
      as (id & original & copy & Hd & _ & Ho & Hc & _ & Ht & _).
    assert (id = pinnedId) as -> by (vm_compute in Hd; injection Hd as <-; reflexivity).
    exists original, copy. split; [exact Ho|]. split; [exact Hc|exact Ht].
  - apply (Hfriend privateId privateNote alice bob); try reflexivity.
    apply list_elem_of_singleton. reflexivity.
Defined.

(** Bob looks at Alice's notes: every entry is a public note of hers. *)
Lemma user_listing_sample :
  ∃ views,
    (userNotes bobId aliceId sampleDb).2 = ok (JUserNotes views)
    ∧ withLikeInfo bobId false (recentId, recentNote) ∈ views.
Proof.
  eexists. split; [vm_compute; reflexivity|].
  eapply (proj1 (user_listing_shows_exactly_the_visible_notes bobId aliceId sampleDb _ _)
            recentId recentNote); try reflexivity.
  right. reflexivity.
  Unshelve. vm_compute; reflexivity.
Defined.

(** Dave registers with the sample users: addresses stay unique. *)
Lemma unique_emails_sample :
  UniqueEmails sampleDb
  ∧ UniqueEmails (register sampleToLowerCase sampleAccessToken sampleRefreshToken sampleHash
                    (Some "Dave@Example.com") (Some "secret1") (Some "Dave")
                    freshId sampleDb).1.
Proof.
  assert (Huniq : UniqueEmails sampleDb)
    by (apply uniqueEmailsb_sound; vm_compute; reflexivity).
  split; [exact Huniq|].
  exact (register_keeps_emails_unique sampleToLowerCase sampleAccessToken
           sampleRefreshToken sampleHash
           (Some "Dave@Example.com") (Some "secret1") (Some "Dave") freshId sampleDb Huniq).
Defined.

(** What is stored for Dave. *)
Lemma register_stored_sample :
  ∃ u,
    users (register sampleToLowerCase sampleAccessToken sampleRefreshToken sampleHash
             (Some "Dave@Example.com") (Some "secret1") (Some "Dave")
             freshId sampleDb).1 !! freshId = Some u
    ∧ User.password u = Some (sampleHash "secret1")
    ∧ User.friends u = [].
Proof.
  destruct (register_stores_a_fresh_hashed_account sampleToLowerCase sampleAccessToken
              sampleRefreshToken
              sampleHash (Some "Dave@Example.com") (Some "secret1") (Some "Dave")
              freshId sampleDb _ _ (surjective_pairing _) eq_refl)
    as (p & u & a & t & Hp & _ & Hu & _ & _ & _ & Hpw & _ & Hf & _).
  injection Hp as <-. exists u. split; [exact Hu|]. split; [exact Hpw|exact Hf].
Defined.

(** Dave's address, typed in capitals and padded, cannot be registered
    again, not even with a password of five characters and six code
    units. *)
Lemma register_again_sample :
  ∃ db',
    (register sampleToLowerCase sampleAccessToken sampleRefreshToken sampleHash
       (Some "Dave@Example.com") (Some "secret1") (Some "Dave") freshId sampleDb).1 = db'
    ∧ register sampleToLowerCase sampleAccessToken sampleRefreshToken sampleHash
        (Some "  DAVE@EXAMPLE.COM ") (Some "pass😀") (Some "David") carolId db'
      = (db', fail 400 "Email already registered").
Proof.
  eexists. split; [reflexivity|].
  eapply (registered_email_cannot_be_registered_again sampleToLowerCase sampleAccessToken
            sampleRefreshToken
            sampleHash (Some "Dave@Example.com") (Some "secret1") (Some "Dave")
            freshId sampleDb).
  - vm_compute; reflexivity.
  - discriminate.
  - discriminate.
  - vm_compute; lia.
  - vm_compute; reflexivity.
Defined.

(** Alice logs in; a wrong password and an unknown address look alike. *)
Lemma login_sample :
  login sampleToLowerCase sampleAccessToken sampleRefreshToken sampleCompare
    (Some "nobody@example.com") (Some "hash") sampleDb
  = (sampleDb, refuse 401 "Invalid email or password")
  ∧ login sampleToLowerCase sampleAccessToken sampleRefreshToken sampleCompare
      (Some " Alice@Example.com") (Some "wrong") sampleDb
    = (sampleDb, refuse 401 "Invalid email or password")
  ∧ code (login sampleToLowerCase sampleAccessToken sampleRefreshToken sampleCompare
            (Some " Alice@Example.com") (Some "hash") sampleDb).2 = 200%nat.
Proof.
  destruct (login_is_uniform_and_writes_the_token sampleToLowerCase sampleAccessToken
              sampleRefreshToken
              sampleCompare "nobody@example.com" "hash" sampleDb
              ltac:(discriminate) ltac:(discriminate)) as (Hunknown & _).
  destruct (login_is_uniform_and_writes_the_token sampleToLowerCase sampleAccessToken
              sampleRefreshToken
              sampleCompare " Alice@Example.com" "wrong" sampleDb
              ltac:(discriminate) ltac:(discriminate)) as (_ & Hwrong & _).
  destruct (login_is_uniform_and_writes_the_token sampleToLowerCase sampleAccessToken
              sampleRefreshToken
              sampleCompare " Alice@Example.com" "hash" sampleDb
              ltac:(discriminate) ltac:(discriminate)) as (_ & _ & _ & Hright).
  split; [|split].
  - apply Hunknown. vm_compute; reflexivity.
  - apply (Hwrong aliceId alice); vm_compute; reflexivity.
  - apply (Hright aliceId alice); vm_compute; reflexivity.
Defined.

(** Alice refreshes her session; the old token is then refused. *)
Lemma refresh_sample :
  ∃ db',
    (refresh sampleAccessToken laterRefreshToken sampleVerify
       (Some (sampleRefreshToken aliceId)) sessionDb).1 = db'
    ∧ refresh sampleAccessToken laterRefreshToken sampleVerify
        (Some (sampleRefreshToken aliceId)) db'
      = (db', refuse 401 "Invalid refresh token").
Proof.
  eexists. split; [reflexivity|].
  destruct (refresh_token_is_single_use sampleVerify sampleAccessToken laterRefreshToken
              sampleAccessToken laterRefreshToken (sampleRefreshToken aliceId) sessionDb
              _ _ (surjective_pairing _) eq_refl)
    as (userId & newToken & Hans & _ & Hold).
  injection Hans as _ <-. apply Hold. discriminate.
Defined.

(** The token Alice gets at login opens a refresh. *)
Lemma login_refresh_sample :
  ∃ db' db'',
    (login sampleToLowerCase sampleAccessToken sampleRefreshToken sampleCompare
       (Some "alice@example.com") (Some "hash") sampleDb).1 = db'
    ∧ refresh sampleAccessToken laterRefreshToken sampleVerify
        (Some (sampleRefreshToken aliceId)) db'
      = (db'', reply (ATokens (sampleAccessToken aliceId) (laterRefreshToken aliceId))).
Proof.
  eexists.
  destruct (login_token_is_accepted_by_refresh sampleVerify sampleToLowerCase
              sampleAccessToken
              sampleRefreshToken sampleAccessToken laterRefreshToken sampleCompare
              (Some "alice@example.com") (Some "hash") sampleDb
              (login sampleToLowerCase sampleAccessToken sampleRefreshToken sampleCompare
                 (Some "alice@example.com") (Some "hash") sampleDb).1
              "Login successful" aliceId "alice@example.com" "Alice"
              (sampleAccessToken aliceId) (sampleRefreshToken aliceId))
    as (db'' & Hrun & _).
  - vm_compute; reflexivity.
  - discriminate.
  - reflexivity.
  - exists db''. split; [reflexivity|exact Hrun].
Defined.

(** After Alice logs out her token is refused. *)
Lemma logout_sample :
  ∃ db',
    logout aliceId sessionDb = (db', reply (AMessage "Logged out successfully"))
    ∧ code (refresh sampleAccessToken laterRefreshToken sampleVerify
              (Some (sampleRefreshToken aliceId)) db').2 ≠ 200%nat.
Proof.
  destruct (proj1 (logout_invalidates_refresh_tokens sampleVerify sampleAccessToken
                     laterRefreshToken aliceId sessionDb))
    as (db' & Hrun & _ & _ & _ & Hrefused).
  - intros u Hu.
    assert (Some u = Some aliceLoggedIn) as [= ->] by (rewrite <- Hu; reflexivity).
    reflexivity.
  - exists db'. split; [exact Hrun|].
    apply (Hrefused (sampleRefreshToken aliceId) (Decoded.mk "refresh" aliceId));
      reflexivity.
Defined.

(** Alice renames herself; a blank name is refused. *)
Lemma profile_sample :
  (∃ u', users (updateProfile aliceId (Some "  Alice B  ") None None None sampleDb).1
           !! aliceId = Some u'
         ∧ User.name u' = "Alice B" ∧ User.friends u' = [bobId])
  ∧ (updateProfile aliceId (Some "   ") None None None sampleDb).2
    = refuse 500 "Failed to update profile".
Proof.
  split.
  - destruct (proj1 (profile_update_touches_only_the_profile aliceId (Some "  Alice B  ")
                       None None None sampleDb _ _ (surjective_pairing _)) eq_refl)
      as (u & u' & Hu & Hdb' & _ & _ & _ & _ & Hf & _ & _ & Hname & _).
    exists u'. split; [by rewrite Hdb', lookup_insert_eq|].
    split; [exact (proj1 (Hname _ eq_refl))|].
    rewrite Hf. assert (Some u = Some alice) as [= ->] by (rewrite <- Hu; reflexivity).
    reflexivity.
  - apply (proj1 (proj2 (proj2 (profile_update_touches_only_the_profile aliceId (Some "   ")
                           None None None sampleDb _ _ (surjective_pairing _))))
             "   " alice); reflexivity.
Defined.

(** Bob may view Alice's notes, Carol may not; the listing agrees. *)
Lemma canViewNotes_sample :
  ∃ p q,
    answer (getUserProfile bobId aliceId sampleDb).2 = AProfile p
    ∧ Profile.canViewNotes p = true
    ∧ answer (getUserProfile carolId aliceId sampleDb).2 = AProfile q
    ∧ status (userNotes carolId aliceId sampleDb).2 ≠ 200%nat.
Proof.
  eexists _, _. split; [reflexivity|].
  destruct (canViewNotes_agrees_with_the_listing bobId aliceId sampleDb) as (Hbob & _).
  destruct (canViewNotes_agrees_with_the_listing carolId aliceId sampleDb) as (Hcarol & _).
  split; [apply (Hbob _ eq_refl); reflexivity|].
  split; [reflexivity|].
  intros Hst. apply (Hcarol _ eq_refl) in Hst. discriminate Hst.
Defined.

(** Alice asks Carol, Carol declines: nothing has changed. *)
Lemma decline_sample :
  declineFriendRequest carolId aliceId (sendFriendRequest aliceId carolId sampleDb).1
  = (sampleDb, ok (JMessage "Friend request declined")).
Proof.
  apply (decline_undoes_a_request aliceId carolId sampleDb _ _
           ltac:(vm_compute; reflexivity) ltac:(vm_compute; reflexivity)
           (surjective_pairing _) eq_refl).
  intros tu Htu.
  assert (Some tu = Some carol) as [= ->] by (rewrite <- Htu; reflexivity).
  apply not_elem_of_nil.
Defined.

(** Alice asks Carol twice. *)
Lemma request_twice_sample :
  sendFriendRequest aliceId carolId (sendFriendRequest aliceId carolId sampleDb).1
  = ((sendFriendRequest aliceId carolId sampleDb).1,
     fail 400 "Friend request already sent").
Proof.
  apply (friend_request_guards aliceId carolId sampleDb).
  - vm_compute; reflexivity.
  - reflexivity.
Defined.

(** Alice asks Carol, Carol accepts. *)
Lemma accept_sample :
  ∃ db2 u' v',
    acceptFriendRequest carolId aliceId (sendFriendRequest aliceId carolId sampleDb).1
    = (db2, ok (JMessage "Friend request accepted"))
    ∧ users db2 !! aliceId = Some u' ∧ users db2 !! carolId = Some v'
    ∧ carolId ∈ User.friends u' ∧ aliceId ∈ User.friends v'.
Proof.
  destruct (accepted_request_makes_friends aliceId carolId sampleDb _ _
              ltac:(vm_compute; reflexivity) ltac:(vm_compute; reflexivity)
              (surjective_pairing _) eq_refl)
    as (db2 & u' & v' & Hrun & Hu & Hv & Hf1 & Hf2 & _).
  exists db2, u', v'. auto.
Defined.

(** Bob accepts Carol and removes her again. *)
Lemma remove_sample :
  ∃ db2 u2,
    removeFriend bobId carolId (acceptFriendRequest bobId carolId sampleDb).1
    = (db2, ok (JMessage "Friend removed"))
    ∧ users db2 !! bobId = Some u2 ∧ User.friends u2 = [aliceId].
Proof.
  assert (Hnu : carolId ∉ User.friends bob).
  { intros Hin. apply list_elem_of_singleton in Hin. discriminate Hin. }
  assert (Hnv : bobId ∉ User.friends carol) by apply not_elem_of_nil.
  destruct (remove_undoes_an_accept bobId carolId sampleDb
              (acceptFriendRequest bobId carolId sampleDb).1
              (acceptFriendRequest bobId carolId sampleDb).2 bob carol
              ltac:(vm_compute; reflexivity)
              ltac:(discriminate) eq_refl eq_refl Hnu Hnv (surjective_pairing _) eq_refl)
    as (db2 & u2 & v2 & Hrun & Hu & _ & Hf & _).
  exists db2, u2. split; [exact Hrun|]. split; [exact Hu|exact Hf].
Defined.

(** Alice's notes and document are untouched when Bob accepts Carol. *)
Lemma pair_only_sample :
  notes (acceptFriendRequest bobId carolId sampleDb).1 = notes sampleDb
  ∧ users (acceptFriendRequest bobId carolId sampleDb).1 !! aliceId
    = users sampleDb !! aliceId.
Proof.
  destruct (friend_operations_touch_only_the_pair bobId carolId sampleDb
              acceptFriendRequest) as (Hnotes & Hthird & _).
  - right. left.
  - split; [exact Hnotes|]. apply Hthird; [discriminate|].
    intros Hd. vm_compute in Hd. discriminate Hd.
Defined.

(** Bob accepts Carol, and Alice removes Bob by his id as stored:
    friendship stays symmetric. *)
Lemma symmetry_sample :
  Symmetric (acceptFriendRequest bobId carolId sampleDb).1
  ∧ Symmetric (removeFriend aliceId bobId sampleDb).1.
Proof.
  assert (Hsym : Symmetric sampleDb)
    by (apply symmetricb_sound; vm_compute; reflexivity).
  destruct (friend_operations_keep_symmetry bobId carolId sampleDb Hsym)
    as (_ & _ & Haccept & _).
  destruct (friend_operations_keep_symmetry aliceId bobId sampleDb Hsym)
    as (_ & _ & _ & Hremove).
  split.
  - apply Haccept, sample_users_valid.
  - apply Hremove; [apply sample_users_valid|].
    intros id Hd. vm_compute in Hd. injection Hd as <-. reflexivity.
Defined.

(** Bob accepts Carol: both documents are written, and each lists the
    other. *)
Lemma both_documents_sample :
  ∃ db' bob' carol',
    acceptFriendRequest bobId carolId sampleDb
    = (db', ok (JMessage "Friend request accepted"))
    ∧ users db' !! bobId = Some bob' ∧ users db' !! carolId = Some carol'
    ∧ carolId ∈ User.friends bob' ∧ bobId ∈ User.friends carol'.
Proof.
  destruct (friend_operations_write_both_documents bobId carolId carolId sampleDb bob carol
              ltac:(vm_compute; reflexivity) ltac:(discriminate) eq_refl eq_refl
              eq_refl eq_refl)
    as (_ & Haccept & _).
  destruct Haccept as (db' & bob' & carol' & Hrun & Hb & Hc & _ & _ & Hin1 & Hin2 & _).
  { apply list_elem_of_singleton. reflexivity. }
  exists db', bob', carol'. auto.
Defined.
